(** * ABG analyzer: the ATS six-step engine of [src/utils/abgCalculator.js]

    The class [ABGAnalyzer] keeps two mutable fields, [this.results] and
    [this.state]; every method reads and writes them and returns the text of
    its step.  The embedding below threads the object explicitly through a
    small state monad, one Rocq definition per method, with the names of the
    source.

    Numbers.  The engine is embedded twice.  In the first embedding a
    number is [NaN] or a finite rational ([Q], exact arithmetic); it carries
    the statements on the course of an analysis (which steps run, what they
    store and in which order, the texts) and on the tests that compare a
    measurement or a stored value with a literal.  In the second
    ([Module IEEE]) a number is an IEEE 754 binary64 value ([SpecFloat] of
    the Standard Library) and every operation rounds as JavaScript does,
    with both zeros, the infinities and NaN; it carries the statements whose
    outcome hangs on a computed value: the compensation bands of step 4, the
    anion gap of step 5 and the consistency check of step 1.  There one unit
    in the last place decides the branch: PaCO2 29.8 with HCO3 13.2 is found
    2.0000000000000036 away from the expected value, outside a band of 2.

    Input values.  A measurement is [undefined], [null] or a number, which
    is what the presence checks of the source distinguish.  Within that input
    type no modelled operation throws, so the [catch] block of [analyze] is
    never entered; it is recalled in a comment at its place.

    Runtime.  [Math.pow], [Number.prototype.toFixed] and the conversion of a
    number to a string inside a template literal are services of the
    JavaScript runtime.  They are taken as an interface ([JSRuntime]); every
    theorem holds for each implementation of it.

    Callers.  The handlers through which the application reaches the engine
    are embedded after it: [handleAnalysis] and [handleError] of [App.jsx]
    with the results column they feed, [validateInput] and [handleSubmit]
    of [ManualInputForm.jsx], and [handleOcrValueChange] and
    [handleProcessOcr] of [FileUpload.jsx].  [parseFloat] on the text of a
    field is an interface as well ([StringParser]). *)

From Stdlib Require Import QArith Qabs Qround Lqa Ascii.
From Stdlib Require String DecimalString SpecFloat.
From stdpp Require Import base strings gmap list.

(* ------------------------------------------------------------------ *)
(** ** Numbers *)

Module Num.

Inductive number : Type :=
| NaN
| Fin (q : Q).

Definition Qlt_bool (x y : Q) : bool := negb (Qle_bool y x).

(** [a < b], [a <= b], [a > b], [a >= b]: false as soon as one side is NaN. *)
Definition lt (a b : number) : bool :=
  match a, b with Fin x, Fin y => Qlt_bool x y | _, _ => false end.
Definition le (a b : number) : bool :=
  match a, b with Fin x, Fin y => Qle_bool x y | _, _ => false end.
Definition gt (a b : number) : bool := lt b a.
Definition ge (a b : number) : bool := le b a.

(** [a === b] on numbers. *)
Definition strict_eq (a b : number) : bool :=
  match a, b with Fin x, Fin y => Qeq_bool x y | _, _ => false end.

Definition lift2 (f : Q -> Q -> Q) (a b : number) : number :=
  match a, b with Fin x, Fin y => Fin (f x y) | _, _ => NaN end.

Definition add : number -> number -> number := lift2 Qplus.
Definition sub : number -> number -> number := lift2 Qminus.
Definition mul : number -> number -> number := lift2 Qmult.

(** [a / b].  Both divisions of the engine sit behind the test
    [b === 0]; a zero divisor, which would give an infinity or NaN in
    JavaScript, is mapped to [NaN] here and is not reached (lemma
    [div_guarded]). *)
Definition div (a b : number) : number :=
  match a, b with
  | Fin x, Fin y => if Qeq_bool y 0 then NaN else Fin (x / y)
  | _, _ => NaN
  end.

Definition neg (a : number) : number :=
  match a with Fin x => Fin (- x) | NaN => NaN end.

(** [Math.abs] and [Math.max]. *)
Definition abs (a : number) : number :=
  match a with Fin x => Fin (Qabs x) | NaN => NaN end.
Definition max (a b : number) : number :=
  lift2 (fun x y => if Qle_bool x y then y else x) a b.

Definition is_nan (a : number) : bool :=
  match a with NaN => true | Fin _ => false end.

End Num.

Export Num(number, NaN, Fin).

Declare Scope js_scope.
Delimit Scope js_scope with js.
Bind Scope js_scope with number.
Infix "+" := Num.add : js_scope.
Infix "-" := Num.sub : js_scope.
Infix "*" := Num.mul : js_scope.
Infix "/" := Num.div : js_scope.
Infix "<?" := Num.lt (at level 70) : js_scope.
Infix "<=?" := Num.le (at level 70) : js_scope.
Infix ">?" := Num.gt (at level 70) : js_scope.
Infix ">=?" := Num.ge (at level 70) : js_scope.
Infix "===" := Num.strict_eq (at level 70) : js_scope.

(** A numeric literal of the source. *)
Definition lit (q : Q) : number := Fin q.
Arguments lit q%_Q.

(* ------------------------------------------------------------------ *)
(** ** Values of the measurement object *)

Inductive jsval : Type :=
| JUndefined
| JNull
| JNum (n : number).

(** The abstract operation ToNumber, applied by [isNaN], by arithmetic and
    by the relational operators. *)
Definition ToNumber (v : jsval) : number :=
  match v with
  | JUndefined => NaN
  | JNull => lit 0
  | JNum n => n
  end.

Definition isNaN (v : jsval) : bool := Num.is_nan (ToNumber v).

(** [parseFloat] converts its argument to a string and parses it back:
    a number comes back unchanged, ["undefined"] and ["null"] give NaN. *)
Definition parseFloat (v : jsval) : number :=
  match v with
  | JNum n => n
  | JUndefined | JNull => NaN
  end.

Definition is_undefined (v : jsval) : bool :=
  match v with JUndefined => true | _ => false end.
Definition is_null (v : jsval) : bool :=
  match v with JNull => true | _ => false end.

(** The measurement object: property name to value.  Reading a property
    that is absent gives [undefined]. *)
Definition prop (values : gmap string jsval) (key : string) : jsval :=
  default JUndefined (values !! key).

(* ------------------------------------------------------------------ *)
(** ** Strings *)

Module Str.

(** [s.includes(t)]. *)
Fixpoint includes (s t : string) : bool :=
  String.prefix t s ||
  match s with
  | EmptyString => false
  | String _ s' => includes s' t
  end.

(** [s.replace(/_/g, ' ')]. *)
Fixpoint replace_underscores (s : string) : string :=
  match s with
  | EmptyString => EmptyString
  | String c s' =>
      String (if Ascii.eqb c "_"%char then " "%char else c)
             (replace_underscores s')
  end.

Fixpoint drop (n : nat) (s : string) : string :=
  match n, s with
  | S n', String _ s' => drop n' s'
  | _, _ => s
  end.

(** [s.replace(t, r)] with a string pattern: the first occurrence only. *)
Fixpoint replace_first (s t r : string) : string :=
  if String.prefix t s then r +:+ drop (String.length t) s
  else match s with
       | EmptyString => EmptyString
       | String c s' => String c (replace_first s' t r)
       end.

(** White space of [trim], as far as single bytes go. *)
Definition is_space (c : ascii) : bool :=
  let n := Ascii.nat_of_ascii c in
  (n =? 32)%nat || ((9 <=? n)%nat && (n <=? 13)%nat).

Fixpoint trim_start (s : string) : string :=
  match s with
  | String c s' => if is_space c then trim_start s' else s
  | EmptyString => EmptyString
  end.

Fixpoint trim_end (s : string) : string :=
  match s with
  | EmptyString => EmptyString
  | String c s' =>
      match trim_end s' with
      | EmptyString => if is_space c then EmptyString else String c EmptyString
      | t => String c t
      end
  end.

Definition trim (s : string) : string := trim_end (trim_start s).

(** [s.toUpperCase()] on the letters a-z. *)
Definition upper_char (c : ascii) : ascii :=
  let n := Ascii.nat_of_ascii c in
  if (97 <=? n)%nat && (n <=? 122)%nat then Ascii.ascii_of_nat (n - 32) else c.

Fixpoint toUpperCase (s : string) : string :=
  match s with
  | EmptyString => EmptyString
  | String c s' => String (upper_char c) (toUpperCase s')
  end.

(** [arr.join(sep)]. *)
Fixpoint join (sep : string) (l : list string) : string :=
  match l with
  | [] => EmptyString
  | [x] => x
  | x :: rest => x +:+ sep +:+ join sep rest
  end.

(** Truthiness of a string. *)
Definition truthy (s : string) : bool := negb (String.eqb s "").

End Str.

(** [arr.includes(x)] on an array of strings. *)
Definition includes (l : list string) (x : string) : bool :=
  existsb (String.eqb x) l.

(** [[...new Set(arr)]]: the elements in the order of their first
    occurrence. *)
Fixpoint unique_acc (seen l : list string) : list string :=
  match l with
  | [] => []
  | x :: rest =>
      if includes seen x then unique_acc seen rest
      else x :: unique_acc (seen ++ [x]) rest
  end.
Definition unique (l : list string) : list string := unique_acc [] l.

(* ------------------------------------------------------------------ *)
(** ** The analyzer object *)

(** [this.state], as [resetStateAndResults] lays it out. *)
Record AnalysisState : Type := mkState {
  acidBaseStatus : option string;
  primaryDisorder : option string;
  compensationType : option string;
  expectedCompensationValue : option number;
  compensationAssessment : option string;
  additionalDisorders : list string;
  anionGap : option number;
  correctedAnionGap : option number;
  deltaRatio : option number;
  deltaRatioAssessment : option string
}.

(** [this.results]. *)
Record Results : Type := mkResults {
  step1 : string;
  step2 : string;
  step3 : string;
  step4 : string;
  step5 : string;
  step6 : string;
  finalInterpretation : string;
  error : option string
}.

Record ABGAnalyzer : Type := mkAnalyzer {
  results : Results;
  state : AnalysisState
}.

(** What [analyze] returns: [{ ...this.results, state: this.state }].
    [resetStateAndResults] assigns fresh objects to both fields at the start
    of every call and the stages only assign fields of those, so the value
    returned by an earlier call is not touched by a later one; the snapshot
    is modelled by value. *)
Record AnalysisResult : Type := mkAnalysisResult {
  texts : Results;
  final_state : AnalysisState
}.

(** Field assignments [this.state.f = v]. *)
Definition with_acidBaseStatus v (s : AnalysisState) :=
  mkState v (primaryDisorder s) (compensationType s)
    (expectedCompensationValue s) (compensationAssessment s)
    (additionalDisorders s) (anionGap s) (correctedAnionGap s)
    (deltaRatio s) (deltaRatioAssessment s).
Definition with_primaryDisorder v (s : AnalysisState) :=
  mkState (acidBaseStatus s) v (compensationType s)
    (expectedCompensationValue s) (compensationAssessment s)
    (additionalDisorders s) (anionGap s) (correctedAnionGap s)
    (deltaRatio s) (deltaRatioAssessment s).
Definition with_compensationType v (s : AnalysisState) :=
  mkState (acidBaseStatus s) (primaryDisorder s) v
    (expectedCompensationValue s) (compensationAssessment s)
    (additionalDisorders s) (anionGap s) (correctedAnionGap s)
    (deltaRatio s) (deltaRatioAssessment s).
Definition with_expectedCompensationValue v (s : AnalysisState) :=
  mkState (acidBaseStatus s) (primaryDisorder s) (compensationType s)
    v (compensationAssessment s)
    (additionalDisorders s) (anionGap s) (correctedAnionGap s)
    (deltaRatio s) (deltaRatioAssessment s).
Definition with_compensationAssessment v (s : AnalysisState) :=
  mkState (acidBaseStatus s) (primaryDisorder s) (compensationType s)
    (expectedCompensationValue s) v
    (additionalDisorders s) (anionGap s) (correctedAnionGap s)
    (deltaRatio s) (deltaRatioAssessment s).
Definition with_additionalDisorders v (s : AnalysisState) :=
  mkState (acidBaseStatus s) (primaryDisorder s) (compensationType s)
    (expectedCompensationValue s) (compensationAssessment s)
    v (anionGap s) (correctedAnionGap s)
    (deltaRatio s) (deltaRatioAssessment s).
Definition with_anionGap v (s : AnalysisState) :=
  mkState (acidBaseStatus s) (primaryDisorder s) (compensationType s)
    (expectedCompensationValue s) (compensationAssessment s)
    (additionalDisorders s) v (correctedAnionGap s)
    (deltaRatio s) (deltaRatioAssessment s).
Definition with_correctedAnionGap v (s : AnalysisState) :=
  mkState (acidBaseStatus s) (primaryDisorder s) (compensationType s)
    (expectedCompensationValue s) (compensationAssessment s)
    (additionalDisorders s) (anionGap s) v
    (deltaRatio s) (deltaRatioAssessment s).
Definition with_deltaRatio v (s : AnalysisState) :=
  mkState (acidBaseStatus s) (primaryDisorder s) (compensationType s)
    (expectedCompensationValue s) (compensationAssessment s)
    (additionalDisorders s) (anionGap s) (correctedAnionGap s)
    v (deltaRatioAssessment s).
Definition with_deltaRatioAssessment v (s : AnalysisState) :=
  mkState (acidBaseStatus s) (primaryDisorder s) (compensationType s)
    (expectedCompensationValue s) (compensationAssessment s)
    (additionalDisorders s) (anionGap s) (correctedAnionGap s)
    (deltaRatio s) v.

(** Field assignments [this.results.f = v]. *)
Definition with_step1 v (r : Results) :=
  mkResults v (step2 r) (step3 r) (step4 r) (step5 r) (step6 r)
    (finalInterpretation r) (error r).
Definition with_step2 v (r : Results) :=
  mkResults (step1 r) v (step3 r) (step4 r) (step5 r) (step6 r)
    (finalInterpretation r) (error r).
Definition with_step3 v (r : Results) :=
  mkResults (step1 r) (step2 r) v (step4 r) (step5 r) (step6 r)
    (finalInterpretation r) (error r).
Definition with_step4 v (r : Results) :=
  mkResults (step1 r) (step2 r) (step3 r) v (step5 r) (step6 r)
    (finalInterpretation r) (error r).
Definition with_step5 v (r : Results) :=
  mkResults (step1 r) (step2 r) (step3 r) (step4 r) v (step6 r)
    (finalInterpretation r) (error r).
Definition with_step6 v (r : Results) :=
  mkResults (step1 r) (step2 r) (step3 r) (step4 r) (step5 r) v
    (finalInterpretation r) (error r).
Definition with_finalInterpretation v (r : Results) :=
  mkResults (step1 r) (step2 r) (step3 r) (step4 r) (step5 r) (step6 r)
    v (error r).
Definition with_error v (r : Results) :=
  mkResults (step1 r) (step2 r) (step3 r) (step4 r) (step5 r) (step6 r)
    (finalInterpretation r) v.

(* ------------------------------------------------------------------ *)
(** ** Methods as state transformers *)

Definition Method (A : Type) : Type := ABGAnalyzer -> A * ABGAnalyzer.

Definition ret {A} (a : A) : Method A := fun this => (a, this).
Definition bind {A B} (m : Method A) (k : A -> Method B) : Method B :=
  fun this => let (a, this') := m this in k a this'.

Declare Scope method_scope.
Delimit Scope method_scope with method.
Bind Scope method_scope with Method.
Notation "x <- m ;; k" := (bind m (fun x => k))
  (at level 100, m at next level, right associativity) : method_scope.
Notation "m ;; k" := (bind m (fun _ => k))
  (at level 100, right associativity) : method_scope.

Definition get_state : Method AnalysisState := fun this => (state this, this).
Definition get_results : Method Results := fun this => (results this, this).
Definition set_state (f : AnalysisState -> AnalysisState) : Method unit :=
  fun this => (tt, mkAnalyzer (results this) (f (state this))).
Definition set_results (f : Results -> Results) : Method unit :=
  fun this => (tt, mkAnalyzer (f (results this)) (state this)).

(** [this.state.additionalDisorders.push(x)]. *)
Definition push_additional (x : string) : Method unit :=
  set_state (fun s => with_additionalDisorders (additionalDisorders s ++ [x]) s).

(** The services of the JavaScript runtime used by the engine. *)
Class JSRuntime : Type := {
  (** [Math.pow(b, e)] *)
  Math_pow : number -> number -> number;
  (** [x.toFixed(d)] *)
  toFixed : number -> nat -> string;
  (** the text of [${x}] in a template literal, for a number [x] *)
  Number_toString : number -> string
}.

(** [x === 'text'] for a field that holds [null] or a string. *)
Definition is_str (x : option string) (t : string) : bool :=
  match x with Some s => String.eqb s t | None => false end.

(** [!x] for a field that holds [null] or a string. *)
Definition falsy (x : option string) : bool :=
  match x with Some s => negb (Str.truthy s) | None => true end.

(** [x ?? y]. *)
Definition nullish {A} (x y : option A) : option A :=
  match x with Some _ => x | None => y end.

(** ToNumber of a field that holds [null] or a number. *)
Definition num_of_field (x : option number) : number :=
  match x with Some n => n | None => lit 0 end.

Definition fresh_results : Results :=
  mkResults "" "" "" "" "" "" "" None.
Definition fresh_state : AnalysisState :=
  mkState None None None None None [] None None None None.

Section Engine.
Context {rt : JSRuntime}.
Local Open Scope method_scope.

(** [${v}] for a property of the measurement object. *)
Definition template (v : jsval) : string :=
  match v with
  | JUndefined => "undefined"
  | JNull => "null"
  | JNum n => Number_toString n
  end.

Definition resetStateAndResults : Method unit :=
  fun _ => (tt, mkAnalyzer fresh_results fresh_state).

(** The [for (const key of required)] loop of [validateInputs]: the first
    key whose value is [undefined], [null] or NaN. *)
Fixpoint first_invalid (values : gmap string jsval) (required : list string)
  : option string :=
  match required with
  | [] => None
  | key :: rest =>
      let v := prop values key in
      if is_undefined v || is_null v || isNaN v then Some key
      else first_invalid values rest
  end.

Definition validateInputs (values : gmap string jsval) : Method bool :=
  let required := ["ph"; "paco2"; "hco3"] in
  match first_invalid values required with
  | Some key =>
      set_results (with_error
        (Some ("Missing or invalid required value: " +:+ Str.toUpperCase key))) ;;
      ret false
  | None =>
      let ph := prop values "ph" in
      let paco2 := prop values "paco2" in
      let hco3 := prop values "hco3" in
      if (ToNumber ph <? lit 6.0)%js || (ToNumber ph >? lit 8.0)%js then
        set_results (with_error (Some ("pH value (" +:+ template ph +:+
          ") is outside typical physiological range (6.8-8.0)."))) ;;
        ret false
      else if (ToNumber paco2 <? lit 10)%js || (ToNumber paco2 >? lit 150)%js then
        set_results (with_error (Some ("PaCO₂ value (" +:+ template paco2 +:+
          ") is outside typical physiological range (10-150 mmHg)."))) ;;
        ret false
      else if (ToNumber hco3 <? lit 2)%js || (ToNumber hco3 >? lit 60)%js then
        set_results (with_error (Some ("HCO₃⁻ value (" +:+ template hco3 +:+
          ") is outside typical physiological range (5-60 mmol/L)."))) ;;
        ret false
      else ret true
  end.

(** Step 1.  The method reads and writes no field. *)
Definition checkInternalConsistency (ph paco2 hco3 : number) : Method string :=
  if (hco3 === lit 0)%js then ret "Inconsistency: HCO₃⁻ cannot be zero."
  else
    let calculatedH := (lit 24 * (paco2 / hco3))%js in
    let measuredH := (Math_pow (lit 10) (Num.neg ph) * lit 1e9)%js in
    let difference := Num.abs (calculatedH - measuredH) in
    let acceptableDifference := (measuredH * lit 0.20)%js in
    if (difference >? acceptableDifference)%js && negb (Num.is_nan difference) then
      ret ("Possible inconsistency detected. Measured [H⁺] ≈ " +:+
           toFixed measuredH 1 +:+ " nmol/L, Calculated [H⁺] ≈ " +:+
           toFixed calculatedH 1 +:+ " nmol/L.")
    else
      ret ("Values appear internally consistent. Measured [H⁺] ≈ " +:+
           toFixed measuredH 1 +:+ " nmol/L, Calculated [H⁺] ≈ " +:+
           toFixed calculatedH 1 +:+ " nmol/L.").

(** Step 2. *)
Definition determineAcidemiaAlkalemia (ph : number) : Method string :=
  if (ph <? lit 7.35)%js then
    set_state (with_acidBaseStatus (Some "acidemia")) ;;
    ret ("Acidemia (pH " +:+ toFixed ph 2 +:+ " < 7.35)")
  else if (ph >? lit 7.45)%js then
    set_state (with_acidBaseStatus (Some "alkalemia")) ;;
    ret ("Alkalemia (pH " +:+ toFixed ph 2 +:+ " > 7.45)")
  else
    set_state (with_acidBaseStatus (Some "normal")) ;;
    ret ("Normal pH (" +:+ toFixed ph 2 +:+ ")").

(** Step 3.  Every branch of the source assigns [primaryDisorder] and the
    local [disorder], which is returned at the end. *)
Definition identifyPrimaryDisorder (ph paco2 hco3 : number) : Method string :=
  st <- get_state ;;
  let status := acidBaseStatus st in
  if is_str status "acidemia" then
    (if (paco2 >? lit 45)%js then
       set_state (with_primaryDisorder (Some "respiratory acidosis")) ;;
       ret ("Primary Respiratory Acidosis (PaCO₂ " +:+ Number_toString paco2 +:+
            " mmHg is high)")
     else if (hco3 <? lit 22)%js then
       set_state (with_primaryDisorder (Some "metabolic acidosis")) ;;
       ret ("Primary Metabolic Acidosis (HCO₃⁻ " +:+ Number_toString hco3 +:+
            " mmol/L is low)")
     else
       set_state (with_primaryDisorder (Some "mixed acidemia")) ;;
       ret ("Acidemia present, but PaCO₂ (" +:+ Number_toString paco2 +:+
            ") and HCO₃⁻ (" +:+ Number_toString hco3 +:+
            ") do not clearly indicate a single primary disorder. Mixed disorder likely."))
  else if is_str status "alkalemia" then
    (if (paco2 <? lit 35)%js then
       set_state (with_primaryDisorder (Some "respiratory alkalosis")) ;;
       ret ("Primary Respiratory Alkalosis (PaCO₂ " +:+ Number_toString paco2 +:+
            " mmHg is low)")
     else if (hco3 >? lit 26)%js then
       set_state (with_primaryDisorder (Some "metabolic alkalosis")) ;;
       ret ("Primary Metabolic Alkalosis (HCO₃⁻ " +:+ Number_toString hco3 +:+
            " mmol/L is high)")
     else
       set_state (with_primaryDisorder (Some "mixed alkalemia")) ;;
       ret ("Alkalemia present, but PaCO₂ (" +:+ Number_toString paco2 +:+
            ") and HCO₃⁻ (" +:+ Number_toString hco3 +:+
            ") do not clearly indicate a single primary disorder. Mixed disorder likely."))
  else
    (if (paco2 >? lit 45)%js && (hco3 >? lit 26)%js then
       set_state (with_primaryDisorder (Some "mixed compensated resp acid + met alk")) ;;
       ret "Normal pH with high PaCO₂ and high HCO₃⁻ suggests Mixed Disorder (Compensated Respiratory Acidosis + Metabolic Alkalosis)."
     else if (paco2 <? lit 35)%js && (hco3 <? lit 22)%js then
       set_state (with_primaryDisorder (Some "mixed compensated resp alk + met acid")) ;;
       ret "Normal pH with low PaCO₂ and low HCO₃⁻ suggests Mixed Disorder (Compensated Respiratory Alkalosis + Metabolic Acidosis)."
     else if (paco2 >=? lit 35)%js && (paco2 <=? lit 45)%js &&
             (hco3 >=? lit 22)%js && (hco3 <=? lit 26)%js then
       set_state (with_primaryDisorder (Some "normal")) ;;
       ret "Normal acid-base status (pH, PaCO₂, HCO₃⁻ within normal ranges)."
     else if (paco2 >? lit 45)%js || (hco3 >? lit 26)%js then
       set_state (with_primaryDisorder (Some "compensated")) ;;
       ret "Normal pH with abnormal PaCO₂ or HCO₃⁻ suggests a fully compensated disorder or borderline values."
     else if (paco2 <? lit 35)%js || (hco3 <? lit 22)%js then
       set_state (with_primaryDisorder (Some "compensated")) ;;
       ret "Normal pH with abnormal PaCO₂ or HCO₃⁻ suggests a fully compensated disorder or borderline values."
     else
       set_state (with_primaryDisorder (Some "normal")) ;;
       ret "Normal acid-base status.").

(** The three-way test that closes each case of the [switch] in
    [evaluateCompensation]; the source writes it out in every case, with the
    two labels of that case. *)
Definition assess (measuredValue : number) (range : number)
    (below above : string) : Method unit :=
  st <- get_state ;;
  let expected := num_of_field (expectedCompensationValue st) in
  if (Num.abs (measuredValue - expected) <=? range)%js then
    set_state (with_compensationAssessment (Some "appropriate"))
  else if (measuredValue <? expected - range)%js then
    set_state (with_compensationAssessment (Some "mixed")) ;;
    push_additional below
  else
    set_state (with_compensationAssessment (Some "mixed")) ;;
    push_additional above.

(** The choice between the acute and the chronic expectation in the two
    respiratory cases; returns the result text of the chosen branch. *)
Definition choose_acute_chronic
    (measuredValue expectedAcute expectedChronic range : number)
  : Method string :=
  if (Num.abs (measuredValue - expectedAcute)
        <? Num.abs (measuredValue - expectedChronic))%js then
    set_state (with_compensationType (Some "acute")) ;;
    set_state (with_expectedCompensationValue (Some expectedAcute)) ;;
    ret ("Acute Compensation: Expected HCO₃⁻ ≈ " +:+ toFixed expectedAcute 1 +:+
         " ± " +:+ Number_toString range +:+ " mmol/L. Measured HCO₃⁻ = " +:+
         toFixed measuredValue 1 +:+ " mmol/L.")
  else
    set_state (with_compensationType (Some "chronic")) ;;
    set_state (with_expectedCompensationValue (Some expectedChronic)) ;;
    ret ("Chronic Compensation: Expected HCO₃⁻ ≈ " +:+ toFixed expectedChronic 1 +:+
         " ± " +:+ Number_toString range +:+ " mmol/L. Measured HCO₃⁻ = " +:+
         toFixed measuredValue 1 +:+ " mmol/L.").

(** The last element of [additionalDisorders], or ['unknown']. *)
Definition last_additional (l : list string) : string :=
  match last l with Some x => x | None => "unknown" end.

(** The sentence appended to the result text after the [switch]. *)
Definition assessment_sentence (st : AnalysisState) : string :=
  if is_str (compensationAssessment st) "appropriate" then
    " Compensation is appropriate."
  else if is_str (compensationAssessment st) "mixed" then
    " Suggests a superimposed " +:+
    Str.replace_underscores (last_additional (additionalDisorders st)) +:+ "."
  else " Compensation assessment unclear.".

(** Step 4.  The [switch] on [primary] is the chain of string tests; the
    local [valueName] ('PaCO₂' or 'HCO₃⁻') is written into the texts. *)
Definition evaluateCompensation (paco2 hco3 : number) : Method string :=
  st <- get_state ;;
  let primary := primaryDisorder st in
  if falsy primary || Str.includes (default "" primary) "mixed"
     || is_str primary "normal" || is_str primary "compensated" then
    (if is_str primary "compensated" then
       ret "Full compensation (pH is within normal range)."
     else ret "Compensation assessment skipped (Mixed, Normal, or Undetermined Primary).")
  else
    let deltaPaco2 := (paco2 - lit 40)%js in
    let deltaHco3 := (hco3 - lit 24)%js in
    if is_str primary "metabolic acidosis" then
      let range := lit 2 in
      let expected := (lit 1.5 * hco3 + lit 8)%js in
      set_state (with_expectedCompensationValue (Some expected)) ;;
      let measuredValue := paco2 in
      let resultText :=
        "Expected PaCO₂ ≈ " +:+ toFixed expected 1 +:+ " ± " +:+
        Number_toString range +:+ " mmHg (Winter's). Measured PaCO₂ = " +:+
        toFixed measuredValue 1 +:+ " mmHg." in
      assess measuredValue range "respiratory alkalosis" "respiratory acidosis" ;;
      st' <- get_state ;;
      ret (resultText +:+ assessment_sentence st')
    else if is_str primary "metabolic alkalosis" then
      let range := lit 5 in
      let expected := (lit 40 + lit 0.6 * deltaHco3)%js in
      set_state (with_expectedCompensationValue (Some expected)) ;;
      let measuredValue := paco2 in
      let resultText :=
        "Expected PaCO₂ ≈ " +:+ toFixed expected 1 +:+ " ± " +:+
        Number_toString range +:+ " mmHg. Measured PaCO₂ = " +:+
        toFixed measuredValue 1 +:+ " mmHg." in
      assess measuredValue range "respiratory alkalosis" "respiratory acidosis" ;;
      st' <- get_state ;;
      ret (resultText +:+ assessment_sentence st')
    else if is_str primary "respiratory acidosis" then
      let range := lit 3 in
      let expectedAcuteHCO3 := (lit 24 + deltaPaco2 * lit 0.1)%js in
      let expectedChronicHCO3 := (lit 24 + deltaPaco2 * lit 0.35)%js in
      let measuredValue := hco3 in
      resultText <-
        choose_acute_chronic measuredValue expectedAcuteHCO3 expectedChronicHCO3 range ;;
      assess measuredValue range "metabolic acidosis" "metabolic alkalosis" ;;
      st' <- get_state ;;
      ret (resultText +:+ assessment_sentence st')
    else if is_str primary "respiratory alkalosis" then
      let range := lit 3 in
      let expectedAcuteHCO3_alk := (lit 24 + deltaPaco2 * lit 0.2)%js in
      let expectedChronicHCO3_alk := (lit 24 + deltaPaco2 * lit 0.5)%js in
      let measuredValue := hco3 in
      resultText <-
        choose_acute_chronic measuredValue expectedAcuteHCO3_alk expectedChronicHCO3_alk range ;;
      assess measuredValue range "metabolic acidosis" "metabolic alkalosis" ;;
      st' <- get_state ;;
      ret (resultText +:+ assessment_sentence st')
    else ret "Error: Unknown primary disorder for compensation check.".

(** The test on albumin shared by steps 5 and 6:
    [albumin !== undefined && !isNaN(albuminNum) && albuminNum < 4.0 &&
     albuminNum >= 0]. *)
Definition albumin_usable (albumin : jsval) : bool :=
  let albuminNum := parseFloat albumin in
  negb (is_undefined albumin) && negb (Num.is_nan albuminNum)
  && (albuminNum <? lit 4.0)%js && (albuminNum >=? lit 0)%js.

(** Step 5.  [na] and [cl] only meet [isNaN] and arithmetic in the source,
    both of which apply ToNumber; [analyze] applies it at the call. *)
Definition calculateAnionGap (na cl hco3 : number) (albumin : jsval)
  : Method string :=
  if Num.is_nan na || Num.is_nan cl || Num.is_nan hco3 then
    ret "Cannot calculate Anion Gap: Invalid Na⁺, Cl⁻, or HCO₃⁻ value."
  else
    let ag := (na - (cl + hco3))%js in
    set_state (with_anionGap (Some ag)) ;;
    let resultText := "Anion Gap = " +:+ toFixed ag 1 +:+ " mmol/L" in
    let albuminNum := parseFloat albumin in
    resultText <-
      (if albumin_usable albumin then
         let corrected := (ag + lit 2.5 * (lit 4.0 - albuminNum))%js in
         set_state (with_correctedAnionGap (Some corrected)) ;;
         ret (resultText +:+ " (Normal ≈ 8-12). Albumin = " +:+
              toFixed albuminNum 1 +:+ " g/dL. Corrected AG ≈ " +:+
              toFixed corrected 1 +:+ " mmol/L.")
       else
         set_state (with_correctedAnionGap (Some ag)) ;;
         let resultText := resultText +:+ " (Normal ≈ 8-12)." in
         if negb (is_undefined albumin)
            && (Num.is_nan albuminNum || (albuminNum <? lit 0)%js) then
           ret (resultText +:+ " (Invalid albumin value provided for correction).")
         else if negb (is_undefined albumin) && (albuminNum >=? lit 4.0)%js then
           ret (resultText +:+ " (Albumin correction not needed).")
         else ret resultText) ;;
    st <- get_state ;;
    let agToCheck := num_of_field (correctedAnionGap st) in
    if (agToCheck >? lit 12)%js then
      let resultText := resultText +:+ " Elevated Anion Gap." in
      if negb (is_str (primaryDisorder st) "metabolic acidosis")
         && negb (includes (additionalDisorders st) "high anion gap metabolic acidosis") then
        push_additional "high anion gap metabolic acidosis" ;;
        ret (resultText +:+ " Suggests additional High AG Metabolic Acidosis.")
      else ret resultText
    else ret (resultText +:+ " Normal Anion Gap.").

(** Step 6. *)
Definition evaluateDeltaRatio (anionGap hco3 : number) (albumin : jsval)
  : Method string :=
  if Num.is_nan anionGap || Num.is_nan hco3 then
    ret "Cannot calculate Delta Ratio: Invalid AG or HCO₃⁻ value."
  else
    let albuminNum := parseFloat albumin in
    let normalAG :=
      if albumin_usable albumin then
        Num.max (lit 3) (lit 12 - lit 2.5 * (lit 4.0 - albuminNum))%js
      else lit 12 in
    let deltaAG := (anionGap - normalAG)%js in
    let deltaHCO3 := (lit 24 - hco3)%js in
    if (deltaHCO3 === lit 0)%js then
      set_state (with_deltaRatioAssessment
        (Some "concurrent met alk likely (delta HCO3 is zero)")) ;;
      ret "Delta Ratio not calculable (ΔHCO₃⁻ is 0). High AG with normal HCO₃⁻ suggests concurrent Metabolic Alkalosis."
    else if (deltaHCO3 <? lit 0)%js then
      set_state (with_deltaRatioAssessment
        (Some "concurrent met alk likely (delta HCO3 negative)")) ;;
      ret ("Delta Ratio interpretation complex (ΔHCO₃⁻ is negative: " +:+
           toFixed deltaHCO3 1 +:+
           "). High AG with elevated HCO₃⁻ suggests concurrent Metabolic Alkalosis.")
    else
      let ratio := (deltaAG / deltaHCO3)%js in
      set_state (with_deltaRatio (Some ratio)) ;;
      let resultText :=
        "Delta Ratio (ΔAG/ΔHCO₃⁻) = " +:+ toFixed ratio 1 +:+
        ". (Normal AG adjusted to " +:+ toFixed normalAG 1 +:+
        " if albumin provided)." in
      if (ratio <? lit 1.0)%js then
        set_state (with_deltaRatioAssessment (Some "concurrent NAGMA")) ;;
        st <- get_state ;;
        (if negb (includes (additionalDisorders st) "normal anion gap metabolic acidosis")
         then push_additional "normal anion gap metabolic acidosis"
         else ret tt) ;;
        ret (resultText +:+ " Ratio < 1.0 suggests concurrent Normal Anion Gap Metabolic Acidosis (NAGMA).")
      else if (ratio >? lit 2.0)%js then
        set_state (with_deltaRatioAssessment (Some "concurrent met alk")) ;;
        st <- get_state ;;
        (if negb (includes (additionalDisorders st) "metabolic alkalosis")
         then push_additional "metabolic alkalosis"
         else ret tt) ;;
        ret (resultText +:+ " Ratio > 2.0 suggests concurrent Metabolic Alkalosis.")
      else
        set_state (with_deltaRatioAssessment (Some "pure HAGMA")) ;;
        ret (resultText +:+ " Ratio ≈ 1-2 is consistent with uncomplicated High Anion Gap Metabolic Acidosis.").

(** The filter of [generateFinalInterpretation]: labels that only restate
    the primary disorder are dropped. *)
Definition keep_additional (st : AnalysisState) (disorder : string) : bool :=
  let primaryDisorder := primaryDisorder st in
  if is_str primaryDisorder "metabolic acidosis"
     && String.eqb disorder "high anion gap metabolic acidosis" then false
  else if is_str primaryDisorder "metabolic acidosis"
     && String.eqb disorder "normal anion gap metabolic acidosis"
     && (num_of_field (anionGap st) <=? lit 12)%js then false
  else if is_str primaryDisorder "metabolic alkalosis"
     && String.eqb disorder "metabolic alkalosis" then false
  else if is_str primaryDisorder "respiratory acidosis"
     && String.eqb disorder "respiratory acidosis" then false
  else if is_str primaryDisorder "respiratory alkalosis"
     && String.eqb disorder "respiratory alkalosis" then false
  else true.

Definition generateFinalInterpretation : Method string :=
  st <- get_state ;;
  res <- get_results ;;
  let primaryDisorder := primaryDisorder st in
  if negb (falsy (error res)) then
    ret ("Analysis Error: " +:+ default "" (error res))
  else if falsy primaryDisorder || is_str primaryDisorder "Undetermined" then
    ret "Unable to determine final interpretation."
  else if is_str primaryDisorder "normal" then
    ret "Normal acid-base status."
  else
    let interpretation :=
      "Primary " +:+
      Str.trim (Str.replace_first
                  (Str.replace_underscores (default "" primaryDisorder))
                  "compensated" "") in
    let interpretation :=
      if is_str primaryDisorder "compensated" || is_str (acidBaseStatus st) "normal"
      then interpretation +:+ " with complete compensation"
      else if is_str (compensationAssessment st) "appropriate"
      then interpretation +:+ " with expected compensation"
      else interpretation in
    let uniqueAdditional := unique (additionalDisorders st) in
    let filteredAdditional := filter (fun d => keep_additional st d = true) uniqueAdditional in
    let interpretation :=
      if (0 <? length filteredAdditional)%nat
      then interpretation +:+ " and superimposed " +:+
           Str.join " and " (map Str.replace_underscores filteredAdditional)
      else interpretation in
    ret (Str.trim interpretation +:+ ".").

(** Step 5 as [analyze] runs it: the test on the electrolytes, then the
    call or the skip text. *)
Definition analyze_step5 (values : gmap string jsval) : Method unit :=
  if negb (is_undefined (prop values "na"))
     && negb (is_undefined (prop values "cl"))
     && negb (is_undefined (prop values "hco3")) then
    t5 <- calculateAnionGap (ToNumber (prop values "na"))
            (ToNumber (prop values "cl")) (ToNumber (prop values "hco3"))
            (prop values "albumin") ;;
    set_results (with_step5 t5)
  else
    set_results (with_step5
      "Skipped: Na⁺ and Cl⁻ values required for Anion Gap calculation.") ;;
    set_state (with_anionGap None).

(** Step 6 as [analyze] runs it.  [evaluateDeltaRatio] is called with two
    arguments, so its third parameter [albumin] is [undefined]. *)
Definition analyze_step6 (values : gmap string jsval) : Method unit :=
  st <- get_state ;;
  let agToCheck := nullish (correctedAnionGap st) (anionGap st) in
  match agToCheck with
  | Some ag =>
      if (ag >? lit 12)%js && is_str (primaryDisorder st) "metabolic acidosis" then
        t6 <- evaluateDeltaRatio ag (ToNumber (prop values "hco3")) JUndefined ;;
        set_results (with_step6 t6)
      else if (ag <=? lit 12)%js && is_str (primaryDisorder st) "metabolic acidosis" then
        set_results (with_step6 "Not Applicable: Anion gap is not elevated.")
      else if negb (is_str (primaryDisorder st) "metabolic acidosis") then
        set_results (with_step6
          "Not Applicable: Primary disorder is not metabolic acidosis.")
      else
        set_results (with_step6
          "Skipped: Anion gap calculation was skipped or failed.")
  | None =>
      if negb (is_str (primaryDisorder st) "metabolic acidosis") then
        set_results (with_step6
          "Not Applicable: Primary disorder is not metabolic acidosis.")
      else
        set_results (with_step6
          "Skipped: Anion gap calculation was skipped or failed.")
  end.

(** The body of the [try] in [analyze]: the six steps and the final
    interpretation.  Its [catch] would store ["Analysis Error: " + message]
    in [results.error] and set [finalInterpretation] to
    ["Analysis incomplete due to error."]; none of the modelled operations
    throws, so it has no counterpart here.  The required values have passed
    [validateInputs] when the steps read them, so they are numbers and
    ToNumber leaves them as they are. *)
Definition six_step_analysis (values : gmap string jsval) : Method unit :=
  let ph := ToNumber (prop values "ph") in
  let paco2 := ToNumber (prop values "paco2") in
  let hco3 := ToNumber (prop values "hco3") in
  t1 <- checkInternalConsistency ph paco2 hco3 ;;
  set_results (with_step1 t1) ;;
  t2 <- determineAcidemiaAlkalemia ph ;;
  set_results (with_step2 t2) ;;
  t3 <- identifyPrimaryDisorder ph paco2 hco3 ;;
  set_results (with_step3 t3) ;;
  t4 <- evaluateCompensation paco2 hco3 ;;
  set_results (with_step4 t4) ;;
  analyze_step5 values ;;
  analyze_step6 values ;;
  tf <- generateFinalInterpretation ;;
  set_results (with_finalInterpretation tf).

(** [{ ...this.results, state: this.state }]. *)
Definition snapshot : Method AnalysisResult :=
  res <- get_results ;; st <- get_state ;;
  ret (mkAnalysisResult res st).

Definition analyze (values : gmap string jsval) : Method AnalysisResult :=
  resetStateAndResults ;;
  ok <- validateInputs values ;;
  if negb ok then snapshot
  else six_step_analysis values ;; snapshot.

End Engine.

(* ------------------------------------------------------------------ *)
(** ** IEEE 754 binary64

    The numbers of JavaScript as they are: [SpecFloat] of the Standard
    Library at precision 53 and maximal exponent 1024, every operation
    rounding to nearest, ties to even, with both zeros, both infinities and
    NaN. *)

Module Binary64.

Definition number : Type := SpecFloat.spec_float.
Definition prec : Z := 53.
Definition emax : Z := 1024.

Definition nan : number := SpecFloat.S754_nan.
Definition zero : number := SpecFloat.S754_zero false.

Definition add : number -> number -> number := SpecFloat.SFadd prec emax.
Definition sub : number -> number -> number := SpecFloat.SFsub prec emax.
Definition mul : number -> number -> number := SpecFloat.SFmul prec emax.
Definition div : number -> number -> number := SpecFloat.SFdiv prec emax.
Definition neg : number -> number := SpecFloat.SFopp.

(** [a < b], [a <= b], [a > b], [a >= b], [a === b]: false as soon as one
    side is NaN; the two zeros are equal. *)
Definition lt : number -> number -> bool := SpecFloat.SFltb.
Definition le : number -> number -> bool := SpecFloat.SFleb.
Definition gt (a b : number) : bool := lt b a.
Definition ge (a b : number) : bool := le b a.
Definition strict_eq : number -> number -> bool := SpecFloat.SFeqb.

Definition is_nan (a : number) : bool :=
  match a with SpecFloat.S754_nan => true | _ => false end.

(** [Math.abs] and [Math.max]. *)
Definition abs : number -> number := SpecFloat.SFabs.
Definition max (a b : number) : number :=
  if is_nan a || is_nan b then nan
  else if lt a b then b
  else if lt b a then a
  else match a with SpecFloat.S754_zero true => b | _ => a end.

(** An integer as a mantissa with exponent 0, and the number nearest to a
    rational: the quotient of numerator by denominator, which [SFdiv] rounds
    once.  This is how a decimal literal of the source, or the numeral of a
    measurement, becomes a number. *)
Definition integer (z : Z) : number :=
  match z with
  | Z0 => zero
  | Zpos m => SpecFloat.S754_finite false m 0
  | Zneg m => SpecFloat.S754_finite true m 0
  end.
Definition of_Q (q : Q) : number :=
  div (integer (Qnum q)) (integer (Zpos (Qden q))).

(** The rational that a finite number stands for. *)
Definition value (x : number) : Q :=
  match x with
  | SpecFloat.S754_finite s m e =>
      ((if s then -1 else 1) * inject_Z (Zpos m) * Qpower 2 e)%Q
  | _ => 0
  end.

Definition is_negative (x : number) : bool :=
  match x with
  | SpecFloat.S754_finite s _ _ | SpecFloat.S754_infinity s => s
  | _ => false
  end.

(** The same number, zeros of different sign apart. *)
Definition same (a b : number) : bool :=
  match a, b with
  | SpecFloat.S754_zero s, SpecFloat.S754_zero t
  | SpecFloat.S754_infinity s, SpecFloat.S754_infinity t => Bool.eqb s t
  | SpecFloat.S754_nan, SpecFloat.S754_nan => true
  | SpecFloat.S754_finite s m e, SpecFloat.S754_finite t n f =>
      Bool.eqb s t && Pos.eqb m n && Z.eqb e f
  | _, _ => false
  end.

(** *** Decimal texts

    [Number::toString] and [Number.prototype.toFixed] of ECMAScript, on the
    exact value of the number. *)

Definition digits (z : Z) : string :=
  DecimalString.NilZero.string_of_uint (N.to_uint (Z.to_N z)).

Fixpoint zeros (n : nat) : string :=
  match n with O => "" | S n' => String "0"%char (zeros n') end.

(** For [v > 0], the [n] with 10^(n-1) <= v < 10^n: a first guess from the
    size of the integer part or of the inverse, then corrected. *)
Fixpoint settle (v : Q) (n : Z) (fuel : nat) : Z :=
  match fuel with
  | O => n
  | S fuel' =>
      if Qle_bool (Qpower 10 n) v then settle v (n + 1) fuel'
      else if Qle_bool (Qpower 10 (n - 1)) v then n
      else settle v (n - 1) fuel'
  end.
Definition decimal_exponent (v : Q) : Z :=
  let guess :=
    if Qle_bool 1 v then (Z.log2 (Qfloor v) * 30103 / 100000 + 1)%Z
    else (- (Z.log2 (Qfloor (/ v)) * 30103 / 100000))%Z in
  settle v guess 8.

(** The digits [s] (with 10^(k-1) <= s <= 10^k) for which s 10^(n-k) is
    nearest to [v] among those that read back as [x], if any. *)
Definition candidate (x : number) (v : Q) (n : Z) (k : nat) : option Z :=
  let scale := Qpower 10 (n - Z.of_nat k) in
  let t := (v / scale)%Q in
  let s0 := Qfloor t in
  let reads s :=
    same (of_Q ((if is_negative x then -1 else 1) * (inject_Z s * scale))%Q) x in
  let low := reads s0 in
  let high := reads (s0 + 1)%Z in
  let frac := (t - inject_Z s0)%Q in
  if low && high then
    Some (if Qeq_bool frac (1 # 2) then (if Z.even s0 then s0 else s0 + 1)%Z
          else if Qle_bool frac (1 # 2) then s0 else (s0 + 1)%Z)
  else if low then Some s0
  else if high then Some (s0 + 1)%Z
  else None.

Fixpoint shortest (x : number) (v : Q) (n : Z) (k fuel : nat) : nat * Z :=
  match fuel with
  | O => (k, Qfloor (v / Qpower 10 (n - Z.of_nat k)))
  | S fuel' =>
      match candidate x v n k with
      | Some s => (k, s)
      | None => shortest x v n (S k) fuel'
      end
  end.

Definition to_string (x : number) : string :=
  match x with
  | SpecFloat.S754_nan => "NaN"
  | SpecFloat.S754_zero _ => "0"
  | SpecFloat.S754_infinity s => if s then "-Infinity" else "Infinity"
  | SpecFloat.S754_finite sign _ _ =>
      let v := Qabs (value x) in
      let n0 := decimal_exponent v in
      let '(k0, s0) := shortest x v n0 1 17 in
      (* digits that reach 10^k are written 1 with the next exponent *)
      let '(n, s) :=
        if Z.eqb s0 (10 ^ Z.of_nat k0) then ((n0 + 1)%Z, (10 ^ (Z.of_nat k0 - 1))%Z)
        else (n0, s0) in
      let ds := digits s in
      let k := Z.of_nat (String.length ds) in
      let body :=
        if (k <=? n)%Z && (n <=? 21)%Z then ds +:+ zeros (Z.to_nat (n - k))
        else if (0 <? n)%Z && (n <=? 21)%Z then
          String.substring 0 (Z.to_nat n) ds +:+ "." +:+
          String.substring (Z.to_nat n) (Z.to_nat (k - n)) ds
        else if (-6 <? n)%Z && (n <=? 0)%Z then
          "0." +:+ zeros (Z.to_nat (- n)) +:+ ds
        else
          let e := (n - 1)%Z in
          let mantissa :=
            if (k =? 1)%Z then ds
            else String.substring 0 1 ds +:+ "." +:+
                 String.substring 1 (Z.to_nat (k - 1)) ds in
          mantissa +:+ "e" +:+ (if (0 <=? e)%Z then "+" else "-") +:+
          digits (Z.abs e) in
      (if sign then "-" else "") +:+ body
  end.

(** [x.toFixed(d)]: the integer [n] with n / 10^d nearest to |x|, the
    larger on a tie, after the sign; [toString] from 1e21 on. *)
Definition to_fixed (x : number) (d : nat) : string :=
  match x with
  | SpecFloat.S754_nan => "NaN"
  | SpecFloat.S754_infinity s => if s then "-Infinity" else "Infinity"
  | _ =>
      let v := Qabs (value x) in
      if Qle_bool (Qpower 10 21) v then to_string x
      else
        let p := (10 ^ Z.of_nat d)%Z in
        let n := Qfloor (v * inject_Z p + (1 # 2))%Q in
        let frac :=
          match d with
          | O => ""
          | _ => let f := digits (n mod p) in
                 "." +:+ zeros (d - String.length f) +:+ f
          end in
        (if is_negative x then "-" else "") +:+ digits (n / p) +:+ frac
  end.

End Binary64.

Declare Scope ieee_scope.
Delimit Scope ieee_scope with ieee.
Bind Scope ieee_scope with Binary64.number.
Infix "+" := Binary64.add : ieee_scope.
Infix "-" := Binary64.sub : ieee_scope.
Infix "*" := Binary64.mul : ieee_scope.
Infix "/" := Binary64.div : ieee_scope.
Infix "<?" := Binary64.lt (at level 70) : ieee_scope.
Infix "<=?" := Binary64.le (at level 70) : ieee_scope.
Infix ">?" := Binary64.gt (at level 70) : ieee_scope.
Infix ">=?" := Binary64.ge (at level 70) : ieee_scope.
Infix "===" := Binary64.strict_eq (at level 70) : ieee_scope.

(** The operations are kept folded when a method is run on symbolic
    numbers. *)
Arguments Binary64.add (_ _)%_ieee : simpl never.
Arguments Binary64.sub (_ _)%_ieee : simpl never.
Arguments Binary64.mul (_ _)%_ieee : simpl never.
Arguments Binary64.div (_ _)%_ieee : simpl never.
Arguments Binary64.neg _%_ieee : simpl never.
Arguments Binary64.abs _%_ieee : simpl never.
Arguments Binary64.max (_ _)%_ieee : simpl never.
Arguments Binary64.lt (_ _)%_ieee : simpl never.
Arguments Binary64.le (_ _)%_ieee : simpl never.
Arguments Binary64.gt (_ _)%_ieee : simpl never.
Arguments Binary64.ge (_ _)%_ieee : simpl never.
Arguments Binary64.strict_eq (_ _)%_ieee : simpl never.
Arguments Binary64.is_nan _%_ieee : simpl never.
Arguments Binary64.of_Q _%_Q : simpl never.
Arguments Binary64.to_string _%_ieee : simpl never.
Arguments Binary64.to_fixed _%_ieee _%_nat : simpl never.

(* ------------------------------------------------------------------ *)
(** ** A runtime to run the model

    Decimal formatting: a rational is printed as the double nearest to it,
    by [toFixed] and the template conversion of [Binary64].  [Math_pow] is
    exact on integer exponents and approximates the other powers of ten by a
    truncated series.  The theorems below do not depend on this instance; it
    serves to evaluate the engine on concrete measurements. *)

Module Sample.

Definition to_fixed (x : number) (d : nat) : string :=
  match x with
  | NaN => "NaN"
  | Fin q => Binary64.to_fixed (Binary64.of_Q q) d
  end.

Definition to_string (x : number) : string :=
  match x with
  | NaN => "NaN"
  | Fin q => Binary64.to_string (Binary64.of_Q q)
  end.

(** Rationals rounded to eighteen decimals, to keep the series below small. *)
Definition round18 (q : Q) : Q :=
  Qmake (Qfloor (q * inject_Z (10 ^ 18) + (1 # 2))) (10 ^ 18).

(** [sum_{i >= k} x^i / i!] over [fuel] terms, [term] being [x^k / k!]. *)
Fixpoint exp_series (x term : Q) (k : positive) (fuel : nat) : Q :=
  match fuel with
  | O => 0
  | S fuel' =>
      term + exp_series x (round18 (term * x / inject_Z (Z.pos k)))
                        (Pos.succ k) fuel'
  end.

Definition ln10 : Q := 2.302585092994045684.

(** [10^y]: the integer part of [y] exactly, the fractional part through
    the exponential series. *)
Definition pow10 (y : Q) : Q :=
  let n := Qfloor y in
  let f := (y - inject_Z n)%Q in
  (Qpower 10 n * round18 (exp_series (f * ln10) 1 1 60))%Q.

(** Exact on integer exponents; base ten otherwise (the only base the
    engine uses); NaN elsewhere. *)
Definition pow (b e : number) : number :=
  match b, e with
  | Fin x, Fin y =>
      if Qeq_bool (inject_Z (Qfloor y)) y
      then (if Qeq_bool x 0 && (Qfloor y <? 0)%Z then NaN
            else Fin (Qred (Qpower x (Qfloor y))))
      else if Qeq_bool x 10 then Fin (Qred (pow10 y))
      else NaN
  | _, _ => NaN
  end.

Definition runtime : JSRuntime :=
  {| Math_pow := pow; toFixed := to_fixed; Number_toString := to_string |}.

(** The object [{ ph, paco2, hco3 }] and its extension by further keys. *)
Definition measurements (l : list (string * Q)) : gmap string jsval :=
  list_to_map (map (fun kv => (fst kv, JNum (Fin (snd kv)))) l).

(** A newly constructed analyzer: [results] and [state] are empty objects,
    which [analyze] replaces before reading them. *)
Definition new_analyzer : ABGAnalyzer := mkAnalyzer fresh_results fresh_state.

End Sample.

(* ------------------------------------------------------------------ *)
(** ** The callers of the engine

    [App.jsx] owns one analyzer and the state from which the results column
    is drawn.  [ManualInputForm.jsx] and the OCR table of [FileUpload.jsx]
    collect a measurement object and hand it to [handleAnalysis] through
    their [onAnalyze] property, or report through [onError].  State kept
    with [useState] is a record; a setter replaces its field.  Only plain
    values are passed to the setters of [App], so the batching of updates
    within one handler gives what applying them in sequence gives. *)

(** [parseFloat] on the text of an input field.  The result is NaN or a
    finite number; the infinities, which [parseFloat] gives for the text
    "Infinity", are outside the model of numbers. *)
Class StringParser : Type := {
  String_parseFloat : string -> number
}.

(** [analysisResult.error], a property spread from [this.results]. *)
Definition analysis_error (analysisResult : AnalysisResult) : option string :=
  error (texts analysisResult).

(** What a form does with its two callbacks when it is submitted. *)
Inductive Call : Type :=
| onError (errorMessage : string)
| onAnalyze (values : gmap string jsval).

Module App.

Record State : Type := mkApp {
  activeTab : string;
  results : option (AnalysisResult * gmap string jsval);
  isLoading : bool;
  error : option string;
  isResetting : bool
}.

Definition setActiveTab v (a : State) :=
  mkApp v (results a) (isLoading a) (error a) (isResetting a).
Definition setResults v (a : State) :=
  mkApp (activeTab a) v (isLoading a) (error a) (isResetting a).
Definition setIsLoading v (a : State) :=
  mkApp (activeTab a) (results a) v (error a) (isResetting a).
Definition setError v (a : State) :=
  mkApp (activeTab a) (results a) (isLoading a) v (isResetting a).
Definition setIsResetting v (a : State) :=
  mkApp (activeTab a) (results a) (isLoading a) (error a) v.

(** The state of the first render. *)
Definition initial : State := mkApp "manual" None false None false.

Definition handleError (errorMessage : string) (a : State) : State :=
  setResults None (setIsLoading false (setError (Some errorMessage) a)).

Definition handleLoading (loadingState : bool) (a : State) : State :=
  setError None (setIsLoading loadingState a).

Section Handlers.
Context {rt : JSRuntime}.

(** [handleAnalysis]: the component state and the memoised analyzer go in
    and come out.  [results] receives [{ ...analysisResult, inputValues }]. *)
Definition handleAnalysis (inputValues : gmap string jsval)
    (a : State) (abgAnalyzer : ABGAnalyzer) : State * ABGAnalyzer :=
  let a := setResults None (setError None (setIsLoading true a)) in
  let (analysisResult, abgAnalyzer) := analyze inputValues abgAnalyzer in
  let a :=
    if negb (falsy (analysis_error analysisResult)) then
      handleError (default "" (analysis_error analysisResult)) a
    else
      setError None (setResults (Some (analysisResult, inputValues)) a) in
  (setIsLoading false a, abgAnalyzer).

(** What a form's callback does in [App]: [onError] is [handleError] and
    [onAnalyze] is [handleAnalysis]. *)
Definition dispatch (c : Call) (a : State) (abgAnalyzer : ABGAnalyzer)
  : State * ABGAnalyzer :=
  match c with
  | onError errorMessage => (handleError errorMessage a, abgAnalyzer)
  | onAnalyze values => handleAnalysis values a abgAnalyzer
  end.

End Handlers.

(** The four conditional children of the results column, in the order of
    the JSX; an empty error string is falsy and draws nothing. *)
Inductive Child : Type :=
| LoadingMessage
| ErrorMessage (error : string)
| ResultsDisplay (results : AnalysisResult * gmap string jsval)
| PlaceholderMessage.

Definition results_column (a : State) : list Child :=
  let quiet := negb (isLoading a) && falsy (error a) in
  (if isLoading a then [LoadingMessage] else []) ++
  (if negb (falsy (error a)) then [ErrorMessage (default "" (error a))] else []) ++
  match results a with
  | Some r => if quiet then [ResultsDisplay r] else []
  | None => if quiet then [PlaceholderMessage] else []
  end.

End App.

Module ManualInputForm.

(** An entry of [physiologicalRanges]; its other fields ([step],
    [placeholder], [label], [unit], [normal]) are only drawn. *)
Record Range : Type := mkRange { min : Q; max : Q }.

Definition physiologicalRanges : list (string * Range) :=
  [("ph", mkRange 6.0 8.0); ("paco2", mkRange 10 200); ("hco3", mkRange 2 60);
   ("pao2", mkRange 10 700); ("na", mkRange 90 180); ("cl", mkRange 70 130);
   ("be", mkRange (-30) 30); ("sao2", mkRange 0 100); ("k", mkRange 2.0 7.0);
   ("albumin", mkRange 1.0 6.0)].

(** [physiologicalRanges[name]]. *)
Fixpoint range_of (l : list (string * Range)) (name : string) : option Range :=
  match l with
  | [] => None
  | (key, r) :: rest => if String.eqb key name then Some r else range_of rest name
  end.

Section Form.
Context {rt : JSRuntime} {parser : StringParser}.

(** [parseFloat(value)] for the value of a form field, which is a string or
    [undefined] (a key that [formValues] does not hold). *)
Definition parse (value : option string) : number :=
  match value with
  | Some s => String_parseFloat s
  | None => NaN
  end.

(** [value === '' || value === undefined || value === null]: no field
    holds [null]. *)
Definition is_blank (value : option string) : bool :=
  match value with
  | Some s => String.eqb s ""
  | None => true
  end.

Definition validateInput (name : string) (value : option string) : string :=
  let range := range_of physiologicalRanges name in
  if is_blank value then ""
  else
    let numericValue := parse value in
    if Num.is_nan numericValue then "Must be a number."
    else
      match range with
      | Some r =>
          if (numericValue <? lit (min r))%js || (numericValue >? lit (max r))%js
          then "Outside range (" +:+ Number_toString (lit (min r)) +:+ "-" +:+
               Number_toString (lit (max r)) +:+ ")"
          else ""
      | None => ""
      end.

(** [handleChange] on the two pieces of state of the form. *)
Definition handleChange (name value : string)
    (form : gmap string string * gmap string string)
  : gmap string string * gmap string string :=
  let (formValues, errors) := form in
  (<[name := value]> formValues,
   <[name := validateInput name (Some value)]> errors).

(** The three locals that the loop of [handleSubmit] updates. *)
Record Pass : Type := mkPass {
  formIsValid : bool;
  currentErrors : gmap string string;
  valuesToAnalyze : gmap string jsval
}.

(** The body of [for (const key in physiologicalRanges)]. *)
Definition check_field (formValues : gmap string string) (p : Pass)
    (key : string) : Pass :=
  let value := formValues !! key in
  let error := validateInput key value in
  let p :=
    if Str.truthy error
    then mkPass false (<[key := error]> (currentErrors p)) (valuesToAnalyze p)
    else p in
  if negb (match value with Some s => String.eqb s "" | None => false end)
     && negb (Num.is_nan (parse value)) && negb (Str.truthy error)
  then mkPass (formIsValid p) (currentErrors p)
         (<[key := JNum (parse value)]> (valuesToAnalyze p))
  else p.

(** The keys that [for ... in] goes through, in the order of the object
    literal. *)
Definition field_names : list string := map fst physiologicalRanges.

Definition check_fields (formValues : gmap string string) : Pass :=
  fold_left (check_field formValues) field_names (mkPass true ∅ ∅).

(** The keys of [requiredFields] that [valuesToAnalyze] lacks. *)
Definition missingRequired (valuesToAnalyze : gmap string jsval) : list string :=
  filter (fun key => is_undefined (prop valuesToAnalyze key) = true)
    ["ph"; "paco2"; "hco3"].

(** [handleSubmit]: the errors it stores with [setErrors] and the callback
    it calls. *)
Definition handleSubmit (formValues : gmap string string)
  : gmap string string * Call :=
  let p := check_fields formValues in
  (currentErrors p,
   if negb (formIsValid p) then
     onError "Please correct the highlighted invalid input values."
   else if (0 <? length (missingRequired (valuesToAnalyze p)))%nat then
     onError ("Analysis requires at least pH, PaCO₂, and HCO₃⁻ values. Missing: "
              +:+ Str.join ", " (missingRequired (valuesToAnalyze p)))
   else onAnalyze (valuesToAnalyze p)).

(** [initialFormState]: the [reduce] over the keys gives every field the
    empty string. *)
Definition initialFormState : gmap string string :=
  fold_left (fun acc key => <[key := ""]> acc) field_names ∅.

(** [handleClearForm] on the two pieces of state of the form. *)
Definition handleClearForm : gmap string string * gmap string string :=
  (initialFormState, ∅).

(** The form after a sequence of [change] events, each with the name of
    its input and the text it holds, from the first render. *)
Definition typed (events : list (string * string))
  : gmap string string * gmap string string :=
  fold_left (fun form e => handleChange (fst e) (snd e) form) events
    (initialFormState, ∅).

End Form.

End ManualInputForm.

Module FileUpload.

(** A cell of [ocrResults]: the empty string or a number. *)
Inductive Cell : Type :=
| Blank
| Numeric (n : number).

(** [isNaN] on a cell: the empty string converts to 0. *)
Definition cell_isNaN (c : Cell) : bool :=
  match c with
  | Blank => false
  | Numeric n => Num.is_nan n
  end.

Section Ocr.
Context {parser : StringParser}.

(** [handleOcrValueChange]; [ocrResults] is [null] before the first
    recognition, and spreading [null] gives no property. *)
Definition handleOcrValueChange (key value : string)
    (ocrResults : option (gmap string Cell)) : option (gmap string Cell) :=
  let numericValue :=
    if String.eqb value "" then Blank else Numeric (String_parseFloat value) in
  Some (<[key := if cell_isNaN numericValue then Blank else numericValue]>
          (default ∅ ocrResults)).

End Ocr.

(** The test [value !== '' && !isNaN(value)] of the [reduce], and the
    value copied when it passes. *)
Definition kept (value : Cell) : option jsval :=
  match value with
  | Blank => None
  | Numeric n => if negb (Num.is_nan n) then Some (JNum n) else None
  end.

Definition missingRequired (valuesToAnalyze : gmap string jsval) : list string :=
  filter (fun key => is_undefined (prop valuesToAnalyze key) = true)
    ["ph"; "paco2"; "hco3"].

Definition handleProcessOcr (ocrResults : option (gmap string Cell)) : Call :=
  match ocrResults with
  | None => onError "No OCR results to process."
  | Some o =>
      let valuesToAnalyze := omap kept o in
      if (0 <? length (missingRequired valuesToAnalyze))%nat then
        onError ("Analysis requires at least pH, PaCO₂, and HCO₃⁻ values from OCR. Missing: "
                 +:+ Str.join ", " (missingRequired valuesToAnalyze))
      else onAnalyze valuesToAnalyze
  end.

End FileUpload.

(** A reader of decimal numerals for running the forms, after the grammar
    of [parseFloat]: white space, an optional sign, digits with an optional
    fractional part, and an exponent part when digits follow its letter;
    what follows the numeral is ignored, and a text without a digit gives
    NaN.  The numeral is read as the rational it denotes. *)
Module SampleParser.

Definition digit_of (c : ascii) : option Z :=
  let n := Ascii.nat_of_ascii c in
  if (48 <=? n)%nat && (n <=? 57)%nat then Some (Z.of_nat (n - 48)) else None.

(** The digits at the head of [s]: their value after [acc], their number
    after [count], and the rest of [s]. *)
Fixpoint read_digits (s : string) (acc : Z) (count : nat) : Z * nat * string :=
  match s with
  | String c s' =>
      match digit_of c with
      | Some d => read_digits s' (10 * acc + d)%Z (S count)
      | None => (acc, count, s)
      end
  | EmptyString => (acc, count, s)
  end.

(** A sign at the head of [s]: whether it is a minus, and the rest. *)
Definition read_sign (s : string) : bool * string :=
  match s with
  | String "-"%char s' => (true, s')
  | String "+"%char s' => (false, s')
  | _ => (false, s)
  end.

(** The exponent part at the head of [s], 0 when there is none. *)
Definition read_exponent (s : string) : Z :=
  match s with
  | String c s' =>
      if Ascii.eqb c "e"%char || Ascii.eqb c "E"%char then
        let (minus, s'') := read_sign s' in
        let '(x, nx, _) := read_digits s'' 0 0 in
        if (nx =? 0)%nat then 0%Z else if minus then (- x)%Z else x
      else 0%Z
  | EmptyString => 0%Z
  end.

Definition parse_decimal (s : string) : number :=
  let (negative, s1) := read_sign (Str.trim_start s) in
  let '(i, ni, s2) := read_digits s1 0 0 in
  let '(f, nf, s3) :=
    match s2 with
    | String "."%char s' => read_digits s' 0 0
    | _ => (0%Z, 0%nat, s2)
    end in
  if (ni + nf =? 0)%nat then NaN
  else
    let q := Qred ((inject_Z i + inject_Z f / inject_Z (10 ^ Z.of_nat nf))
                   * Qpower 10 (read_exponent s3))%Q in
    Fin (if negative then Qred (- q) else q).

Definition parser : StringParser := {| String_parseFloat := parse_decimal |}.

(** The values of a form: field name to text. *)
Definition form (l : list (string * string)) : gmap string string :=
  list_to_map l.

End SampleParser.

(* ------------------------------------------------------------------ *)
(** ** Vocabulary of the statements

    The definitions below are not part of the engine; the theorems use them
    to speak about it. *)

(** The three required values are numbers within the accepted bounds. *)
Definition valid_inputs (values : gmap string jsval) (ph paco2 hco3 : Q) : Prop :=
  prop values "ph" = JNum (Fin ph) /\
  prop values "paco2" = JNum (Fin paco2) /\
  prop values "hco3" = JNum (Fin hco3) /\
  (6.0 <= ph <= 8.0)%Q /\ (10 <= paco2 <= 150)%Q /\ (2 <= hco3 <= 60)%Q.

(** A required value that the presence test rejects. *)
Definition missing (v : jsval) : Prop :=
  v = JUndefined \/ v = JNull \/ v = JNum NaN.

(** The outcome of a method on a given state, the results being empty. *)
Definition exec {A} (m : Method A) (s : AnalysisState) : A * AnalysisState :=
  let (a, this) := m (mkAnalyzer fresh_results s) in (a, state this).

(** [StateOnly m]: [m] neither reads nor writes [this.results]. *)
Class StateOnly {A} (m : Method A) : Prop :=
  state_only : forall this,
    m this = (fst (exec m (state this)),
              mkAnalyzer (results this) (snd (exec m (state this)))).

Definition post {A} (m : Method A) (s : AnalysisState) : AnalysisState :=
  snd (exec m s).
Definition text {A} (m : Method A) (s : AnalysisState) : A :=
  fst (exec m s).

Section TraceDefinitions.
Context {rt : JSRuntime}.
Variable values : gmap string jsval.

Let ph := ToNumber (prop values "ph").
Let paco2 := ToNumber (prop values "paco2").
Let hco3 := ToNumber (prop values "hco3").

(** The state after each step of an analysis of [values]. *)
Definition state_after_step2 : AnalysisState :=
  post (determineAcidemiaAlkalemia ph) fresh_state.
Definition state_after_step3 : AnalysisState :=
  post (identifyPrimaryDisorder ph paco2 hco3) state_after_step2.
Definition state_after_step4 : AnalysisState :=
  post (evaluateCompensation paco2 hco3) state_after_step3.
Definition state_after_step5 : AnalysisState :=
  post (analyze_step5 values) state_after_step4.
Definition state_after_step6 : AnalysisState :=
  post (analyze_step6 values) state_after_step5.

(** The text that steps 5 and 6 store, from a given state. *)
Definition step5_text (s : AnalysisState) : string :=
  step5 (results (snd (analyze_step5 values (mkAnalyzer fresh_results s)))).
Definition step6_text (s : AnalysisState) : string :=
  step6 (results (snd (analyze_step6 values (mkAnalyzer fresh_results s)))).

(** The results after the six steps, before the final interpretation. *)
Definition results_after_step6 : Results :=
  with_step6 (step6_text state_after_step5)
    (with_step5 (step5_text state_after_step4)
      (with_step4 (text (evaluateCompensation paco2 hco3) state_after_step3)
        (with_step3 (text (identifyPrimaryDisorder ph paco2 hco3) state_after_step2)
          (with_step2 (text (determineAcidemiaAlkalemia ph) fresh_state)
            (with_step1 (text (checkInternalConsistency ph paco2 hco3) fresh_state)
               fresh_results))))).

Definition final_text : string :=
  fst (generateFinalInterpretation
         (mkAnalyzer results_after_step6 state_after_step6)).

Definition final_results : Results :=
  with_finalInterpretation final_text results_after_step6.

End TraceDefinitions.

(** The decision table over (status, PaCO2, HCO3), row by row; the last
    row of each block is its "otherwise". *)
Definition decision_table (status : option string) (paco2 hco3 : Q)
    (primary : option string) : Prop :=
  (status = Some "acidemia" ->
     ((paco2 > 45)%Q -> primary = Some "respiratory acidosis") /\
     ((paco2 <= 45)%Q -> (hco3 < 22)%Q -> primary = Some "metabolic acidosis") /\
     ((paco2 <= 45)%Q -> (22 <= hco3)%Q -> primary = Some "mixed acidemia")) /\
  (status = Some "alkalemia" ->
     ((paco2 < 35)%Q -> primary = Some "respiratory alkalosis") /\
     ((35 <= paco2)%Q -> (hco3 > 26)%Q -> primary = Some "metabolic alkalosis") /\
     ((35 <= paco2)%Q -> (hco3 <= 26)%Q -> primary = Some "mixed alkalemia")) /\
  (status = Some "normal" ->
     ((paco2 > 45 /\ hco3 > 26)%Q ->
        primary = Some "mixed compensated resp acid + met alk") /\
     ((paco2 < 35 /\ hco3 < 22)%Q ->
        primary = Some "mixed compensated resp alk + met acid") /\
     ((35 <= paco2 <= 45 /\ 22 <= hco3 <= 26)%Q -> primary = Some "normal") /\
     (~ (paco2 > 45 /\ hco3 > 26)%Q -> ~ (paco2 < 35 /\ hco3 < 22)%Q ->
      ~ (35 <= paco2 <= 45 /\ 22 <= hco3 <= 26)%Q ->
        primary = Some "compensated")).

(** The four disorders for which step 4 computes an expectation. *)
Definition pure_disorder (primary : string) : Prop :=
  primary = "metabolic acidosis" \/ primary = "metabolic alkalosis" \/
  primary = "respiratory acidosis" \/ primary = "respiratory alkalosis".

Definition is_metabolic (primary : string) : bool :=
  String.eqb primary "metabolic acidosis" || String.eqb primary "metabolic alkalosis".

(** The label step 4 adds when the measured value is below, or above, the
    tolerance band. *)
Definition label_below (primary : string) : string :=
  if is_metabolic primary then "respiratory alkalosis" else "metabolic acidosis".
Definition label_above (primary : string) : string :=
  if is_metabolic primary then "respiratory acidosis" else "metabolic alkalosis".

(** How a stage may change the list: not at all, or by one label at the
    end. *)
Inductive appends (l : list string) : list string -> Prop :=
| appends_none : appends l l
| appends_one x : appends l (l ++ [x]).

(** The same, the label being new to the list. *)
Inductive appends_new (l : list string) : list string -> Prop :=
| appends_new_none : appends_new l l
| appends_new_one x : x ∉ l -> appends_new l (l ++ [x]).

(** The text [txt] contains [sentence]. *)
Definition reports (txt sentence : string) : Prop :=
  exists before after, txt = before +:+ sentence +:+ after.

(** The normal anion gap of [evaluateDeltaRatio] for a given albumin
    argument: 12, lowered by 2.5 per g/dL of albumin under 4.0 and held at
    3 or above. *)
Definition adjusted_normal_gap (albumin : Q) : Q :=
  let n := (12 - 2.5 * (4.0 - albumin))%Q in
  if Qle_bool 3 n then n else 3.

(** A metabolic acidosis with a raised anion gap and an albumin of
    2.0 g/dL. *)
Definition low_albumin_acidosis : gmap string jsval :=
  Sample.measurements
    [("ph", 7.25%Q); ("paco2", 30%Q); ("hco3", 13%Q);
     ("na", 140%Q); ("cl", 100%Q); ("albumin", 2.0%Q)].

(** The keys of a measurement set: three required, seven optional. *)
Definition recognised_keys : list string :=
  ["ph"; "paco2"; "hco3"; "na"; "cl"; "albumin"; "k"; "pao2"; "be"; "sao2"].

(** Two measurement objects read the same on every key of [keys]; an
    absent key reads [undefined]. *)
Definition agree_on (keys : list string) (v1 v2 : gmap string jsval) : Prop :=
  forall key, key ∈ keys -> prop v1 key = prop v2 key.

(** The categories step 3 chooses from. *)
Definition primary_categories : list string :=
  ["respiratory acidosis"; "metabolic acidosis"; "mixed acidemia";
   "respiratory alkalosis"; "metabolic alkalosis"; "mixed alkalemia";
   "mixed compensated resp acid + met alk";
   "mixed compensated resp alk + met acid";
   "normal"; "compensated"].

(** [primary] holds one of the four disorders that step 4 assesses. *)
Definition is_pure (primary : option string) : Prop :=
  exists p, primary = Some p /\ pure_disorder p.

Definition is_respiratory (primary : option string) : Prop :=
  primary = Some "respiratory acidosis" \/ primary = Some "respiratory alkalosis".

(** Step 5 has electrolytes to work on: Na and Cl are not [undefined] and
    convert to the numbers [na] and [cl] ([null] converts to 0). *)
Definition gap_inputs (values : gmap string jsval) (na cl : Q) : Prop :=
  prop values "na" <> JUndefined /\ prop values "cl" <> JUndefined /\
  ToNumber (prop values "na") = Fin na /\ ToNumber (prop values "cl") = Fin cl.

(** [l'] is [l] after a push of [x] guarded by [!l.includes(x)]. *)
Definition pushed_once (x : string) (l l' : list string) : Prop :=
  ((x ∉ l) /\ l' = l ++ [x]) \/ ((x ∈ l) /\ l' = l).

(** What step 5 does to a state [s] that holds no gap yet: either the
    electrolytes are unusable and nothing is stored, or the gap and its
    corrected value are stored and the label is pushed under the three
    conditions of the source. *)
Definition step5_outcome (values : gmap string jsval) (hco3 : Q)
    (s s' : AnalysisState) : Prop :=
  let label := "high anion gap metabolic acidosis" in
  (anionGap s' = None /\ correctedAnionGap s' = None /\
   additionalDisorders s' = additionalDisorders s /\
   forall na cl, ~ gap_inputs values na cl) \/
  (exists na cl c,
     gap_inputs values na cl /\
     anionGap s' = Some (Fin (na - (cl + hco3))) /\
     correctedAnionGap s' = Some (Fin c) /\
     (na - (cl + hco3) <= c <= na - (cl + hco3) + 10)%Q /\
     (((c > 12)%Q /\ primaryDisorder s <> Some "metabolic acidosis" /\
       (label ∉ additionalDisorders s) /\
       additionalDisorders s' = additionalDisorders s ++ [label]) \/
      (((c <= 12)%Q \/ primaryDisorder s = Some "metabolic acidosis" \/
        (label ∈ additionalDisorders s)) /\
       additionalDisorders s' = additionalDisorders s))).

(** What step 6 does to a state [s] that holds no ratio yet: either it
    stores nothing, or the primary disorder is metabolic acidosis with a
    corrected gap [c] above 12 and the ratio (c - 12) / (24 - HCO3) is
    stored and classified. *)
Definition step6_outcome (hco3 : Q) (s s' : AnalysisState) : Prop :=
  (deltaRatio s' = None /\ deltaRatioAssessment s' = None /\
   additionalDisorders s' = additionalDisorders s /\
   (primaryDisorder s <> Some "metabolic acidosis" \/
    correctedAnionGap s = None \/
    exists c, correctedAnionGap s = Some (Fin c) /\ (c <= 12)%Q)) \/
  (exists c,
     primaryDisorder s = Some "metabolic acidosis" /\
     correctedAnionGap s = Some (Fin c) /\ (c > 12)%Q /\
     let r := ((c - 12) / (24 - hco3))%Q in
     deltaRatio s' = Some (Fin r) /\
     (((r < 1)%Q /\ deltaRatioAssessment s' = Some "concurrent NAGMA" /\
       pushed_once "normal anion gap metabolic acidosis"
         (additionalDisorders s) (additionalDisorders s')) \/
      ((r > 2)%Q /\ deltaRatioAssessment s' = Some "concurrent met alk" /\
       pushed_once "metabolic alkalosis"
         (additionalDisorders s) (additionalDisorders s')) \/
      ((1 <= r <= 2)%Q /\ deltaRatioAssessment s' = Some "pure HAGMA" /\
       additionalDisorders s' = additionalDisorders s))).

(** The list step 4 leaves when it starts from the empty list. *)
Definition step4_labels (primary : option string) (l : list string) : Prop :=
  l = [] \/
  ((primary = Some "metabolic acidosis" \/ primary = Some "metabolic alkalosis") /\
   (l = ["respiratory alkalosis"] \/ l = ["respiratory acidosis"])) \/
  ((primary = Some "respiratory acidosis" \/ primary = Some "respiratory alkalosis") /\
   (l = ["metabolic acidosis"] \/ l = ["metabolic alkalosis"])).

(** The labels that the stages push onto [additionalDisorders]. *)
Definition known_labels : list string :=
  ["respiratory alkalosis"; "respiratory acidosis"; "metabolic acidosis";
   "metabolic alkalosis"; "high anion gap metabolic acidosis";
   "normal anion gap metabolic acidosis"].

(** The name under which the final interpretation shows a category: the
    word 'compensated' is taken out, which leaves nothing of the category
    ['compensated'] and two spaces in a row in the two mixed compensated
    ones. *)
Definition display_name (primary : string) : string :=
  if String.eqb primary "compensated" then ""
  else if String.eqb primary "mixed compensated resp acid + met alk"
  then "mixed  resp acid + met alk"
  else if String.eqb primary "mixed compensated resp alk + met acid"
  then "mixed  resp alk + met acid"
  else primary.

Definition compensation_phrase (st : AnalysisState) : string :=
  if is_str (primaryDisorder st) "compensated" || is_str (acidBaseStatus st) "normal"
  then " with complete compensation"
  else if is_str (compensationAssessment st) "appropriate"
  then " with expected compensation"
  else "".

(** The additional disorders that the final interpretation lists. *)
Definition listed_disorders (st : AnalysisState) : list string :=
  filter (fun d => keep_additional st d = true) (additionalDisorders st).

Definition superimposed_phrase (l : list string) : string :=
  match l with
  | [] => ""
  | _ => " and superimposed " +:+ Str.join " and " l
  end.

(** The final interpretation as a sentence of four parts. *)
Definition rendered (st : AnalysisState) : string :=
  "Primary " +:+ display_name (default "" (primaryDisorder st)) +:+
  compensation_phrase st +:+ superimposed_phrase (listed_disorders st) +:+ ".".

(** A string that is not empty and does not end in white space. *)
Definition clean (s : string) : Prop := s <> "" /\ Str.trim_end s = s.

Section FormVocabulary.
Context {rt : JSRuntime} {parser : StringParser}.

(** The field [key] of the form holds a text, not empty, that parses to the
    number [q], and [q] lies within the range of the field. *)
Definition accepted_field (formValues : gmap string string) (key : string)
    (q : Q) : Prop :=
  exists s r,
    formValues !! key = Some s /\ s <> "" /\ String_parseFloat s = Fin q /\
    ManualInputForm.range_of ManualInputForm.physiologicalRanges key = Some r /\
    (ManualInputForm.min r <= q <= ManualInputForm.max r)%Q.

(** The test under which the loop of [handleSubmit] copies a field. *)
Definition collects (formValues : gmap string string) (key : string) : bool :=
  let value := formValues !! key in
  negb (match value with Some s => String.eqb s "" | None => false end)
  && negb (Num.is_nan (ManualInputForm.parse value))
  && negb (Str.truthy (ManualInputForm.validateInput key value)).

(** The test under which it records an error for a field. *)
Definition faulty (formValues : gmap string string) (key : string) : bool :=
  Str.truthy (ManualInputForm.validateInput key (formValues !! key)).

End FormVocabulary.

(** Every property of [values] is absent or a number that is not NaN. *)
Definition numeric_values (values : gmap string jsval) : Prop :=
  forall key v, values !! key = Some v -> exists q, v = JNum (Fin q).

(** The text of the engine's range check on PaCO2. *)
Definition paco2_message {rt : JSRuntime} (paco2 : Q) : string :=
  "PaCO₂ value (" +:+ Number_toString (Fin paco2) +:+
  ") is outside typical physiological range (10-150 mmHg).".

(* ------------------------------------------------------------------ *)
(** ** The engine on binary64 numbers

    The same methods, line by line, with the numbers of JavaScript: every
    literal is the double nearest to its decimal numeral and every
    operation rounds.  The state, the analyzer object and the runtime
    interface are those of the engine above with [number] read as
    [Binary64.number]; [Results], which holds texts only, is shared. *)

Module IEEE.

Definition number : Type := Binary64.number.
Bind Scope ieee_scope with number.

(** A numeric literal of the source: the double nearest to the numeral. *)
Definition lit (q : Q) : number := Binary64.of_Q q.
Arguments lit q%_Q : simpl never.

Inductive jsval : Type :=
| JUndefined
| JNull
| JNum (n : number).

(** The abstract operation ToNumber, applied by [isNaN], by arithmetic and
    by the relational operators. *)
Definition ToNumber (v : jsval) : number :=
  match v with
  | JUndefined => Binary64.nan
  | JNull => lit 0
  | JNum n => n
  end.

Definition isNaN (v : jsval) : bool := Binary64.is_nan (ToNumber v).

(** [parseFloat] converts its argument to a string and parses it back:
    a number comes back unchanged, but for the negative zero, whose text is
    ["0"]; ["undefined"] and ["null"] give NaN. *)
Definition parseFloat (v : jsval) : number :=
  match v with
  | JNum (SpecFloat.S754_zero _) => Binary64.zero
  | JNum n => n
  | JUndefined | JNull => Binary64.nan
  end.

Definition is_undefined (v : jsval) : bool :=
  match v with JUndefined => true | _ => false end.
Definition is_null (v : jsval) : bool :=
  match v with JNull => true | _ => false end.

(** The measurement object: property name to value.  Reading a property
    that is absent gives [undefined]. *)
Definition prop (values : gmap string jsval) (key : string) : jsval :=
  default JUndefined (values !! key).

(** [this.state], as [resetStateAndResults] lays it out. *)
Record AnalysisState : Type := mkState {
  acidBaseStatus : option string;
  primaryDisorder : option string;
  compensationType : option string;
  expectedCompensationValue : option number;
  compensationAssessment : option string;
  additionalDisorders : list string;
  anionGap : option number;
  correctedAnionGap : option number;
  deltaRatio : option number;
  deltaRatioAssessment : option string
}.

Record ABGAnalyzer : Type := mkAnalyzer {
  results : Results;
  state : AnalysisState
}.

(** What [analyze] returns: [{ ...this.results, state: this.state }].
    [resetStateAndResults] assigns fresh objects to both fields at the start
    of every call and the stages only assign fields of those, so the value
    returned by an earlier call is not touched by a later one; the snapshot
    is modelled by value. *)
Record AnalysisResult : Type := mkAnalysisResult {
  texts : Results;
  final_state : AnalysisState
}.

(** Field assignments [this.state.f = v]. *)
Definition with_acidBaseStatus v (s : AnalysisState) :=
  mkState v (primaryDisorder s) (compensationType s)
    (expectedCompensationValue s) (compensationAssessment s)
    (additionalDisorders s) (anionGap s) (correctedAnionGap s)
    (deltaRatio s) (deltaRatioAssessment s).
Definition with_primaryDisorder v (s : AnalysisState) :=
  mkState (acidBaseStatus s) v (compensationType s)
    (expectedCompensationValue s) (compensationAssessment s)
    (additionalDisorders s) (anionGap s) (correctedAnionGap s)
    (deltaRatio s) (deltaRatioAssessment s).
Definition with_compensationType v (s : AnalysisState) :=
  mkState (acidBaseStatus s) (primaryDisorder s) v
    (expectedCompensationValue s) (compensationAssessment s)
    (additionalDisorders s) (anionGap s) (correctedAnionGap s)
    (deltaRatio s) (deltaRatioAssessment s).
Definition with_expectedCompensationValue v (s : AnalysisState) :=
  mkState (acidBaseStatus s) (primaryDisorder s) (compensationType s)
    v (compensationAssessment s)
    (additionalDisorders s) (anionGap s) (correctedAnionGap s)
    (deltaRatio s) (deltaRatioAssessment s).
Definition with_compensationAssessment v (s : AnalysisState) :=
  mkState (acidBaseStatus s) (primaryDisorder s) (compensationType s)
    (expectedCompensationValue s) v
    (additionalDisorders s) (anionGap s) (correctedAnionGap s)
    (deltaRatio s) (deltaRatioAssessment s).
Definition with_additionalDisorders v (s : AnalysisState) :=
  mkState (acidBaseStatus s) (primaryDisorder s) (compensationType s)
    (expectedCompensationValue s) (compensationAssessment s)
    v (anionGap s) (correctedAnionGap s)
    (deltaRatio s) (deltaRatioAssessment s).
Definition with_anionGap v (s : AnalysisState) :=
  mkState (acidBaseStatus s) (primaryDisorder s) (compensationType s)
    (expectedCompensationValue s) (compensationAssessment s)
    (additionalDisorders s) v (correctedAnionGap s)
    (deltaRatio s) (deltaRatioAssessment s).
Definition with_correctedAnionGap v (s : AnalysisState) :=
  mkState (acidBaseStatus s) (primaryDisorder s) (compensationType s)
    (expectedCompensationValue s) (compensationAssessment s)
    (additionalDisorders s) (anionGap s) v
    (deltaRatio s) (deltaRatioAssessment s).
Definition with_deltaRatio v (s : AnalysisState) :=
  mkState (acidBaseStatus s) (primaryDisorder s) (compensationType s)
    (expectedCompensationValue s) (compensationAssessment s)
    (additionalDisorders s) (anionGap s) (correctedAnionGap s)
    v (deltaRatioAssessment s).
Definition with_deltaRatioAssessment v (s : AnalysisState) :=
  mkState (acidBaseStatus s) (primaryDisorder s) (compensationType s)
    (expectedCompensationValue s) (compensationAssessment s)
    (additionalDisorders s) (anionGap s) (correctedAnionGap s)
    (deltaRatio s) v.

(** ** Methods as state transformers *)

Definition Method (A : Type) : Type := ABGAnalyzer -> A * ABGAnalyzer.

Definition ret {A} (a : A) : Method A := fun this => (a, this).
Definition bind {A B} (m : Method A) (k : A -> Method B) : Method B :=
  fun this => let (a, this') := m this in k a this'.

Declare Scope ieee_method_scope.
Delimit Scope ieee_method_scope with ieee_method.
Bind Scope ieee_method_scope with Method.
Notation "x <- m ;; k" := (bind m (fun x => k))
  (at level 100, m at next level, right associativity) : ieee_method_scope.
Notation "m ;; k" := (bind m (fun _ => k))
  (at level 100, right associativity) : ieee_method_scope.

Definition get_state : Method AnalysisState := fun this => (state this, this).
Definition get_results : Method Results := fun this => (results this, this).
Definition set_state (f : AnalysisState -> AnalysisState) : Method unit :=
  fun this => (tt, mkAnalyzer (results this) (f (state this))).
Definition set_results (f : Results -> Results) : Method unit :=
  fun this => (tt, mkAnalyzer (f (results this)) (state this)).

(** [this.state.additionalDisorders.push(x)]. *)
Definition push_additional (x : string) : Method unit :=
  set_state (fun s => with_additionalDisorders (additionalDisorders s ++ [x]) s).

(** The services of the JavaScript runtime used by the engine. *)
Class JSRuntime : Type := {
  (** [Math.pow(b, e)] *)
  Math_pow : number -> number -> number;
  (** [x.toFixed(d)] *)
  toFixed : number -> nat -> string;
  (** the text of [${x}] in a template literal, for a number [x] *)
  Number_toString : number -> string
}.

(** ToNumber of a field that holds [null] or a number. *)
Definition num_of_field (x : option number) : number :=
  match x with Some n => n | None => lit 0 end.

Definition fresh_state : AnalysisState :=
  mkState None None None None None [] None None None None.

Section Engine.
Context {rt : JSRuntime}.
Local Open Scope ieee_method_scope.

(** [${v}] for a property of the measurement object. *)
Definition template (v : jsval) : string :=
  match v with
  | JUndefined => "undefined"
  | JNull => "null"
  | JNum n => Number_toString n
  end.

Definition resetStateAndResults : Method unit :=
  fun _ => (tt, mkAnalyzer fresh_results fresh_state).

(** The [for (const key of required)] loop of [validateInputs]: the first
    key whose value is [undefined], [null] or NaN. *)
Fixpoint first_invalid (values : gmap string jsval) (required : list string)
  : option string :=
  match required with
  | [] => None
  | key :: rest =>
      let v := prop values key in
      if is_undefined v || is_null v || isNaN v then Some key
      else first_invalid values rest
  end.

Definition validateInputs (values : gmap string jsval) : Method bool :=
  let required := ["ph"; "paco2"; "hco3"] in
  match first_invalid values required with
  | Some key =>
      set_results (with_error
        (Some ("Missing or invalid required value: " +:+ Str.toUpperCase key))) ;;
      ret false
  | None =>
      let ph := prop values "ph" in
      let paco2 := prop values "paco2" in
      let hco3 := prop values "hco3" in
      if (ToNumber ph <? lit 6.0)%ieee || (ToNumber ph >? lit 8.0)%ieee then
        set_results (with_error (Some ("pH value (" +:+ template ph +:+
          ") is outside typical physiological range (6.8-8.0)."))) ;;
        ret false
      else if (ToNumber paco2 <? lit 10)%ieee || (ToNumber paco2 >? lit 150)%ieee then
        set_results (with_error (Some ("PaCO₂ value (" +:+ template paco2 +:+
          ") is outside typical physiological range (10-150 mmHg)."))) ;;
        ret false
      else if (ToNumber hco3 <? lit 2)%ieee || (ToNumber hco3 >? lit 60)%ieee then
        set_results (with_error (Some ("HCO₃⁻ value (" +:+ template hco3 +:+
          ") is outside typical physiological range (5-60 mmol/L)."))) ;;
        ret false
      else ret true
  end.

(** Step 1.  The method reads and writes no field. *)
Definition checkInternalConsistency (ph paco2 hco3 : number) : Method string :=
  if (hco3 === lit 0)%ieee then ret "Inconsistency: HCO₃⁻ cannot be zero."
  else
    let calculatedH := (lit 24 * (paco2 / hco3))%ieee in
    let measuredH := (Math_pow (lit 10) (Binary64.neg ph) * lit 1e9)%ieee in
    let difference := Binary64.abs (calculatedH - measuredH) in
    let acceptableDifference := (measuredH * lit 0.20)%ieee in
    if (difference >? acceptableDifference)%ieee && negb (Binary64.is_nan difference) then
      ret ("Possible inconsistency detected. Measured [H⁺] ≈ " +:+
           toFixed measuredH 1 +:+ " nmol/L, Calculated [H⁺] ≈ " +:+
           toFixed calculatedH 1 +:+ " nmol/L.")
    else
      ret ("Values appear internally consistent. Measured [H⁺] ≈ " +:+
           toFixed measuredH 1 +:+ " nmol/L, Calculated [H⁺] ≈ " +:+
           toFixed calculatedH 1 +:+ " nmol/L.").

(** Step 2. *)
Definition determineAcidemiaAlkalemia (ph : number) : Method string :=
  if (ph <? lit 7.35)%ieee then
    set_state (with_acidBaseStatus (Some "acidemia")) ;;
    ret ("Acidemia (pH " +:+ toFixed ph 2 +:+ " < 7.35)")
  else if (ph >? lit 7.45)%ieee then
    set_state (with_acidBaseStatus (Some "alkalemia")) ;;
    ret ("Alkalemia (pH " +:+ toFixed ph 2 +:+ " > 7.45)")
  else
    set_state (with_acidBaseStatus (Some "normal")) ;;
    ret ("Normal pH (" +:+ toFixed ph 2 +:+ ")").

(** Step 3.  Every branch of the source assigns [primaryDisorder] and the
    local [disorder], which is returned at the end. *)
Definition identifyPrimaryDisorder (ph paco2 hco3 : number) : Method string :=
  st <- get_state ;;
  let status := acidBaseStatus st in
  if is_str status "acidemia" then
    (if (paco2 >? lit 45)%ieee then
       set_state (with_primaryDisorder (Some "respiratory acidosis")) ;;
       ret ("Primary Respiratory Acidosis (PaCO₂ " +:+ Number_toString paco2 +:+
            " mmHg is high)")
     else if (hco3 <? lit 22)%ieee then
       set_state (with_primaryDisorder (Some "metabolic acidosis")) ;;
       ret ("Primary Metabolic Acidosis (HCO₃⁻ " +:+ Number_toString hco3 +:+
            " mmol/L is low)")
     else
       set_state (with_primaryDisorder (Some "mixed acidemia")) ;;
       ret ("Acidemia present, but PaCO₂ (" +:+ Number_toString paco2 +:+
            ") and HCO₃⁻ (" +:+ Number_toString hco3 +:+
            ") do not clearly indicate a single primary disorder. Mixed disorder likely."))
  else if is_str status "alkalemia" then
    (if (paco2 <? lit 35)%ieee then
       set_state (with_primaryDisorder (Some "respiratory alkalosis")) ;;
       ret ("Primary Respiratory Alkalosis (PaCO₂ " +:+ Number_toString paco2 +:+
            " mmHg is low)")
     else if (hco3 >? lit 26)%ieee then
       set_state (with_primaryDisorder (Some "metabolic alkalosis")) ;;
       ret ("Primary Metabolic Alkalosis (HCO₃⁻ " +:+ Number_toString hco3 +:+
            " mmol/L is high)")
     else
       set_state (with_primaryDisorder (Some "mixed alkalemia")) ;;
       ret ("Alkalemia present, but PaCO₂ (" +:+ Number_toString paco2 +:+
            ") and HCO₃⁻ (" +:+ Number_toString hco3 +:+
            ") do not clearly indicate a single primary disorder. Mixed disorder likely."))
  else
    (if (paco2 >? lit 45)%ieee && (hco3 >? lit 26)%ieee then
       set_state (with_primaryDisorder (Some "mixed compensated resp acid + met alk")) ;;
       ret "Normal pH with high PaCO₂ and high HCO₃⁻ suggests Mixed Disorder (Compensated Respiratory Acidosis + Metabolic Alkalosis)."
     else if (paco2 <? lit 35)%ieee && (hco3 <? lit 22)%ieee then
       set_state (with_primaryDisorder (Some "mixed compensated resp alk + met acid")) ;;
       ret "Normal pH with low PaCO₂ and low HCO₃⁻ suggests Mixed Disorder (Compensated Respiratory Alkalosis + Metabolic Acidosis)."
     else if (paco2 >=? lit 35)%ieee && (paco2 <=? lit 45)%ieee &&
             (hco3 >=? lit 22)%ieee && (hco3 <=? lit 26)%ieee then
       set_state (with_primaryDisorder (Some "normal")) ;;
       ret "Normal acid-base status (pH, PaCO₂, HCO₃⁻ within normal ranges)."
     else if (paco2 >? lit 45)%ieee || (hco3 >? lit 26)%ieee then
       set_state (with_primaryDisorder (Some "compensated")) ;;
       ret "Normal pH with abnormal PaCO₂ or HCO₃⁻ suggests a fully compensated disorder or borderline values."
     else if (paco2 <? lit 35)%ieee || (hco3 <? lit 22)%ieee then
       set_state (with_primaryDisorder (Some "compensated")) ;;
       ret "Normal pH with abnormal PaCO₂ or HCO₃⁻ suggests a fully compensated disorder or borderline values."
     else
       set_state (with_primaryDisorder (Some "normal")) ;;
       ret "Normal acid-base status.").

(** The three-way test that closes each case of the [switch] in
    [evaluateCompensation]; the source writes it out in every case, with the
    two labels of that case. *)
Definition assess (measuredValue : number) (range : number)
    (below above : string) : Method unit :=
  st <- get_state ;;
  let expected := num_of_field (expectedCompensationValue st) in
  if (Binary64.abs (measuredValue - expected) <=? range)%ieee then
    set_state (with_compensationAssessment (Some "appropriate"))
  else if (measuredValue <? expected - range)%ieee then
    set_state (with_compensationAssessment (Some "mixed")) ;;
    push_additional below
  else
    set_state (with_compensationAssessment (Some "mixed")) ;;
    push_additional above.

(** The choice between the acute and the chronic expectation in the two
    respiratory cases; returns the result text of the chosen branch. *)
Definition choose_acute_chronic
    (measuredValue expectedAcute expectedChronic range : number)
  : Method string :=
  if (Binary64.abs (measuredValue - expectedAcute)
        <? Binary64.abs (measuredValue - expectedChronic))%ieee then
    set_state (with_compensationType (Some "acute")) ;;
    set_state (with_expectedCompensationValue (Some expectedAcute)) ;;
    ret ("Acute Compensation: Expected HCO₃⁻ ≈ " +:+ toFixed expectedAcute 1 +:+
         " ± " +:+ Number_toString range +:+ " mmol/L. Measured HCO₃⁻ = " +:+
         toFixed measuredValue 1 +:+ " mmol/L.")
  else
    set_state (with_compensationType (Some "chronic")) ;;
    set_state (with_expectedCompensationValue (Some expectedChronic)) ;;
    ret ("Chronic Compensation: Expected HCO₃⁻ ≈ " +:+ toFixed expectedChronic 1 +:+
         " ± " +:+ Number_toString range +:+ " mmol/L. Measured HCO₃⁻ = " +:+
         toFixed measuredValue 1 +:+ " mmol/L.").

(** The last element of [additionalDisorders], or ['unknown']. *)
Definition last_additional (l : list string) : string :=
  match last l with Some x => x | None => "unknown" end.

(** The sentence appended to the result text after the [switch]. *)
Definition assessment_sentence (st : AnalysisState) : string :=
  if is_str (compensationAssessment st) "appropriate" then
    " Compensation is appropriate."
  else if is_str (compensationAssessment st) "mixed" then
    " Suggests a superimposed " +:+
    Str.replace_underscores (last_additional (additionalDisorders st)) +:+ "."
  else " Compensation assessment unclear.".

(** Step 4.  The [switch] on [primary] is the chain of string tests; the
    local [valueName] ('PaCO₂' or 'HCO₃⁻') is written into the texts. *)
Definition evaluateCompensation (paco2 hco3 : number) : Method string :=
  st <- get_state ;;
  let primary := primaryDisorder st in
  if falsy primary || Str.includes (default "" primary) "mixed"
     || is_str primary "normal" || is_str primary "compensated" then
    (if is_str primary "compensated" then
       ret "Full compensation (pH is within normal range)."
     else ret "Compensation assessment skipped (Mixed, Normal, or Undetermined Primary).")
  else
    let deltaPaco2 := (paco2 - lit 40)%ieee in
    let deltaHco3 := (hco3 - lit 24)%ieee in
    if is_str primary "metabolic acidosis" then
      let range := lit 2 in
      let expected := (lit 1.5 * hco3 + lit 8)%ieee in
      set_state (with_expectedCompensationValue (Some expected)) ;;
      let measuredValue := paco2 in
      let resultText :=
        "Expected PaCO₂ ≈ " +:+ toFixed expected 1 +:+ " ± " +:+
        Number_toString range +:+ " mmHg (Winter's). Measured PaCO₂ = " +:+
        toFixed measuredValue 1 +:+ " mmHg." in
      assess measuredValue range "respiratory alkalosis" "respiratory acidosis" ;;
      st' <- get_state ;;
      ret (resultText +:+ assessment_sentence st')
    else if is_str primary "metabolic alkalosis" then
      let range := lit 5 in
      let expected := (lit 40 + lit 0.6 * deltaHco3)%ieee in
      set_state (with_expectedCompensationValue (Some expected)) ;;
      let measuredValue := paco2 in
      let resultText :=
        "Expected PaCO₂ ≈ " +:+ toFixed expected 1 +:+ " ± " +:+
        Number_toString range +:+ " mmHg. Measured PaCO₂ = " +:+
        toFixed measuredValue 1 +:+ " mmHg." in
      assess measuredValue range "respiratory alkalosis" "respiratory acidosis" ;;
      st' <- get_state ;;
      ret (resultText +:+ assessment_sentence st')
    else if is_str primary "respiratory acidosis" then
      let range := lit 3 in
      let expectedAcuteHCO3 := (lit 24 + deltaPaco2 * lit 0.1)%ieee in
      let expectedChronicHCO3 := (lit 24 + deltaPaco2 * lit 0.35)%ieee in
      let measuredValue := hco3 in
      resultText <-
        choose_acute_chronic measuredValue expectedAcuteHCO3 expectedChronicHCO3 range ;;
      assess measuredValue range "metabolic acidosis" "metabolic alkalosis" ;;
      st' <- get_state ;;
      ret (resultText +:+ assessment_sentence st')
    else if is_str primary "respiratory alkalosis" then
      let range := lit 3 in
      let expectedAcuteHCO3_alk := (lit 24 + deltaPaco2 * lit 0.2)%ieee in
      let expectedChronicHCO3_alk := (lit 24 + deltaPaco2 * lit 0.5)%ieee in
      let measuredValue := hco3 in
      resultText <-
        choose_acute_chronic measuredValue expectedAcuteHCO3_alk expectedChronicHCO3_alk range ;;
      assess measuredValue range "metabolic acidosis" "metabolic alkalosis" ;;
      st' <- get_state ;;
      ret (resultText +:+ assessment_sentence st')
    else ret "Error: Unknown primary disorder for compensation check.".

(** The test on albumin shared by steps 5 and 6:
    [albumin !== undefined && !isNaN(albuminNum) && albuminNum < 4.0 &&
     albuminNum >= 0]. *)
Definition albumin_usable (albumin : jsval) : bool :=
  let albuminNum := parseFloat albumin in
  negb (is_undefined albumin) && negb (Binary64.is_nan albuminNum)
  && (albuminNum <? lit 4.0)%ieee && (albuminNum >=? lit 0)%ieee.

(** Step 5.  [na] and [cl] only meet [isNaN] and arithmetic in the source,
    both of which apply ToNumber; [analyze] applies it at the call. *)
Definition calculateAnionGap (na cl hco3 : number) (albumin : jsval)
  : Method string :=
  if Binary64.is_nan na || Binary64.is_nan cl || Binary64.is_nan hco3 then
    ret "Cannot calculate Anion Gap: Invalid Na⁺, Cl⁻, or HCO₃⁻ value."
  else
    let ag := (na - (cl + hco3))%ieee in
    set_state (with_anionGap (Some ag)) ;;
    let resultText := "Anion Gap = " +:+ toFixed ag 1 +:+ " mmol/L" in
    let albuminNum := parseFloat albumin in
    resultText <-
      (if albumin_usable albumin then
         let corrected := (ag + lit 2.5 * (lit 4.0 - albuminNum))%ieee in
         set_state (with_correctedAnionGap (Some corrected)) ;;
         ret (resultText +:+ " (Normal ≈ 8-12). Albumin = " +:+
              toFixed albuminNum 1 +:+ " g/dL. Corrected AG ≈ " +:+
              toFixed corrected 1 +:+ " mmol/L.")
       else
         set_state (with_correctedAnionGap (Some ag)) ;;
         let resultText := resultText +:+ " (Normal ≈ 8-12)." in
         if negb (is_undefined albumin)
            && (Binary64.is_nan albuminNum || (albuminNum <? lit 0)%ieee) then
           ret (resultText +:+ " (Invalid albumin value provided for correction).")
         else if negb (is_undefined albumin) && (albuminNum >=? lit 4.0)%ieee then
           ret (resultText +:+ " (Albumin correction not needed).")
         else ret resultText) ;;
    st <- get_state ;;
    let agToCheck := num_of_field (correctedAnionGap st) in
    if (agToCheck >? lit 12)%ieee then
      let resultText := resultText +:+ " Elevated Anion Gap." in
      if negb (is_str (primaryDisorder st) "metabolic acidosis")
         && negb (includes (additionalDisorders st) "high anion gap metabolic acidosis") then
        push_additional "high anion gap metabolic acidosis" ;;
        ret (resultText +:+ " Suggests additional High AG Metabolic Acidosis.")
      else ret resultText
    else ret (resultText +:+ " Normal Anion Gap.").

(** Step 6. *)
Definition evaluateDeltaRatio (anionGap hco3 : number) (albumin : jsval)
  : Method string :=
  if Binary64.is_nan anionGap || Binary64.is_nan hco3 then
    ret "Cannot calculate Delta Ratio: Invalid AG or HCO₃⁻ value."
  else
    let albuminNum := parseFloat albumin in
    let normalAG :=
      if albumin_usable albumin then
        Binary64.max (lit 3) (lit 12 - lit 2.5 * (lit 4.0 - albuminNum))%ieee
      else lit 12 in
    let deltaAG := (anionGap - normalAG)%ieee in
    let deltaHCO3 := (lit 24 - hco3)%ieee in
    if (deltaHCO3 === lit 0)%ieee then
      set_state (with_deltaRatioAssessment
        (Some "concurrent met alk likely (delta HCO3 is zero)")) ;;
      ret "Delta Ratio not calculable (ΔHCO₃⁻ is 0). High AG with normal HCO₃⁻ suggests concurrent Metabolic Alkalosis."
    else if (deltaHCO3 <? lit 0)%ieee then
      set_state (with_deltaRatioAssessment
        (Some "concurrent met alk likely (delta HCO3 negative)")) ;;
      ret ("Delta Ratio interpretation complex (ΔHCO₃⁻ is negative: " +:+
           toFixed deltaHCO3 1 +:+
           "). High AG with elevated HCO₃⁻ suggests concurrent Metabolic Alkalosis.")
    else
      let ratio := (deltaAG / deltaHCO3)%ieee in
      set_state (with_deltaRatio (Some ratio)) ;;
      let resultText :=
        "Delta Ratio (ΔAG/ΔHCO₃⁻) = " +:+ toFixed ratio 1 +:+
        ". (Normal AG adjusted to " +:+ toFixed normalAG 1 +:+
        " if albumin provided)." in
      if (ratio <? lit 1.0)%ieee then
        set_state (with_deltaRatioAssessment (Some "concurrent NAGMA")) ;;
        st <- get_state ;;
        (if negb (includes (additionalDisorders st) "normal anion gap metabolic acidosis")
         then push_additional "normal anion gap metabolic acidosis"
         else ret tt) ;;
        ret (resultText +:+ " Ratio < 1.0 suggests concurrent Normal Anion Gap Metabolic Acidosis (NAGMA).")
      else if (ratio >? lit 2.0)%ieee then
        set_state (with_deltaRatioAssessment (Some "concurrent met alk")) ;;
        st <- get_state ;;
        (if negb (includes (additionalDisorders st) "metabolic alkalosis")
         then push_additional "metabolic alkalosis"
         else ret tt) ;;
        ret (resultText +:+ " Ratio > 2.0 suggests concurrent Metabolic Alkalosis.")
      else
        set_state (with_deltaRatioAssessment (Some "pure HAGMA")) ;;
        ret (resultText +:+ " Ratio ≈ 1-2 is consistent with uncomplicated High Anion Gap Metabolic Acidosis.").

(** The filter of [generateFinalInterpretation]: labels that only restate
    the primary disorder are dropped. *)
Definition keep_additional (st : AnalysisState) (disorder : string) : bool :=
  let primaryDisorder := primaryDisorder st in
  if is_str primaryDisorder "metabolic acidosis"
     && String.eqb disorder "high anion gap metabolic acidosis" then false
  else if is_str primaryDisorder "metabolic acidosis"
     && String.eqb disorder "normal anion gap metabolic acidosis"
     && (num_of_field (anionGap st) <=? lit 12)%ieee then false
  else if is_str primaryDisorder "metabolic alkalosis"
     && String.eqb disorder "metabolic alkalosis" then false
  else if is_str primaryDisorder "respiratory acidosis"
     && String.eqb disorder "respiratory acidosis" then false
  else if is_str primaryDisorder "respiratory alkalosis"
     && String.eqb disorder "respiratory alkalosis" then false
  else true.

Definition generateFinalInterpretation : Method string :=
  st <- get_state ;;
  res <- get_results ;;
  let primaryDisorder := primaryDisorder st in
  if negb (falsy (error res)) then
    ret ("Analysis Error: " +:+ default "" (error res))
  else if falsy primaryDisorder || is_str primaryDisorder "Undetermined" then
    ret "Unable to determine final interpretation."
  else if is_str primaryDisorder "normal" then
    ret "Normal acid-base status."
  else
    let interpretation :=
      "Primary " +:+
      Str.trim (Str.replace_first
                  (Str.replace_underscores (default "" primaryDisorder))
                  "compensated" "") in
    let interpretation :=
      if is_str primaryDisorder "compensated" || is_str (acidBaseStatus st) "normal"
      then interpretation +:+ " with complete compensation"
      else if is_str (compensationAssessment st) "appropriate"
      then interpretation +:+ " with expected compensation"
      else interpretation in
    let uniqueAdditional := unique (additionalDisorders st) in
    let filteredAdditional := filter (fun d => keep_additional st d = true) uniqueAdditional in
    let interpretation :=
      if (0 <? length filteredAdditional)%nat
      then interpretation +:+ " and superimposed " +:+
           Str.join " and " (map Str.replace_underscores filteredAdditional)
      else interpretation in
    ret (Str.trim interpretation +:+ ".").

(** Step 5 as [analyze] runs it: the test on the electrolytes, then the
    call or the skip text. *)
Definition analyze_step5 (values : gmap string jsval) : Method unit :=
  if negb (is_undefined (prop values "na"))
     && negb (is_undefined (prop values "cl"))
     && negb (is_undefined (prop values "hco3")) then
    t5 <- calculateAnionGap (ToNumber (prop values "na"))
            (ToNumber (prop values "cl")) (ToNumber (prop values "hco3"))
            (prop values "albumin") ;;
    set_results (with_step5 t5)
  else
    set_results (with_step5
      "Skipped: Na⁺ and Cl⁻ values required for Anion Gap calculation.") ;;
    set_state (with_anionGap None).

(** Step 6 as [analyze] runs it.  [evaluateDeltaRatio] is called with two
    arguments, so its third parameter [albumin] is [undefined]. *)
Definition analyze_step6 (values : gmap string jsval) : Method unit :=
  st <- get_state ;;
  let agToCheck := nullish (correctedAnionGap st) (anionGap st) in
  match agToCheck with
  | Some ag =>
      if (ag >? lit 12)%ieee && is_str (primaryDisorder st) "metabolic acidosis" then
        t6 <- evaluateDeltaRatio ag (ToNumber (prop values "hco3")) JUndefined ;;
        set_results (with_step6 t6)
      else if (ag <=? lit 12)%ieee && is_str (primaryDisorder st) "metabolic acidosis" then
        set_results (with_step6 "Not Applicable: Anion gap is not elevated.")
      else if negb (is_str (primaryDisorder st) "metabolic acidosis") then
        set_results (with_step6
          "Not Applicable: Primary disorder is not metabolic acidosis.")
      else
        set_results (with_step6
          "Skipped: Anion gap calculation was skipped or failed.")
  | None =>
      if negb (is_str (primaryDisorder st) "metabolic acidosis") then
        set_results (with_step6
          "Not Applicable: Primary disorder is not metabolic acidosis.")
      else
        set_results (with_step6
          "Skipped: Anion gap calculation was skipped or failed.")
  end.

(** The body of the [try] in [analyze]: the six steps and the final
    interpretation.  Its [catch] would store ["Analysis Error: " + message]
    in [results.error] and set [finalInterpretation] to
    ["Analysis incomplete due to error."]; none of the modelled operations
    throws, so it has no counterpart here.  The required values have passed
    [validateInputs] when the steps read them, so they are numbers and
    ToNumber leaves them as they are. *)
Definition six_step_analysis (values : gmap string jsval) : Method unit :=
  let ph := ToNumber (prop values "ph") in
  let paco2 := ToNumber (prop values "paco2") in
  let hco3 := ToNumber (prop values "hco3") in
  t1 <- checkInternalConsistency ph paco2 hco3 ;;
  set_results (with_step1 t1) ;;
  t2 <- determineAcidemiaAlkalemia ph ;;
  set_results (with_step2 t2) ;;
  t3 <- identifyPrimaryDisorder ph paco2 hco3 ;;
  set_results (with_step3 t3) ;;
  t4 <- evaluateCompensation paco2 hco3 ;;
  set_results (with_step4 t4) ;;
  analyze_step5 values ;;
  analyze_step6 values ;;
  tf <- generateFinalInterpretation ;;
  set_results (with_finalInterpretation tf).

(** [{ ...this.results, state: this.state }]. *)
Definition snapshot : Method AnalysisResult :=
  res <- get_results ;; st <- get_state ;;
  ret (mkAnalysisResult res st).

Definition analyze (values : gmap string jsval) : Method AnalysisResult :=
  resetStateAndResults ;;
  ok <- validateInputs values ;;
  if negb ok then snapshot
  else six_step_analysis values ;; snapshot.

End Engine.

(* ------------------------------------------------------------------ *)
(** *** A runtime to run it

    [toFixed] and the template conversion are those of [Binary64].
    [Math_pow] rounds the power computed by [Sample.pow] on the exact values
    of its arguments: correctly rounded for an integer exponent, within the
    error of the truncated series for the other powers of ten, and NaN
    where [Sample.pow] has no value or an argument is infinite, which the
    engine, raising ten to a validated -pH, does not meet.  The theorems do
    not depend on this instance. *)

Definition finite_value (x : number) : option Q :=
  match x with
  | SpecFloat.S754_zero _ | SpecFloat.S754_finite _ _ _ => Some (Binary64.value x)
  | _ => None
  end.

Definition pow (b e : number) : number :=
  match finite_value b, finite_value e with
  | Some x, Some y =>
      match Sample.pow (Fin x) (Fin y) with
      | Fin r => Binary64.of_Q r
      | NaN => Binary64.nan
      end
  | _, _ => Binary64.nan
  end.

Definition runtime : JSRuntime :=
  {| Math_pow := pow;
     toFixed := Binary64.to_fixed;
     Number_toString := Binary64.to_string |}.

(** The object [{ ph, paco2, hco3 }] and its extension by further keys,
    each value being the double nearest to its numeral. *)
Definition measurements (l : list (string * Q)) : gmap string jsval :=
  list_to_map (map (fun kv => (fst kv, JNum (lit (snd kv)))) l).

Definition new_analyzer : ABGAnalyzer := mkAnalyzer fresh_results fresh_state.

(* ------------------------------------------------------------------ *)
(** *** Vocabulary of the statements on binary64 numbers *)

(** The three required values are numbers within the accepted bounds; a
    comparison that holds rules NaN out. *)
Definition valid_inputs (values : gmap string jsval) (ph paco2 hco3 : number)
  : Prop :=
  prop values "ph" = JNum ph /\
  prop values "paco2" = JNum paco2 /\
  prop values "hco3" = JNum hco3 /\
  ((lit 6.0 <=? ph)%ieee = true /\ (ph <=? lit 8.0)%ieee = true) /\
  ((lit 10 <=? paco2)%ieee = true /\ (paco2 <=? lit 150)%ieee = true) /\
  ((lit 2 <=? hco3)%ieee = true /\ (hco3 <=? lit 60)%ieee = true).

(** The outcome of a method on a given state, the results being empty. *)
Definition exec {A} (m : Method A) (s : AnalysisState) : A * AnalysisState :=
  let (a, this) := m (mkAnalyzer fresh_results s) in (a, state this).

(** [StateOnly m]: [m] neither reads nor writes [this.results]. *)
Class StateOnly {A} (m : Method A) : Prop :=
  state_only : forall this,
    m this = (fst (exec m (state this)),
              mkAnalyzer (results this) (snd (exec m (state this)))).

Definition post {A} (m : Method A) (s : AnalysisState) : AnalysisState :=
  snd (exec m s).
Definition text {A} (m : Method A) (s : AnalysisState) : A :=
  fst (exec m s).

Section TraceDefinitions.
Context {rt : JSRuntime}.
Variable values : gmap string jsval.

Let ph := ToNumber (prop values "ph").
Let paco2 := ToNumber (prop values "paco2").
Let hco3 := ToNumber (prop values "hco3").

(** The state after each step of an analysis of [values]. *)
Definition state_after_step2 : AnalysisState :=
  post (determineAcidemiaAlkalemia ph) fresh_state.
Definition state_after_step3 : AnalysisState :=
  post (identifyPrimaryDisorder ph paco2 hco3) state_after_step2.
Definition state_after_step4 : AnalysisState :=
  post (evaluateCompensation paco2 hco3) state_after_step3.
Definition state_after_step5 : AnalysisState :=
  post (analyze_step5 values) state_after_step4.
Definition state_after_step6 : AnalysisState :=
  post (analyze_step6 values) state_after_step5.

(** The text that steps 5 and 6 store, from a given state. *)
Definition step5_text (s : AnalysisState) : string :=
  step5 (results (snd (analyze_step5 values (mkAnalyzer fresh_results s)))).
Definition step6_text (s : AnalysisState) : string :=
  step6 (results (snd (analyze_step6 values (mkAnalyzer fresh_results s)))).

(** The results after the six steps, before the final interpretation. *)
Definition results_after_step6 : Results :=
  with_step6 (step6_text state_after_step5)
    (with_step5 (step5_text state_after_step4)
      (with_step4 (text (evaluateCompensation paco2 hco3) state_after_step3)
        (with_step3 (text (identifyPrimaryDisorder ph paco2 hco3) state_after_step2)
          (with_step2 (text (determineAcidemiaAlkalemia ph) fresh_state)
            (with_step1 (text (checkInternalConsistency ph paco2 hco3) fresh_state)
               fresh_results))))).

Definition final_text : string :=
  fst (generateFinalInterpretation
         (mkAnalyzer results_after_step6 state_after_step6)).

Definition final_results : Results :=
  with_finalInterpretation final_text results_after_step6.

End TraceDefinitions.

(** The value step 4 measures: PaCO2 for a metabolic disorder, HCO3 for a
    respiratory one. *)
Definition measured (primary : string) (paco2 hco3 : number) : number :=
  if is_metabolic primary then paco2 else hco3.

(** The tolerance around the expected value. *)
Definition tolerance (primary : string) : number :=
  if String.eqb primary "metabolic acidosis" then lit 2
  else if String.eqb primary "metabolic alkalosis" then lit 5
  else lit 3.

(** What step 4 stored, against the value [e] it expected.  The distance
    |m - e| and the bound e - tol are the rounded results of the
    subtractions; the band is tested first, and every value outside it that
    is not found below the bound gets the label of the upper side. *)
Definition assessed (primary : string) (paco2 hco3 e : number)
    (s s' : AnalysisState) : Prop :=
  let m := measured primary paco2 hco3 in
  let tol := tolerance primary in
  let within := (Binary64.abs (m - e) <=? tol)%ieee in
  let below := (m <? e - tol)%ieee in
  (within = true ->
     compensationAssessment s' = Some "appropriate" /\
     additionalDisorders s' = additionalDisorders s) /\
  (within = false -> below = true ->
     compensationAssessment s' = Some "mixed" /\
     additionalDisorders s' = additionalDisorders s ++ [label_below primary]) /\
  (within = false -> below = false ->
     compensationAssessment s' = Some "mixed" /\
     additionalDisorders s' = additionalDisorders s ++ [label_above primary]).

(** The slopes of the acute and the chronic expectation. *)
Definition slope_acute (primary : string) : number :=
  if String.eqb primary "respiratory acidosis" then lit 0.1 else lit 0.2.
Definition slope_chronic (primary : string) : number :=
  if String.eqb primary "respiratory acidosis" then lit 0.35 else lit 0.5.

(** The state of the analyzer once step 3 has found [primary]. *)
Definition found_primary (primary : string) : AnalysisState :=
  with_primaryDisorder (Some primary) fresh_state.

End IEEE.

(* ------------------------------------------------------------------ *)
(** ** Comparisons on rationals *)

Lemma Qlt_bool_true (x y : Q) : Num.Qlt_bool x y = true <-> (x < y)%Q.
Proof.
  unfold Num.Qlt_bool. rewrite negb_true_iff.
  destruct (Qle_bool y x) eqn:E.
  - apply Qle_bool_iff in E. split; [discriminate | intros H; lra].
  - split; [intros _ | reflexivity].
    destruct (Qlt_le_dec x y) as [H|H]; [exact H|].
    apply Qle_bool_iff in H. congruence.
Qed.

Lemma Qlt_bool_false (x y : Q) : Num.Qlt_bool x y = false <-> (y <= x)%Q.
Proof.
  pose proof (Qlt_bool_true x y) as H.
  destruct (Num.Qlt_bool x y).
  - split; [discriminate|]. intros Hle. assert (x < y)%Q by (apply H; reflexivity). lra.
  - split; [intros _ | reflexivity].
    destruct (Qlt_le_dec x y) as [Hlt|Hle]; [|exact Hle].
    apply H in Hlt. discriminate.
Qed.

Lemma Qle_bool_false (x y : Q) : Qle_bool x y = false <-> (y < x)%Q.
Proof.
  rewrite <- Qlt_bool_true. unfold Num.Qlt_bool.
  destruct (Qle_bool x y); simpl; split; congruence.
Qed.

Lemma Qeq_bool_false (x y : Q) : Qeq_bool x y = false <-> ~ (x == y)%Q.
Proof.
  split.
  - intros H Heq. apply Qeq_bool_iff in Heq. congruence.
  - intros H. destruct (Qeq_bool x y) eqn:E; [|reflexivity].
    apply Qeq_bool_iff in E. contradiction.
Qed.

(** Behind the guard [b === 0] a division is the division of rationals. *)
Lemma div_guarded (a b : number) :
  (b === lit 0)%js = false ->
  (a / b)%js = match a, b with
               | Fin x, Fin y => Fin (x / y)
               | _, _ => NaN
               end.
Proof.
  destruct a as [|x], b as [|y]; cbn; try reflexivity.
  intros ->. reflexivity.
Qed.

(** Turns the boolean tests found among the hypotheses into order facts. *)
Ltac q_reflect :=
  repeat match goal with
  | H : Num.Qlt_bool _ _ = true |- _ => apply Qlt_bool_true in H
  | H : Num.Qlt_bool _ _ = false |- _ => apply Qlt_bool_false in H
  | H : Qle_bool _ _ = true |- _ => apply Qle_bool_iff in H
  | H : Qle_bool _ _ = false |- _ => apply Qle_bool_false in H
  | H : Qeq_bool _ _ = true |- _ => apply Qeq_bool_iff in H
  | H : Qeq_bool _ _ = false |- _ => apply Qeq_bool_false in H
  | H : (_ || _) = true |- _ => apply orb_true_iff in H; destruct H
  | H : (_ || _) = false |- _ => apply orb_false_iff in H; destruct H
  | H : (_ && _) = true |- _ => apply andb_true_iff in H; destruct H
  | H : (_ && _) = false |- _ => apply andb_false_iff in H
  | H : _ = true \/ _ = true |- _ => destruct H
  | H : _ = false \/ _ = false |- _ => destruct H
  | H : negb _ = true |- _ => apply negb_true_iff in H
  | H : negb _ = false |- _ => apply negb_false_iff in H
  end.

(** Evaluation that leaves rational arithmetic folded. *)
Ltac js_eval :=
  cbn -[Qle_bool Num.Qlt_bool Qeq_bool Qabs Qplus Qminus Qmult Qdiv Qopp
        String.append includes].

(* ------------------------------------------------------------------ *)
(** ** Validation *)

Section Validation.
Context {rt : JSRuntime}.

Lemma validateInputs_valid values ph paco2 hco3 this :
  valid_inputs values ph paco2 hco3 ->
  validateInputs values this = (true, this).
Proof.
  intros (Hph & Hp & Hh & Rph & Rp & Rh).
  unfold validateInputs, first_invalid. rewrite Hph, Hp, Hh. js_eval.
  destruct (Num.Qlt_bool ph 6.0) eqn:E1; q_reflect; [lra|].
  destruct (Num.Qlt_bool 8.0 ph) eqn:E2; q_reflect; [lra|].
  destruct (Num.Qlt_bool paco2 10) eqn:E3; q_reflect; [lra|].
  destruct (Num.Qlt_bool 150 paco2) eqn:E4; q_reflect; [lra|].
  destruct (Num.Qlt_bool hco3 2) eqn:E5; q_reflect; [lra|].
  destruct (Num.Qlt_bool 60 hco3) eqn:E6; q_reflect; [lra|].
  reflexivity.
Qed.

Lemma validateInputs_true_inv values this :
  fst (validateInputs values this) = true ->
  exists ph paco2 hco3, valid_inputs values ph paco2 hco3.
Proof.
  unfold validateInputs, first_invalid, valid_inputs.
  destruct (prop values "ph") as [| |[|ph]]; js_eval; try discriminate.
  destruct (prop values "paco2") as [| |[|paco2]]; js_eval; try discriminate.
  destruct (prop values "hco3") as [| |[|hco3]]; js_eval; try discriminate.
  destruct (Num.Qlt_bool ph 6.0) eqn:E1; js_eval; [discriminate|].
  destruct (Num.Qlt_bool 8.0 ph) eqn:E2; js_eval; [discriminate|].
  destruct (Num.Qlt_bool paco2 10) eqn:E3; js_eval; [discriminate|].
  destruct (Num.Qlt_bool 150 paco2) eqn:E4; js_eval; [discriminate|].
  destruct (Num.Qlt_bool hco3 2) eqn:E5; js_eval; [discriminate|].
  destruct (Num.Qlt_bool 60 hco3) eqn:E6; js_eval; [discriminate|].
  intros _. q_reflect. exists ph, paco2, hco3. repeat split; assumption.
Qed.

End Validation.

(* ------------------------------------------------------------------ *)
(** ** Methods that work on [this.state] alone *)

Lemma bind_run {A B} (m : Method A) (k : A -> Method B) this :
  bind m k this = k (fst (m this)) (snd (m this)).
Proof. unfold bind. destruct (m this). reflexivity. Qed.

#[export] Instance StateOnly_ret {A} (a : A) : StateOnly (ret a).
Proof. intros [R s]. reflexivity. Qed.

#[export] Instance StateOnly_get_state : StateOnly get_state.
Proof. intros [R s]. reflexivity. Qed.

#[export] Instance StateOnly_set_state f : StateOnly (set_state f).
Proof. intros [R s]. reflexivity. Qed.

#[export] Instance StateOnly_push x : StateOnly (push_additional x).
Proof. intros [R s]. reflexivity. Qed.

#[export] Instance StateOnly_bind {A B} (m : Method A) (k : A -> Method B) :
  StateOnly m -> (forall a, StateOnly (k a)) -> StateOnly (bind m k).
Proof.
  intros Hm Hk [R s]. cbn [state results].
  assert (Hexec : exec (bind m k) s
                  = exec (k (fst (exec m s))) (snd (exec m s))).
  { unfold exec at 1. rewrite bind_run, (Hm (mkAnalyzer fresh_results s)).
    reflexivity. }
  rewrite Hexec, bind_run, (Hm (mkAnalyzer R s)). cbn [fst snd state results].
  apply (Hk _ (mkAnalyzer R _)).
Qed.

#[export] Instance StateOnly_if {A} (b : bool) (m1 m2 : Method A) :
  StateOnly m1 -> StateOnly m2 -> StateOnly (if b then m1 else m2).
Proof. destruct b; auto. Qed.

Section Stages.
Context {rt : JSRuntime}.

#[export] Instance StateOnly_checkInternalConsistency ph paco2 hco3 :
  StateOnly (checkInternalConsistency ph paco2 hco3).
Proof. unfold checkInternalConsistency. cbv zeta. apply _. Qed.

#[export] Instance StateOnly_determineAcidemiaAlkalemia ph :
  StateOnly (determineAcidemiaAlkalemia ph).
Proof. unfold determineAcidemiaAlkalemia. apply _. Qed.

#[export] Instance StateOnly_identifyPrimaryDisorder ph paco2 hco3 :
  StateOnly (identifyPrimaryDisorder ph paco2 hco3).
Proof. unfold identifyPrimaryDisorder. cbv zeta. apply _. Qed.

#[export] Instance StateOnly_assess m r below above :
  StateOnly (assess m r below above).
Proof. unfold assess. cbv zeta. apply _. Qed.

#[export] Instance StateOnly_choose m a c r :
  StateOnly (choose_acute_chronic m a c r).
Proof. unfold choose_acute_chronic. apply _. Qed.

#[export] Instance StateOnly_evaluateCompensation paco2 hco3 :
  StateOnly (evaluateCompensation paco2 hco3).
Proof. unfold evaluateCompensation. cbv zeta. apply _. Qed.

#[export] Instance StateOnly_calculateAnionGap na cl hco3 albumin :
  StateOnly (calculateAnionGap na cl hco3 albumin).
Proof. unfold calculateAnionGap. cbv zeta. apply _. Qed.

#[export] Instance StateOnly_evaluateDeltaRatio ag hco3 albumin :
  StateOnly (evaluateDeltaRatio ag hco3 albumin).
Proof. unfold evaluateDeltaRatio. cbv zeta. apply _. Qed.

End Stages.

(* ------------------------------------------------------------------ *)
(** ** One analysis, stage by stage *)

Section Trace.
Context {rt : JSRuntime}.
Variable values : gmap string jsval.

Let ph := ToNumber (prop values "ph").
Let paco2 := ToNumber (prop values "paco2").
Let hco3 := ToNumber (prop values "hco3").

Lemma stage_run {A B} (m : Method A) `{!StateOnly m}
    (f : A -> Results -> Results) (k : Method B) R s :
  bind m (fun t => bind (set_results (f t)) (fun _ => k)) (mkAnalyzer R s)
  = k (mkAnalyzer (f (text m s) R) (post m s)).
Proof.
  rewrite bind_run, (state_only (mkAnalyzer R s)). cbn [fst snd state results].
  rewrite bind_run. reflexivity.
Qed.

Lemma analyze_step5_run R s :
  analyze_step5 values (mkAnalyzer R s)
  = (tt, mkAnalyzer (with_step5 (step5_text values s) R) (post (analyze_step5 values) s)).
Proof.
  unfold step5_text, post, exec, analyze_step5.
  destruct (negb (is_undefined (prop values "na")) &&
            negb (is_undefined (prop values "cl")) &&
            negb (is_undefined (prop values "hco3"))).
  - rewrite !bind_run, (state_only (mkAnalyzer R s)),
      (state_only (mkAnalyzer fresh_results s)). reflexivity.
  - reflexivity.
Qed.

Lemma analyze_step6_run R s :
  analyze_step6 values (mkAnalyzer R s)
  = (tt, mkAnalyzer (with_step6 (step6_text values s) R) (post (analyze_step6 values) s)).
Proof.
  unfold step6_text, post, exec, analyze_step6.
  rewrite !bind_run. cbn [get_state fst snd state results].
  destruct (nullish (correctedAnionGap s) (anionGap s)) as [ag|].
  - destruct ((ag >? lit 12)%js && is_str (primaryDisorder s) "metabolic acidosis").
    + rewrite !bind_run, (state_only (mkAnalyzer R s)),
        (state_only (mkAnalyzer fresh_results s)). reflexivity.
    + destruct ((ag <=? lit 12)%js && is_str (primaryDisorder s) "metabolic acidosis");
        [reflexivity|].
      destruct (negb (is_str (primaryDisorder s) "metabolic acidosis")); reflexivity.
  - destruct (negb (is_str (primaryDisorder s) "metabolic acidosis")); reflexivity.
Qed.

Lemma generateFinalInterpretation_run this :
  snd (generateFinalInterpretation this) = this.
Proof.
  unfold generateFinalInterpretation. rewrite !bind_run.
  cbn [get_state get_results fst snd]. cbv zeta.
  repeat match goal with
  | |- context [if ?c then _ else _] => destruct c
  end; reflexivity.
Qed.

Lemma checkInternalConsistency_post a b c s :
  post (checkInternalConsistency a b c) s = s.
Proof.
  unfold post, exec, checkInternalConsistency. cbv zeta.
  repeat match goal with
  | |- context [if ?c then _ else _] => destruct c
  end; reflexivity.
Qed.

(** The six steps, run on a fresh analyzer. *)
Lemma six_step_analysis_run :
  six_step_analysis values (mkAnalyzer fresh_results fresh_state)
  = (tt, mkAnalyzer (final_results values) (state_after_step6 values)).
Proof.
  unfold six_step_analysis. cbv zeta. fold ph paco2 hco3.
  rewrite !stage_run by apply _. rewrite checkInternalConsistency_post.
  rewrite bind_run, analyze_step5_run. cbn [fst snd].
  rewrite bind_run, analyze_step6_run. cbn [fst snd].
  rewrite bind_run.
  pose proof (generateFinalInterpretation_run
                (mkAnalyzer (results_after_step6 values)
                            (state_after_step6 values))) as Hfin.
  unfold final_results, final_text.
  change (post (determineAcidemiaAlkalemia ph) fresh_state)
    with (state_after_step2 values).
  change (post (identifyPrimaryDisorder ph paco2 hco3) (state_after_step2 values))
    with (state_after_step3 values).
  change (post (evaluateCompensation paco2 hco3) (state_after_step3 values))
    with (state_after_step4 values).
  change (post (analyze_step5 values) (state_after_step4 values))
    with (state_after_step5 values).
  change (post (analyze_step6 values) (state_after_step5 values))
    with (state_after_step6 values).
  change (with_step6 (step6_text values (state_after_step5 values)) _)
    with (results_after_step6 values).
  destruct (generateFinalInterpretation
              (mkAnalyzer (results_after_step6 values)
                          (state_after_step6 values))) as [tf this'].
  cbn [fst snd] in *. subst this'. reflexivity.
Qed.

End Trace.

Section Analyze.
Context {rt : JSRuntime}.

(** With valid required values, [analyze] is the six steps on a fresh object. *)
Lemma analyze_valid values this ph paco2 hco3 :
  valid_inputs values ph paco2 hco3 ->
  analyze values this
  = (mkAnalysisResult (final_results values) (state_after_step6 values),
     mkAnalyzer (final_results values) (state_after_step6 values)).
Proof.
  intros Hv. unfold analyze. rewrite bind_run. cbn [resetStateAndResults fst snd].
  rewrite bind_run, (validateInputs_valid _ _ _ _ _ Hv). cbn [fst snd negb].
  rewrite bind_run, six_step_analysis_run. reflexivity.
Qed.

(** Otherwise it returns what [validateInputs] left in a fresh object. *)
Lemma analyze_invalid values this :
  fst (validateInputs values (mkAnalyzer fresh_results fresh_state)) = false ->
  analyze values this
  = (let this' := snd (validateInputs values (mkAnalyzer fresh_results fresh_state))
     in (mkAnalysisResult (results this') (state this'), this')).
Proof.
  intros Hv. unfold analyze. rewrite bind_run. cbn [resetStateAndResults fst snd].
  rewrite bind_run, Hv. reflexivity.
Qed.

End Analyze.

(* ------------------------------------------------------------------ *)
(** ** What each stage leaves untouched *)

Ltac case_if :=
  match goal with
  | |- context [if ?c then _ else _] => destruct c eqn:?
  end.

(** Runs the monadic plumbing of a method, then splits on its tests. *)
Ltac run_method :=
  cbv [bind ret get_state get_results set_state set_results push_additional];
  js_eval.
Ltac run_stage := repeat (run_method; try case_if).

Section Frames.
Context {rt : JSRuntime}.

Lemma determineAcidemiaAlkalemia_post ph s :
  post (determineAcidemiaAlkalemia ph) s
  = with_acidBaseStatus
      (Some (if (ph <? lit 7.35)%js then "acidemia"
             else if (ph >? lit 7.45)%js then "alkalemia" else "normal")) s.
Proof.
  unfold post, exec, determineAcidemiaAlkalemia.
  destruct (ph <? lit 7.35)%js; [reflexivity|].
  destruct (ph >? lit 7.45)%js; reflexivity.
Qed.

Lemma identifyPrimaryDisorder_frame ph paco2 hco3 s :
  exists pd, post (identifyPrimaryDisorder ph paco2 hco3) s
             = with_primaryDisorder (Some pd) s.
Proof.
  unfold post, exec, identifyPrimaryDisorder. rewrite bind_run.
  cbn [get_state fst snd state]. cbv zeta.
  repeat case_if; eexists; reflexivity.
Qed.

Lemma evaluateCompensation_frame paco2 hco3 s :
  let s' := post (evaluateCompensation paco2 hco3) s in
  acidBaseStatus s' = acidBaseStatus s /\
  primaryDisorder s' = primaryDisorder s /\
  anionGap s' = anionGap s /\
  correctedAnionGap s' = correctedAnionGap s /\
  deltaRatio s' = deltaRatio s /\
  deltaRatioAssessment s' = deltaRatioAssessment s.
Proof.
  destruct s as [abs pd ct ecv ca ad ag cag dr dra].
  unfold post, exec, evaluateCompensation, assess, choose_acute_chronic.
  run_stage; repeat split; reflexivity.
Qed.

Lemma analyze_step5_frame values s :
  let s' := post (analyze_step5 values) s in
  acidBaseStatus s' = acidBaseStatus s /\
  primaryDisorder s' = primaryDisorder s /\
  compensationType s' = compensationType s /\
  expectedCompensationValue s' = expectedCompensationValue s /\
  compensationAssessment s' = compensationAssessment s /\
  deltaRatio s' = deltaRatio s /\
  deltaRatioAssessment s' = deltaRatioAssessment s.
Proof.
  destruct s as [abs pd ct ecv ca ad ag cag dr dra].
  unfold post, exec, analyze_step5, calculateAnionGap.
  run_stage; repeat split; reflexivity.
Qed.

Lemma analyze_step6_frame values s :
  let s' := post (analyze_step6 values) s in
  acidBaseStatus s' = acidBaseStatus s /\
  primaryDisorder s' = primaryDisorder s /\
  compensationType s' = compensationType s /\
  expectedCompensationValue s' = expectedCompensationValue s /\
  compensationAssessment s' = compensationAssessment s /\
  anionGap s' = anionGap s /\
  correctedAnionGap s' = correctedAnionGap s.
Proof.
  destruct s as [abs pd ct ecv ca ad ag cag dr dra].
  unfold post, exec, analyze_step6, evaluateDeltaRatio.
  run_method.
  destruct (nullish cag ag) as [x|];
  run_stage; repeat split; reflexivity.
Qed.

End Frames.

(* ------------------------------------------------------------------ *)
(** ** Validation decides whether the six steps run *)

Section ValidationOutcome.
Context {rt : JSRuntime}.

(** A failed validation stores an error and touches nothing else. *)
Lemma validateInputs_false values this :
  fst (validateInputs values this) = false ->
  exists msg,
    snd (validateInputs values this)
    = mkAnalyzer (with_error (Some msg) (results this)) (state this).
Proof.
  unfold validateInputs. destruct this as [R s].
  destruct (first_invalid values ["ph"; "paco2"; "hco3"]) as [key|].
  - intros _. eexists. reflexivity.
  - cbv zeta. repeat case_if; cbn; intros; try discriminate; eexists; reflexivity.
Qed.

Lemma final_results_error values : error (final_results values) = None.
Proof. reflexivity. Qed.

(** [analyze] reports no error exactly on valid required values. *)
Lemma analyze_error_None values this :
  error (texts (fst (analyze values this))) = None <->
  exists ph paco2 hco3, valid_inputs values ph paco2 hco3.
Proof.
  split.
  - destruct (fst (validateInputs values (mkAnalyzer fresh_results fresh_state)))
      eqn:Hv.
    + intros _. exact (validateInputs_true_inv _ _ Hv).
    + rewrite (analyze_invalid _ _ Hv).
      destruct (validateInputs_false _ _ Hv) as [msg ->]. discriminate.
  - intros (ph & paco2 & hco3 & Hv). rewrite (analyze_valid _ _ _ _ _ Hv).
    reflexivity.
Qed.

End ValidationOutcome.

(* ------------------------------------------------------------------ *)
(** ** Step 2: acidemia, alkalemia or normal *)

Section AcidBase.
Context {rt : JSRuntime}.

Lemma final_acidBaseStatus values :
  acidBaseStatus (state_after_step6 values)
  = acidBaseStatus (state_after_step2 values).
Proof.
  unfold state_after_step6, state_after_step5, state_after_step4,
    state_after_step3.
  etransitivity; [exact (proj1 (analyze_step6_frame values _))|].
  etransitivity; [exact (proj1 (analyze_step5_frame values _))|].
  etransitivity; [exact (proj1 (evaluateCompensation_frame _ _ _))|].
  destruct (identifyPrimaryDisorder_frame (ToNumber (prop values "ph"))
              (ToNumber (prop values "paco2")) (ToNumber (prop values "hco3"))
              (state_after_step2 values)) as [pd ->].
  reflexivity.
Qed.

(** The status stored by step 2, as a function of pH. *)
Lemma final_acidBaseStatus_of_ph values ph :
  prop values "ph" = JNum (Fin ph) ->
  acidBaseStatus (state_after_step6 values)
  = Some (if Num.Qlt_bool ph 7.35 then "acidemia"
          else if Num.Qlt_bool 7.45 ph then "alkalemia" else "normal").
Proof.
  intros Hph. rewrite final_acidBaseStatus. unfold state_after_step2.
  rewrite determineAcidemiaAlkalemia_post, Hph. reflexivity.
Qed.

(** C8.  For every input that passes validation, [acidBaseStatus] in the
    returned state is determined by pH alone: it is ['acidemia'] exactly
    when pH < 7.35, ['alkalemia'] exactly when pH > 7.45 and ['normal']
    exactly when 7.35 <= pH <= 7.45 (so both boundary values are normal),
    and it is always one of the three. *)
Theorem C8_acid_base_status values this ph :
  prop values "ph" = JNum (Fin ph) ->
  error (texts (fst (analyze values this))) = None ->
  let status := acidBaseStatus (final_state (fst (analyze values this))) in
  (status = Some "acidemia" <-> (ph < 7.35)%Q) /\
  (status = Some "alkalemia" <-> (ph > 7.45)%Q) /\
  (status = Some "normal" <-> (7.35 <= ph <= 7.45)%Q) /\
  (status = Some "acidemia" \/ status = Some "alkalemia" \/ status = Some "normal").
Proof.
  intros Hph Herr.
  apply analyze_error_None in Herr as (ph' & paco2 & hco3 & Hv).
  rewrite (analyze_valid _ _ _ _ _ Hv). cbn [fst final_state].
  rewrite (final_acidBaseStatus_of_ph _ _ Hph).
  destruct (Num.Qlt_bool ph 7.35) eqn:E1; [|destruct (Num.Qlt_bool 7.45 ph) eqn:E2];
    q_reflect; cbv zeta;
    repeat split; intros; try discriminate; try lra; auto.
Qed.

End AcidBase.

(** C8 at the boundary pH = 7.35. *)
Lemma C8_acid_base_status_witness :
  let values := Sample.measurements [("ph", 7.35%Q); ("paco2", 40%Q); ("hco3", 24%Q)] in
  let r := fst (analyze (rt:=Sample.runtime) values Sample.new_analyzer) in
  prop values "ph" = JNum (Fin 7.35) /\
  error (texts r) = None /\
  (acidBaseStatus (final_state r) = Some "normal" <-> (7.35 <= 7.35 <= 7.45)%Q).
Proof.
  intros values r.
  assert (H1 : prop values "ph" = JNum (Fin 7.35)) by (vm_compute; reflexivity).
  assert (H2 : error (texts r) = None) by (vm_compute; reflexivity).
  split; [exact H1|]. split; [exact H2|].
  exact (proj1 (proj2 (proj2
           (C8_acid_base_status (rt:=Sample.runtime) values Sample.new_analyzer
              7.35%Q H1 H2)))).
Defined.

(* ------------------------------------------------------------------ *)
(** ** Step 3: the primary disorder *)

Section PrimaryDisorder.
Context {rt : JSRuntime}.

(** Step 3 on its own, from any state whose status step 2 has set. *)
Lemma identifyPrimaryDisorder_table ph paco2 hco3 s :
  decision_table (acidBaseStatus s) paco2 hco3
    (primaryDisorder (post (identifyPrimaryDisorder ph (Fin paco2) (Fin hco3)) s)).
Proof.
  destruct s as [[status|] pd ct ecv ca ad ag cag dr dra];
    unfold post, exec, identifyPrimaryDisorder, decision_table.
  2: { repeat split; intros; discriminate. }
  run_method.
  destruct (String.eqb status "acidemia") eqn:Ea;
    [apply String.eqb_eq in Ea; subst status
    |destruct (String.eqb status "alkalemia") eqn:Eb;
       [apply String.eqb_eq in Eb; subst status|]];
    run_stage; q_reflect;
    repeat split; intros; simplify_eq; try discriminate; try reflexivity;
    try (exfalso; lra); try tauto.
Qed.

Lemma final_primaryDisorder values :
  primaryDisorder (state_after_step6 values)
  = primaryDisorder (state_after_step3 values).
Proof.
  unfold state_after_step6, state_after_step5, state_after_step4.
  etransitivity; [exact (proj1 (proj2 (analyze_step6_frame values _)))|].
  etransitivity; [exact (proj1 (proj2 (analyze_step5_frame values _)))|].
  exact (proj1 (proj2 (evaluateCompensation_frame _ _ _))).
Qed.

Lemma generateFinalInterpretation_normal R s :
  error R = None ->
  primaryDisorder s = Some "normal" ->
  fst (generateFinalInterpretation (mkAnalyzer R s)) = "Normal acid-base status.".
Proof.
  intros HR Hs. unfold generateFinalInterpretation. run_method.
  rewrite HR, Hs. reflexivity.
Qed.

(** C4.  For every input that passes validation, [primaryDisorder] follows
    the decision table over (acidBaseStatus, PaCO2, HCO3): the acidemia and
    alkalemia rows, the two mixed compensated categories, normal, and the
    generic ['compensated'] label for every other case under a normal pH.
    In particular pH 7.40, PaCO2 40, HCO3 24 gives primaryDisorder
    ['normal'] and the final interpretation "Normal acid-base status.". *)
Theorem C4_primary_disorder_table values this ph paco2 hco3 :
  valid_inputs values ph paco2 hco3 ->
  let r := fst (analyze values this) in
  decision_table (acidBaseStatus (final_state r)) paco2 hco3
    (primaryDisorder (final_state r)) /\
  ((ph == 7.40)%Q -> (paco2 == 40)%Q -> (hco3 == 24)%Q ->
   primaryDisorder (final_state r) = Some "normal" /\
   finalInterpretation (texts r) = "Normal acid-base status.").
Proof.
  intros Hv. rewrite (analyze_valid _ _ _ _ _ Hv). cbn [fst final_state texts].
  destruct Hv as (Hph & Hp & Hh & Rph & Rp & Rh).
  assert (Htable : decision_table (acidBaseStatus (state_after_step6 values))
            paco2 hco3 (primaryDisorder (state_after_step6 values))).
  { rewrite final_primaryDisorder, final_acidBaseStatus.
    unfold state_after_step3. rewrite Hp, Hh. cbn [ToNumber].
    apply identifyPrimaryDisorder_table. }
  split; [exact Htable|].
  intros Eph Ep Eh.
  assert (Hpd : primaryDisorder (state_after_step6 values) = Some "normal").
  { destruct Htable as (_ & _ & Hn).
    destruct Hn as (_ & _ & Hn & _).
    - rewrite (final_acidBaseStatus_of_ph _ _ Hph).
      destruct (Num.Qlt_bool ph 7.35) eqn:E1;
        [|destruct (Num.Qlt_bool 7.45 ph) eqn:E2]; q_reflect;
        try reflexivity; exfalso; lra.
    - apply Hn. lra. }
  split; [exact Hpd|].
  unfold final_results, final_text. cbn [finalInterpretation with_finalInterpretation].
  apply generateFinalInterpretation_normal; [reflexivity | exact Hpd].
Qed.

End PrimaryDisorder.

(** C4 on the measurements pH 7.40, PaCO2 40, HCO3 24. *)
Lemma C4_primary_disorder_table_witness :
  let values := Sample.measurements [("ph", 7.40%Q); ("paco2", 40%Q); ("hco3", 24%Q)] in
  let r := fst (analyze (rt:=Sample.runtime) values Sample.new_analyzer) in
  valid_inputs values 7.40 40 24 /\
  primaryDisorder (final_state r) = Some "normal" /\
  finalInterpretation (texts r) = "Normal acid-base status.".
Proof.
  intros values r.
  assert (Hv : valid_inputs values 7.40 40 24).
  { repeat split; try (vm_compute; reflexivity); vm_compute; discriminate. }
  split; [exact Hv|].
  apply (proj2 (C4_primary_disorder_table (rt:=Sample.runtime) values
                  Sample.new_analyzer 7.40%Q 40%Q 24%Q Hv));
    reflexivity.
Defined.

(* ------------------------------------------------------------------ *)
(** ** The list of additional disorders *)

Lemma includes_false (l : list string) (x : string) :
  includes l x = false -> x ∉ l.
Proof.
  unfold includes. intros H Hin.
  apply list_elem_of_In in Hin.
  assert (existsb (String.eqb x) l = true) as Ht.
  { apply existsb_exists. exists x. split; [exact Hin | apply String.eqb_refl]. }
  congruence.
Qed.

Lemma NoDup_snoc (l : list string) (x : string) :
  NoDup l -> x ∉ l -> NoDup (l ++ [x]).
Proof.
  intros Hl Hx. apply NoDup_app. split; [exact Hl|]. split.
  - intros y Hy Hy'. apply list_elem_of_singleton in Hy'. subst y. contradiction.
  - apply NoDup_singleton.
Qed.

Lemma appends_new_appends l l' : appends_new l l' -> appends l l'.
Proof. intros [|x _]; constructor. Qed.

Lemma appends_prefix l l' : appends l l' -> l `prefix_of` l'.
Proof. intros [|x]; [reflexivity | apply prefix_app_r; reflexivity]. Qed.

Lemma appends_new_NoDup l l' : appends_new l l' -> NoDup l -> NoDup l'.
Proof. intros [|x Hx] Hl; [exact Hl | apply NoDup_snoc; assumption]. Qed.

Section Additional.
Context {rt : JSRuntime}.

(** Step 4 pushes at most one label, without looking at the list. *)
Lemma evaluateCompensation_additional paco2 hco3 s :
  appends (additionalDisorders s)
    (additionalDisorders (post (evaluateCompensation paco2 hco3) s)).
Proof.
  destruct s as [abs pd ct ecv ca ad ag cag dr dra].
  unfold post, exec, evaluateCompensation, assess, choose_acute_chronic.
  run_stage; constructor.
Qed.

(** Steps 5 and 6 push a label only when the list does not hold it. *)
Lemma analyze_step5_additional values s :
  appends_new (additionalDisorders s)
    (additionalDisorders (post (analyze_step5 values) s)).
Proof.
  destruct s as [abs pd ct ecv ca ad ag cag dr dra].
  unfold post, exec, analyze_step5, calculateAnionGap.
  run_stage; q_reflect; try (constructor; fail);
    constructor; apply includes_false; assumption.
Qed.

Lemma analyze_step6_additional values s :
  appends_new (additionalDisorders s)
    (additionalDisorders (post (analyze_step6 values) s)).
Proof.
  destruct s as [abs pd ct ecv ca ad ag cag dr dra].
  unfold post, exec, analyze_step6, evaluateDeltaRatio.
  run_method.
  destruct (nullish cag ag) as [x|];
    run_stage; q_reflect; try (constructor; fail);
    constructor; apply includes_false; assumption.
Qed.

Lemma state_after_step3_additional values :
  additionalDisorders (state_after_step3 values) = [].
Proof.
  unfold state_after_step3.
  destruct (identifyPrimaryDisorder_frame (ToNumber (prop values "ph"))
              (ToNumber (prop values "paco2")) (ToNumber (prop values "hco3"))
              (state_after_step2 values)) as [pd ->].
  unfold state_after_step2. rewrite determineAcidemiaAlkalemia_post. reflexivity.
Qed.

(** What [analyze] returns as state: the fresh state when validation
    fails, the state after step 6 otherwise. *)
Lemma analyze_final_state values this :
  final_state (fst (analyze values this)) = fresh_state \/
  final_state (fst (analyze values this)) = state_after_step6 values.
Proof.
  destruct (fst (validateInputs values (mkAnalyzer fresh_results fresh_state)))
    eqn:Hv.
  - right. destruct (validateInputs_true_inv _ _ Hv) as (ph & p & h & Hvalid).
    rewrite (analyze_valid _ _ _ _ _ Hvalid). reflexivity.
  - left. rewrite (analyze_invalid _ _ Hv).
    destruct (validateInputs_false _ _ Hv) as [msg ->]. reflexivity.
Qed.

(** C10.  In every state returned by [analyze], [additionalDisorders] has
    no duplicate label.  Along the run the list starts empty, each of the
    compensation, anion-gap and delta-ratio stages extends the list it
    finds by at most one label at the end (so the order of insertion is
    kept), and the list is duplicate-free after each of them. *)
Theorem C10_additional_disorders_no_duplicates values this :
  let r := fst (analyze values this) in
  let a3 := additionalDisorders (state_after_step3 values) in
  let a4 := additionalDisorders (state_after_step4 values) in
  let a5 := additionalDisorders (state_after_step5 values) in
  let a6 := additionalDisorders (state_after_step6 values) in
  NoDup (additionalDisorders (final_state r)) /\
  (final_state r = fresh_state \/ final_state r = state_after_step6 values) /\
  a3 = [] /\
  appends a3 a4 /\ appends a4 a5 /\ appends a5 a6 /\
  a3 `prefix_of` a4 /\ a4 `prefix_of` a5 /\ a5 `prefix_of` a6 /\
  NoDup a4 /\ NoDup a5 /\ NoDup a6.
Proof.
  intros r a3 a4 a5 a6.
  assert (H3 : a3 = []) by apply state_after_step3_additional.
  assert (H34 : appends a3 a4) by apply evaluateCompensation_additional.
  assert (H45 : appends_new a4 a5) by apply analyze_step5_additional.
  assert (H56 : appends_new a5 a6) by apply analyze_step6_additional.
  assert (N4 : NoDup a4).
  { destruct H34 as [|x]; rewrite H3; [constructor | apply NoDup_singleton]. }
  assert (N5 : NoDup a5) by exact (appends_new_NoDup _ _ H45 N4).
  assert (N6 : NoDup a6) by exact (appends_new_NoDup _ _ H56 N5).
  assert (Hr := analyze_final_state values this). fold r in Hr.
  split.
  { destruct Hr as [-> | ->]; [constructor | exact N6]. }
  split; [exact Hr|].
  repeat split; auto using appends_prefix, appends_new_appends.
Qed.

End Additional.

(* ------------------------------------------------------------------ *)
(** ** What steps 5 and 6 keep of step 4 *)

Section FinalCompensation.
Context {rt : JSRuntime}.

Lemma final_compensation values :
  expectedCompensationValue (state_after_step6 values)
  = expectedCompensationValue (state_after_step4 values) /\
  compensationType (state_after_step6 values)
  = compensationType (state_after_step4 values) /\
  compensationAssessment (state_after_step6 values)
  = compensationAssessment (state_after_step4 values).
Proof.
  unfold state_after_step6, state_after_step5.
  pose proof (analyze_step6_frame values
                (post (analyze_step5 values) (state_after_step4 values)))
    as (_ & _ & T6 & E6 & A6 & _).
  pose proof (analyze_step5_frame values (state_after_step4 values))
    as (_ & _ & T5 & E5 & A5 & _).
  repeat split; congruence.
Qed.

End FinalCompensation.

(* ------------------------------------------------------------------ *)
(** ** Texts, fields and lists *)

Lemma append_nil_r (s : string) : s +:+ "" = s.
Proof.
  induction s as [|c s IH]; [reflexivity|].
  change (String c (s +:+ "") = String c s). rewrite IH. reflexivity.
Qed.

Lemma append_assoc (a b c : string) : (a +:+ b) +:+ c = a +:+ b +:+ c.
Proof.
  induction a as [|x a IH]; [reflexivity|].
  change (String x ((a +:+ b) +:+ c) = String x (a +:+ b +:+ c)).
  rewrite IH. reflexivity.
Qed.

Lemma reports_end before sentence : reports (before +:+ sentence) sentence.
Proof. exists before, "". rewrite append_nil_r. reflexivity. Qed.

Lemma reports_more txt sentence more :
  reports txt sentence -> reports (txt +:+ more) sentence.
Proof.
  intros (b & a & ->). exists b, (a +:+ more).
  rewrite !append_assoc. reflexivity.
Qed.

Lemma is_str_true (x : option string) (t : string) :
  is_str x t = true <-> x = Some t.
Proof.
  destruct x as [s|]; cbn.
  - rewrite String.eqb_eq. split; congruence.
  - split; discriminate.
Qed.

Lemma is_str_false (x : option string) (t : string) :
  is_str x t = false <-> x <> Some t.
Proof.
  rewrite <- is_str_true. destruct (is_str x t); split; congruence.
Qed.

Lemma includes_true (l : list string) (x : string) :
  includes l x = true -> x ∈ l.
Proof.
  unfold includes. intros H. apply existsb_exists in H as (y & Hy & E).
  apply String.eqb_eq in E. subst y. apply list_elem_of_In. exact Hy.
Qed.

(* ------------------------------------------------------------------ *)
(** ** Step 6: the delta ratio *)

Section DeltaRatio.
Context {rt : JSRuntime}.

(** The method itself adjusts the normal gap when it is given an albumin
    in [0, 4.0). *)
Lemma evaluateDeltaRatio_with_albumin ag hco3 a s :
  (0 <= a < 4.0)%Q -> (hco3 < 24)%Q ->
  deltaRatio (post (evaluateDeltaRatio (Fin ag) (Fin hco3) (JNum (Fin a))) s)
  = Some (Fin ((ag - adjusted_normal_gap a) / (24 - hco3))).
Proof.
  intros Ha Hh. destruct s as [abs pd ct ecv ca ad ag0 cag dr dra].
  unfold post, exec, evaluateDeltaRatio, albumin_usable, adjusted_normal_gap.
  run_stage; q_reflect; try reflexivity; exfalso; lra.
Qed.

(** Without the argument the normal gap is 12. *)
Lemma evaluateDeltaRatio_without_albumin ag hco3 s :
  (hco3 < 24)%Q ->
  deltaRatio (post (evaluateDeltaRatio (Fin ag) (Fin hco3) JUndefined) s)
  = Some (Fin ((ag - 12) / (24 - hco3))).
Proof.
  intros Hh. destruct s as [abs pd ct ecv ca ad ag0 cag dr dra].
  unfold post, exec, evaluateDeltaRatio, albumin_usable.
  run_stage; q_reflect; try reflexivity; exfalso; lra.
Qed.

(** In [analyze] the delta-ratio step never sees the albumin: whenever it
    runs on an HCO3 under 24, the ratio stored is (AG - 12) / (24 - HCO3),
    whatever [values.albumin] holds. *)
Lemma analyze_step6_ignores_albumin values hco3 ag s :
  prop values "hco3" = JNum (Fin hco3) ->
  nullish (correctedAnionGap s) (anionGap s) = Some (Fin ag) ->
  (ag > 12)%Q ->
  primaryDisorder s = Some "metabolic acidosis" ->
  (hco3 < 24)%Q ->
  deltaRatio (post (analyze_step6 values) s)
  = Some (Fin ((ag - 12) / (24 - hco3))).
Proof.
  intros Hh Hag Hgt Hpd Hlt.
  rewrite <- (evaluateDeltaRatio_without_albumin ag hco3 s Hlt).
  unfold post, exec, analyze_step6. rewrite !bind_run.
  cbn [get_state fst snd state]. rewrite Hag, Hpd, Hh.
  assert (Hc : ((Fin ag >? lit 12)%js
                && is_str (Some "metabolic acidosis") "metabolic acidosis") = true).
  { apply andb_true_iff. split; [apply Qlt_bool_true; exact Hgt | reflexivity]. }
  rewrite Hc, !bind_run. cbn [ToNumber].
  destruct (evaluateDeltaRatio (Fin ag) (Fin hco3) JUndefined
              (mkAnalyzer fresh_results s)) as [t this'].
  reflexivity.
Qed.

End DeltaRatio.

(** C1, the code at the failing input.  On pH 7.25, PaCO2 30, HCO3 13,
    Na 140, Cl 100, albumin 2.0 the delta-ratio step runs (primary
    metabolic acidosis, corrected gap 32 > 12) and albumin is a number in
    [0, 4.0).  The adjusted normal gap is 12 - 2.5 (4.0 - 2.0) = 7, so the
    claim asks for deltaAG = 32 - 7 = 25 and a ratio of 25/11;
    [evaluateDeltaRatio] gives exactly that when it is passed the albumin.
    [analyze] does not pass it: the ratio it stores is (32 - 12)/11 = 20/11
    and the assessment is ['pure HAGMA'] instead of
    ['concurrent met alk']. *)
Theorem C1_delta_ratio_unadjusted_in_analyze (rt : JSRuntime) (this : ABGAnalyzer) :
  let st := final_state (fst (analyze low_albumin_acidosis this)) in
  let with_albumin :=
    post (evaluateDeltaRatio (Fin 32) (Fin 13) (JNum (Fin 2.0))) st in
  primaryDisorder st = Some "metabolic acidosis" /\
  prop low_albumin_acidosis "albumin" = JNum (Fin 2.0) /\
  (exists c, correctedAnionGap st = Some (Fin c) /\ (c == 32)%Q) /\
  (adjusted_normal_gap 2.0 == 7)%Q /\
  (exists r, deltaRatio st = Some (Fin r) /\
             (r == (32 - 12) / (24 - 13))%Q /\
             ~ (r == (32 - adjusted_normal_gap 2.0) / (24 - 13))%Q) /\
  deltaRatioAssessment st = Some "pure HAGMA" /\
  (exists r, deltaRatio with_albumin = Some (Fin r) /\
             (r == (32 - adjusted_normal_gap 2.0) / (24 - 13))%Q) /\
  deltaRatioAssessment with_albumin = Some "concurrent met alk".
Proof.
  cbv zeta.
  assert (Hst : final_state (fst (analyze low_albumin_acidosis this))
                = mkState (Some "acidemia") (Some "metabolic acidosis") None
                    (Some (Fin (1.5 * 13 + 8))) (Some "mixed")
                    ["respiratory acidosis"]
                    (Some (Fin (140 - (100 + 13))))
                    (Some (Fin (140 - (100 + 13) + 2.5 * (4.0 - 2.0))))
                    (Some (Fin ((140 - (100 + 13) + 2.5 * (4.0 - 2.0) - 12)
                                / (24 - 13))))
                    (Some "pure HAGMA")).
  { assert (Hv : valid_inputs low_albumin_acidosis 7.25 30 13).
    { repeat split; try (vm_compute; reflexivity); vm_compute; discriminate. }
    rewrite (analyze_valid _ _ _ _ _ Hv). cbn [fst final_state].
    vm_compute. reflexivity. }
  rewrite Hst.
  split; [reflexivity|]. split; [vm_compute; reflexivity|].
  split; [eexists; split; [reflexivity | vm_compute; reflexivity]|].
  split; [vm_compute; reflexivity|].
  split.
  { eexists. split; [reflexivity|]. split; [vm_compute; reflexivity|].
    vm_compute. discriminate. }
  split; [reflexivity|].
  split.
  { eexists. split; [vm_compute; reflexivity | vm_compute; reflexivity]. }
  vm_compute. reflexivity.
Qed.

(* ------------------------------------------------------------------ *)
(** ** Validation: the check and its messages *)

Lemma append_nonempty (a b : string) : a <> "" -> a +:+ b <> "".
Proof. destruct a as [|c a]; [congruence | discriminate]. Qed.

Ltac nonempty :=
  repeat apply append_nonempty; discriminate.

Section ValidationClaims.
Context {rt : JSRuntime}.

Lemma missing_iff v :
  is_undefined v || is_null v || isNaN v = true <-> missing v.
Proof.
  unfold missing. destruct v as [| |[|q]]; cbn; split; intros H; auto;
    try discriminate; destruct H as [H|[H|H]]; discriminate.
Qed.

(** X12.  The presence test names the first required value that is missing, in
    the order pH, PaCO2, HCO3. *)
Lemma validation_names_first_missing values this :
  let err := error (texts (fst (analyze values this))) in
  (missing (prop values "ph") ->
     err = Some "Missing or invalid required value: PH") /\
  (~ missing (prop values "ph") -> missing (prop values "paco2") ->
     err = Some "Missing or invalid required value: PACO2") /\
  (~ missing (prop values "ph") -> ~ missing (prop values "paco2") ->
   missing (prop values "hco3") ->
     err = Some "Missing or invalid required value: HCO3").
Proof.
  cbv zeta. unfold analyze. rewrite bind_run.
  cbn [resetStateAndResults fst snd]. rewrite bind_run.
  unfold validateInputs, first_invalid.
  repeat split; intros;
    repeat match goal with
    | H : missing _ |- _ => apply missing_iff in H; rewrite H
    | H : ~ missing _ |- _ =>
        rewrite <- missing_iff in H; apply not_true_is_false in H; rewrite H
    end; reflexivity.
Qed.

(** [validateInputs] once the three values are known to be numbers. *)
Lemma validateInputs_numbers values this ph paco2 hco3 :
  prop values "ph" = JNum (Fin ph) ->
  prop values "paco2" = JNum (Fin paco2) ->
  prop values "hco3" = JNum (Fin hco3) ->
  validateInputs values this
  = let fail msg :=
      (false, mkAnalyzer (with_error (Some msg) (results this)) (state this)) in
    if Num.Qlt_bool ph 6.0 || Num.Qlt_bool 8.0 ph then
      fail ("pH value (" +:+ Number_toString (Fin ph) +:+
            ") is outside typical physiological range (6.8-8.0).")
    else if Num.Qlt_bool paco2 10 || Num.Qlt_bool 150 paco2 then
      fail ("PaCO₂ value (" +:+ Number_toString (Fin paco2) +:+
            ") is outside typical physiological range (10-150 mmHg).")
    else if Num.Qlt_bool hco3 2 || Num.Qlt_bool 60 hco3 then
      fail ("HCO₃⁻ value (" +:+ Number_toString (Fin hco3) +:+
            ") is outside typical physiological range (5-60 mmol/L).")
    else (true, this).
Proof.
  intros Hph Hp Hh. unfold validateInputs, first_invalid.
  rewrite Hph, Hp, Hh. js_eval.
  repeat case_if; reflexivity.
Qed.

(** X13.  With the three values present, a value outside the enforced bounds
    stops the analysis with the text of its check. *)
Lemma validation_range_messages values this ph paco2 hco3 :
  prop values "ph" = JNum (Fin ph) ->
  prop values "paco2" = JNum (Fin paco2) ->
  prop values "hco3" = JNum (Fin hco3) ->
  let err := error (texts (fst (analyze values this))) in
  (~ (6.0 <= ph <= 8.0)%Q ->
     err = Some ("pH value (" +:+ Number_toString (Fin ph) +:+
                 ") is outside typical physiological range (6.8-8.0).")) /\
  ((6.0 <= ph <= 8.0)%Q -> ~ (10 <= paco2 <= 150)%Q ->
     err = Some ("PaCO₂ value (" +:+ Number_toString (Fin paco2) +:+
                 ") is outside typical physiological range (10-150 mmHg).")) /\
  ((6.0 <= ph <= 8.0)%Q -> (10 <= paco2 <= 150)%Q -> ~ (2 <= hco3 <= 60)%Q ->
     err = Some ("HCO₃⁻ value (" +:+ Number_toString (Fin hco3) +:+
                 ") is outside typical physiological range (5-60 mmol/L).")).
Proof.
  intros Hph Hp Hh. cbv zeta. unfold analyze. rewrite bind_run.
  cbn [resetStateAndResults fst snd]. rewrite bind_run.
  rewrite (validateInputs_numbers _ _ _ _ _ Hph Hp Hh). cbv zeta.
  destruct (Num.Qlt_bool ph 6.0 || Num.Qlt_bool 8.0 ph) eqn:E1;
    [|destruct (Num.Qlt_bool paco2 10 || Num.Qlt_bool 150 paco2) eqn:E2;
      [|destruct (Num.Qlt_bool hco3 2 || Num.Qlt_bool 60 hco3) eqn:E3]];
    q_reflect; repeat split; intros;
    first [ reflexivity
          | exfalso; lra
          | exfalso;
            match goal with H : ~ (_ /\ _) |- _ => apply H; split; lra end ].
Qed.

(** X14.  When validation fails nothing but the error is set: every step text
    and the final interpretation stay empty and the state stays as reset. *)
Lemma analyze_invalid_result values this :
  ~ (exists ph paco2 hco3, valid_inputs values ph paco2 hco3) ->
  exists msg,
    texts (fst (analyze values this)) = with_error (Some msg) fresh_results /\
    final_state (fst (analyze values this)) = fresh_state.
Proof.
  intros Hn.
  destruct (fst (validateInputs values (mkAnalyzer fresh_results fresh_state)))
    eqn:Hv.
  - exfalso. apply Hn. exact (validateInputs_true_inv _ _ Hv).
  - rewrite (analyze_invalid _ _ Hv).
    destruct (validateInputs_false _ _ Hv) as [msg ->].
    exists msg. split; reflexivity.
Qed.

Lemma text_checkInternalConsistency a b c s :
  text (checkInternalConsistency a b c) s <> "".
Proof. unfold text, exec, checkInternalConsistency. run_stage; nonempty. Qed.

Lemma text_determineAcidemiaAlkalemia ph s :
  text (determineAcidemiaAlkalemia ph) s <> "".
Proof. unfold text, exec, determineAcidemiaAlkalemia. run_stage; nonempty. Qed.

Lemma text_identifyPrimaryDisorder ph paco2 hco3 s :
  text (identifyPrimaryDisorder ph paco2 hco3) s <> "".
Proof. unfold text, exec, identifyPrimaryDisorder. run_stage; nonempty. Qed.

Lemma text_evaluateCompensation paco2 hco3 s :
  text (evaluateCompensation paco2 hco3) s <> "".
Proof.
  destruct s as [abs pd ct ecv ca ad ag cag dr dra].
  unfold text, exec, evaluateCompensation, assess, choose_acute_chronic.
  run_stage; nonempty.
Qed.

Lemma step5_text_nonempty values s : step5_text values s <> "".
Proof.
  destruct s as [abs pd ct ecv ca ad ag cag dr dra].
  unfold step5_text, analyze_step5, calculateAnionGap.
  run_stage; nonempty.
Qed.

Lemma step6_text_nonempty values s : step6_text values s <> "".
Proof.
  destruct s as [abs pd ct ecv ca ad ag cag dr dra].
  unfold step6_text, analyze_step6, evaluateDeltaRatio.
  run_method. destruct (nullish cag ag) as [x|]; run_stage; nonempty.
Qed.

(** X15.  The six steps run exactly on valid required values: then no error is
    set and each step has produced its text. *)
Lemma analyze_runs_six_steps_iff values this :
  (exists ph paco2 hco3, valid_inputs values ph paco2 hco3) <->
  (let t := texts (fst (analyze values this)) in
   error t = None /\
   step1 t <> "" /\ step2 t <> "" /\ step3 t <> "" /\
   step4 t <> "" /\ step5 t <> "" /\ step6 t <> "").
Proof.
  split.
  - intros (ph & p & h & Hv). rewrite (analyze_valid _ _ _ _ _ Hv).
    cbn [fst texts]. split; [reflexivity|].
    unfold final_results, results_after_step6.
    cbn [step1 step2 step3 step4 step5 step6 with_step1 with_step2 with_step3
         with_step4 with_step5 with_step6 with_finalInterpretation].
    repeat split;
      auto using text_checkInternalConsistency, text_determineAcidemiaAlkalemia,
        text_identifyPrimaryDisorder, text_evaluateCompensation,
        step5_text_nonempty, step6_text_nonempty.
  - intros [Herr _]. apply (analyze_error_None values this). exact Herr.
Qed.

End ValidationClaims.

(** C3, the code at the failing inputs.  The pH check accepts [6.0, 8.0]
    but its message cites 6.8-8.0: pH 5.5 is rejected with that text while
    pH 6.5, outside the cited range, is accepted.  The HCO3 check accepts
    [2, 60] but its message cites 5-60: HCO3 1 is rejected with that text
    while HCO3 3 is accepted. *)
Theorem C3_range_message_cites_other_bounds (rt : JSRuntime) (this : ABGAnalyzer) :
  let run ph hco3 :=
    texts (fst (analyze
      (Sample.measurements [("ph", ph); ("paco2", 40%Q); ("hco3", hco3)]) this)) in
  error (run 5.5%Q 24%Q)
  = Some ("pH value (" +:+ Number_toString (Fin 5.5) +:+
          ") is outside typical physiological range (6.8-8.0).") /\
  error (run 6.5%Q 24%Q) = None /\
  error (run 7.4%Q 1%Q)
  = Some ("HCO₃⁻ value (" +:+ Number_toString (Fin 1) +:+
          ") is outside typical physiological range (5-60 mmol/L).") /\
  error (run 7.4%Q 3%Q) = None /\
  step1 (run 5.5%Q 24%Q) = "" /\ step6 (run 5.5%Q 24%Q) = "".
Proof.
  cbv beta zeta.
  assert (Hinv : forall ph h,
    fst (validateInputs
           (Sample.measurements [("ph", ph); ("paco2", 40%Q); ("hco3", h)])
           (mkAnalyzer fresh_results fresh_state)) = false ->
    texts (fst (analyze
      (Sample.measurements [("ph", ph); ("paco2", 40%Q); ("hco3", h)]) this))
    = results (snd (validateInputs
           (Sample.measurements [("ph", ph); ("paco2", 40%Q); ("hco3", h)])
           (mkAnalyzer fresh_results fresh_state)))).
  { intros ph h Hv. rewrite (analyze_invalid _ _ Hv). reflexivity. }
  assert (Hval : forall ph h,
    valid_inputs (Sample.measurements [("ph", ph); ("paco2", 40%Q); ("hco3", h)])
      ph 40 h ->
    error (texts (fst (analyze
      (Sample.measurements [("ph", ph); ("paco2", 40%Q); ("hco3", h)]) this)))
    = None).
  { intros ph h Hv. apply analyze_error_None. eauto. }
  rewrite (Hinv 5.5%Q 24%Q) by (vm_compute; reflexivity).
  rewrite (Hinv 7.4%Q 1%Q) by (vm_compute; reflexivity).
  split; [vm_compute; reflexivity|].
  split.
  { apply Hval. repeat split; try (vm_compute; reflexivity); vm_compute; discriminate. }
  split; [vm_compute; reflexivity|].
  split.
  { apply Hval. repeat split; try (vm_compute; reflexivity); vm_compute; discriminate. }
  split; vm_compute; reflexivity.
Qed.

(* ------------------------------------------------------------------ *)
(** ** Determinism and the keys that matter *)

Section Determinism.
Context {rt : JSRuntime}.

(** [analyze] reads six keys only and starts by resetting the object. *)
Lemma analyze_reads_six_keys values1 values2 this1 this2 :
  agree_on ["ph"; "paco2"; "hco3"; "na"; "cl"; "albumin"] values1 values2 ->
  analyze values1 this1 = analyze values2 this2.
Proof.
  intros H.
  assert (Hph : prop values1 "ph" = prop values2 "ph") by (apply H; set_solver).
  assert (Hp : prop values1 "paco2" = prop values2 "paco2") by (apply H; set_solver).
  assert (Hh : prop values1 "hco3" = prop values2 "hco3") by (apply H; set_solver).
  assert (Hna : prop values1 "na" = prop values2 "na") by (apply H; set_solver).
  assert (Hcl : prop values1 "cl" = prop values2 "cl") by (apply H; set_solver).
  assert (Ha : prop values1 "albumin" = prop values2 "albumin")
    by (apply H; set_solver).
  unfold analyze. rewrite !(bind_run resetStateAndResults).
  cbn [resetStateAndResults fst snd].
  unfold validateInputs, first_invalid, six_step_analysis, analyze_step5,
    analyze_step6.
  rewrite Hph, Hp, Hh, Hna, Hcl, Ha. reflexivity.
Qed.

(** C9.  [analyze] is deterministic and depends only on the recognised
    keys: two calls whose measurement sets agree on those keys return the
    same result, whatever the analyzer object held before each call and
    whatever other keys the sets carry; and whether an error is reported
    depends on the three required values only, so extra keys or absent
    optional keys never cause a failure. *)
Theorem C9_analyze_deterministic values1 values2 this1 this2 :
  agree_on recognised_keys values1 values2 ->
  fst (analyze values1 this1) = fst (analyze values2 this2) /\
  (error (texts (fst (analyze values1 this1))) = None <->
   exists ph paco2 hco3, valid_inputs values2 ph paco2 hco3).
Proof.
  intros H.
  assert (E : analyze values1 this1 = analyze values2 this2).
  { apply analyze_reads_six_keys. intros key Hk. apply H.
    unfold recognised_keys.
    repeat (apply elem_of_cons in Hk as [->|Hk];
            [repeat first [apply list_elem_of_here | apply list_elem_of_further]|]).
    apply elem_of_nil in Hk. contradiction. }
  split; [rewrite E; reflexivity|].
  rewrite E. apply analyze_error_None.
Qed.

(** A second call on the same analyzer object returns what the first
    returned. *)
Lemma analyze_twice values this :
  fst (analyze values (snd (analyze values this))) = fst (analyze values this).
Proof.
  apply (f_equal fst), analyze_reads_six_keys. intros key _. reflexivity.
Qed.

(** A key outside the recognised ones changes nothing. *)
Lemma analyze_extra_key values this key v :
  key ∉ recognised_keys ->
  fst (analyze (<[key := v]> values) this) = fst (analyze values this).
Proof.
  intros Hk. apply (f_equal fst), analyze_reads_six_keys. intros k Hin.
  unfold prop. rewrite lookup_insert_ne; [reflexivity|].
  intros ->. apply Hk. unfold recognised_keys.
  repeat (apply elem_of_cons in Hin as [->|Hin];
          [repeat first [apply list_elem_of_here | apply list_elem_of_further]|]).
  apply elem_of_nil in Hin. contradiction.
Qed.

End Determinism.

(** C9 on pH 7.25, PaCO2 30, HCO3 13: the set extended by an unknown key,
    analysed by an analyzer that has already been used, gives the result of
    the plain set on a new analyzer. *)
Lemma C9_analyze_deterministic_witness :
  let values1 := Sample.measurements [("ph", 7.25%Q); ("paco2", 30%Q); ("hco3", 13%Q)] in
  let values2 := <["comment" := JNull]> values1 in
  let used := snd (analyze (rt:=Sample.runtime) values2 Sample.new_analyzer) in
  agree_on recognised_keys values1 values2 /\
  fst (analyze (rt:=Sample.runtime) values1 Sample.new_analyzer)
  = fst (analyze (rt:=Sample.runtime) values2 used).
Proof.
  intros values1 values2 used.
  assert (H : agree_on recognised_keys values1 values2).
  { intros key Hk. unfold values2, prop.
    rewrite lookup_insert_ne; [reflexivity|].
    intros <-. unfold recognised_keys in Hk.
    repeat (apply elem_of_cons in Hk as [Hk|Hk]; [discriminate|]).
    apply elem_of_nil in Hk. exact Hk. }
  split; [exact H|].
  exact (proj1 (C9_analyze_deterministic (rt:=Sample.runtime)
                  values1 values2 Sample.new_analyzer used H)).
Defined.

(* ------------------------------------------------------------------ *)
(** ** Invariants of a whole analysis *)

Section Invariants.
Context {rt : JSRuntime}.

(** Step 3 always files the case under one of the ten categories. *)
Lemma identifyPrimaryDisorder_category ph paco2 hco3 s :
  exists pd,
    primaryDisorder (post (identifyPrimaryDisorder ph paco2 hco3) s) = Some pd /\
    pd ∈ primary_categories.
Proof.
  destruct s as [abs pd0 ct ecv ca ad ag cag dr dra].
  unfold post, exec, identifyPrimaryDisorder, primary_categories.
  run_stage; eexists; (split; [reflexivity|]);
    repeat first [apply list_elem_of_here | apply list_elem_of_further].
Qed.

(** X1.  After any call of [analyze], [primaryDisorder] is [null] exactly
    when validation failed, and otherwise is one of the ten categories of
    step 3; "Undetermined" is never stored. *)
Theorem X1_primary_in_categories values this :
  let r := fst (analyze values this) in
  match primaryDisorder (final_state r) with
  | None => error (texts r) <> None
  | Some pd => pd ∈ primary_categories /\ error (texts r) = None
  end.
Proof.
  cbv zeta.
  destruct (fst (validateInputs values (mkAnalyzer fresh_results fresh_state)))
    eqn:Hv.
  - destruct (validateInputs_true_inv _ _ Hv) as (ph & p & h & Hvalid).
    rewrite (analyze_valid _ _ _ _ _ Hvalid). cbn [fst final_state texts].
    rewrite final_primaryDisorder. unfold state_after_step3.
    destruct (identifyPrimaryDisorder_category (ToNumber (prop values "ph"))
                (ToNumber (prop values "paco2")) (ToNumber (prop values "hco3"))
                (state_after_step2 values)) as (pd & -> & Hin).
    split; [exact Hin | reflexivity].
  - rewrite (analyze_invalid _ _ Hv).
    destruct (validateInputs_false _ _ Hv) as [msg ->]. cbn. discriminate.
Qed.

(** Step 4 from a state whose compensation fields are still empty. *)
Lemma evaluateCompensation_fields paco2 hco3 s :
  compensationType s = None ->
  expectedCompensationValue s = None ->
  compensationAssessment s = None ->
  let s' := post (evaluateCompensation paco2 hco3) s in
  (is_pure (primaryDisorder s) ->
     (compensationAssessment s' = Some "appropriate" \/
      compensationAssessment s' = Some "mixed") /\
     expectedCompensationValue s' <> None) /\
  (~ is_pure (primaryDisorder s) ->
     compensationAssessment s' = None /\ expectedCompensationValue s' = None /\
     compensationType s' = None /\ additionalDisorders s' = additionalDisorders s) /\
  (is_respiratory (primaryDisorder s) ->
     compensationType s' = Some "acute" \/ compensationType s' = Some "chronic") /\
  (~ is_respiratory (primaryDisorder s) -> compensationType s' = None).
Proof.
  destruct s as [abs pd ct ecv ca ad ag cag dr dra].
  cbn [compensationType expectedCompensationValue compensationAssessment
       primaryDisorder additionalDisorders].
  intros -> -> ->. cbv zeta.
  assert (Hcases :
    pd = Some "metabolic acidosis" \/ pd = Some "metabolic alkalosis" \/
    pd = Some "respiratory acidosis" \/ pd = Some "respiratory alkalosis" \/
    (~ is_pure pd /\ ~ is_respiratory pd)).
  { destruct pd as [p|].
    - destruct (String.eqb p "metabolic acidosis") eqn:E1;
        [apply String.eqb_eq in E1; subst; auto|].
      destruct (String.eqb p "metabolic alkalosis") eqn:E2;
        [apply String.eqb_eq in E2; subst; auto|].
      destruct (String.eqb p "respiratory acidosis") eqn:E3;
        [apply String.eqb_eq in E3; subst; auto|].
      destruct (String.eqb p "respiratory alkalosis") eqn:E4;
        [apply String.eqb_eq in E4; subst; auto 6|].
      right; right; right; right.
      apply String.eqb_neq in E1, E2, E3, E4. split.
      + intros (q & [= <-] & [?|[?|[?|?]]]); congruence.
      + intros [[= ?]|[= ?]]; congruence.
    - right; right; right; right. split.
      + intros (q & [= ] & _).
      + intros [[= ]|[= ]]. }
  assert (Hpure : forall p, pure_disorder p -> is_pure (Some p))
    by (intros p Hp; exists p; auto).
  destruct Hcases as [-> | [-> | [-> | [-> | [Hnp Hnr]]]]].
  1-4: unfold post, exec, evaluateCompensation, assess, choose_acute_chronic;
       run_stage;
       (split; [intros _; split; [auto | discriminate]|]);
       (split; [intros Hn; exfalso; apply Hn, Hpure; unfold pure_disorder; auto|]);
       (split; [intros Hr; first [ solve [auto]
                                 | destruct Hr as [[= ]|[= ]] ]|]);
       intros Hn; first [ reflexivity
                        | exfalso; apply Hn; unfold is_respiratory; auto ].
  unfold post, exec, evaluateCompensation.
  run_method.
  assert (E1 : is_str pd "metabolic acidosis" = false).
  { apply is_str_false. intros ->. apply Hnp, Hpure. unfold pure_disorder; auto. }
  assert (E2 : is_str pd "metabolic alkalosis" = false).
  { apply is_str_false. intros ->. apply Hnp, Hpure. unfold pure_disorder; auto. }
  assert (E3 : is_str pd "respiratory acidosis" = false).
  { apply is_str_false. intros ->. apply Hnp, Hpure. unfold pure_disorder; auto. }
  assert (E4 : is_str pd "respiratory alkalosis" = false).
  { apply is_str_false. intros ->. apply Hnp, Hpure. unfold pure_disorder; auto. }
  rewrite E1, E2, E3, E4.
  repeat case_if; cbn; repeat split; intros; try reflexivity; contradiction.
Qed.

Lemma state_after_step3_shape values :
  exists status pd,
    state_after_step3 values
    = with_primaryDisorder (Some pd) (with_acidBaseStatus (Some status) fresh_state).
Proof.
  unfold state_after_step3.
  destruct (identifyPrimaryDisorder_frame (ToNumber (prop values "ph"))
              (ToNumber (prop values "paco2")) (ToNumber (prop values "hco3"))
              (state_after_step2 values)) as [pd ->].
  unfold state_after_step2. rewrite determineAcidemiaAlkalemia_post.
  eexists. eexists. reflexivity.
Qed.

(** X2.  After any call of [analyze] the compensation fields go together
    with the primary disorder: for the four pure disorders the assessment
    is ['appropriate'] or ['mixed'] and an expected value is stored; for
    every other outcome (mixed, normal, compensated, or a failed
    validation) assessment, expected value and type stay [null];
    [compensationType] is ['acute'] or ['chronic'] for the two respiratory
    disorders and [null] otherwise. *)
Theorem X2_compensation_fields_follow_primary values this :
  let st := final_state (fst (analyze values this)) in
  (is_pure (primaryDisorder st) ->
     (compensationAssessment st = Some "appropriate" \/
      compensationAssessment st = Some "mixed") /\
     expectedCompensationValue st <> None) /\
  (~ is_pure (primaryDisorder st) ->
     compensationAssessment st = None /\ expectedCompensationValue st = None /\
     compensationType st = None) /\
  (is_respiratory (primaryDisorder st) ->
     compensationType st = Some "acute" \/ compensationType st = Some "chronic") /\
  (~ is_respiratory (primaryDisorder st) -> compensationType st = None).
Proof.
  cbv zeta. destruct (analyze_final_state values this) as [-> | ->].
  - cbn. split; [intros (p & [= ] & _)|].
    split; [intros _; repeat split; reflexivity|].
    split; [intros [[= ]|[= ]]|]. intros _. reflexivity.
  - rewrite final_primaryDisorder.
    destruct (final_compensation values) as (-> & -> & ->).
    destruct (state_after_step3_shape values) as (status & pd & Hs3).
    pose proof (evaluateCompensation_fields (ToNumber (prop values "paco2"))
                  (ToNumber (prop values "hco3")) (state_after_step3 values))
      as H.
    rewrite Hs3 in H at 1 2 3. specialize (H eq_refl eq_refl eq_refl).
    cbv zeta in H. fold (state_after_step4 values) in H.
    destruct H as (H1 & H2 & H3 & H4).
    split; [exact H1|]. split; [|split; [exact H3 | exact H4]].
    intros Hn. destruct (H2 Hn) as (? & ? & ? & _). auto.
Qed.

(** Step 3 calls a case metabolic acidosis only on an HCO3 below 22. *)
Lemma metabolic_acidosis_low_hco3 ph paco2 hco3 s :
  primaryDisorder (post (identifyPrimaryDisorder ph (Fin paco2) (Fin hco3)) s)
  = Some "metabolic acidosis" ->
  (hco3 < 22)%Q.
Proof.
  destruct s as [abs pd0 ct ecv ca ad ag cag dr dra].
  unfold post, exec, identifyPrimaryDisorder.
  run_stage; intros [= ]; q_reflect; assumption.
Qed.

(** Step 5 from a state in which no gap is stored yet. *)
Lemma analyze_step5_outcome values hco3 s :
  prop values "hco3" = JNum (Fin hco3) ->
  anionGap s = None -> correctedAnionGap s = None ->
  step5_outcome values hco3 s (post (analyze_step5 values) s).
Proof.
  intros Hh. destruct s as [abs pd ct ecv ca ad ag cag dr dra].
  cbn [anionGap correctedAnionGap]. intros -> ->. unfold step5_outcome. cbv zeta.
  unfold post, exec, analyze_step5, calculateAnionGap, albumin_usable, gap_inputs.
  rewrite Hh.
  destruct (prop values "na") as [| |[|na]] eqn:Hna;
  destruct (prop values "cl") as [| |[|cl]] eqn:Hcl;
  try (left; run_stage; repeat split; try reflexivity;
       intros na' cl' (H1 & H2 & H3 & H4); cbn in *; congruence);
  right;
  (destruct (prop values "albumin") as [| |[|a]] eqn:Halb;
   run_stage; q_reflect;
   repeat match goal with
   | H : is_str _ _ = true |- _ => apply is_str_true in H
   | H : is_str _ _ = false |- _ => apply is_str_false in H
   | H : includes _ _ = true |- _ => apply includes_true in H
   | H : includes _ _ = false |- _ => apply includes_false in H
   end;
   eexists; eexists; eexists;
   (split; [repeat split; try discriminate; reflexivity|]);
   (split; [reflexivity|]); (split; [reflexivity|]);
   (split; [split; lra|]);
   cbn [primaryDisorder additionalDisorders];
   first [ left; repeat split; solve [assumption | reflexivity | lra]
         | right; split; [|reflexivity]; auto; solve [left; lra] ]).
Qed.

(** Step 6 from a state in which no ratio is stored yet, on an HCO3 that
    is below 22 whenever the primary disorder is metabolic acidosis. *)
Lemma analyze_step6_outcome values hco3 s :
  prop values "hco3" = JNum (Fin hco3) ->
  deltaRatio s = None -> deltaRatioAssessment s = None ->
  (correctedAnionGap s = None /\ anionGap s = None) \/
  (exists c, correctedAnionGap s = Some (Fin c)) ->
  (primaryDisorder s = Some "metabolic acidosis" -> (hco3 < 22)%Q) ->
  step6_outcome hco3 s (post (analyze_step6 values) s).
Proof.
  intros Hh. destruct s as [abs pd ct ecv ca ad ag cag dr dra].
  cbn [deltaRatio deltaRatioAssessment correctedAnionGap anionGap
       primaryDisorder additionalDisorders].
  intros -> -> Hgap Hlow. unfold step6_outcome. cbv zeta.
  unfold post, exec, analyze_step6, evaluateDeltaRatio, albumin_usable,
    pushed_once.
  rewrite Hh. run_method.
  destruct Hgap as [[-> ->] | [c ->]]; cbn [nullish].
  - left. run_stage; repeat split; auto;
      match goal with H : is_str _ _ = false |- _ => apply is_str_false in H end;
      auto.
  - destruct (is_str pd "metabolic acidosis") eqn:Hpd.
    + apply is_str_true in Hpd. specialize (Hlow Hpd).
      run_stage; q_reflect;
        repeat match goal with
        | H : includes _ _ = true |- _ => apply includes_true in H
        | H : includes _ _ = false |- _ => apply includes_false in H
        end;
        try (exfalso; lra);
        try set (r := ((c - 12) / (24 - hco3))%Q) in *;
        first [ left; repeat split; try reflexivity;
                right; right; eexists; split; [reflexivity | lra]
              | right; exists c; fold r; split; [exact Hpd|];
                split; [reflexivity|]; split; [lra|]; split; [reflexivity|];
                first [ left; split; [lra|]; split; [reflexivity|];
                        first [ left; split; [assumption | reflexivity]
                              | right; split; [assumption | reflexivity] ]
                      | right; left; split; [lra|]; split; [reflexivity|];
                        first [ left; split; [assumption | reflexivity]
                              | right; split; [assumption | reflexivity] ]
                      | right; right; split; [split; lra|];
                        split; reflexivity ] ].
    + apply is_str_false in Hpd.
      left. run_method. rewrite !andb_false_r. run_stage; repeat split; auto.
Qed.

Lemma evaluateCompensation_labels paco2 hco3 s :
  additionalDisorders s = [] ->
  step4_labels (primaryDisorder s)
    (additionalDisorders (post (evaluateCompensation paco2 hco3) s)).
Proof.
  destruct s as [abs pd ct ecv ca ad ag cag dr dra].
  cbn [additionalDisorders primaryDisorder]. intros ->.
  unfold post, exec, evaluateCompensation, assess, choose_acute_chronic,
    step4_labels.
  run_stage;
    repeat match goal with
    | H : is_str _ _ = true |- _ => apply is_str_true in H
    end;
    first [ left; reflexivity
          | right; left; split; [auto|]; solve [auto]
          | right; right; split; [auto|]; solve [auto] ].
Qed.

(** The stages of a valid analysis, one after the other. *)
Lemma analysis_outcome values ph paco2 hco3 :
  valid_inputs values ph paco2 hco3 ->
  let s3 := state_after_step3 values in
  let s4 := state_after_step4 values in
  let s5 := state_after_step5 values in
  let s6 := state_after_step6 values in
  step4_labels (primaryDisorder s6) (additionalDisorders s4) /\
  step5_outcome values hco3 s4 s5 /\
  step6_outcome hco3 s5 s6 /\
  primaryDisorder s4 = primaryDisorder s6 /\
  primaryDisorder s5 = primaryDisorder s6 /\
  anionGap s6 = anionGap s5 /\
  correctedAnionGap s6 = correctedAnionGap s5 /\
  (primaryDisorder s6 = Some "metabolic acidosis" -> (hco3 < 22)%Q).
Proof.
  intros (Hph & Hp & Hh & _). cbv zeta.
  destruct (state_after_step3_shape values) as (status & pd & Hs3).
  pose proof (evaluateCompensation_frame (ToNumber (prop values "paco2"))
                (ToNumber (prop values "hco3")) (state_after_step3 values))
    as (_ & P4 & G4 & C4 & D4 & A4).
  fold (state_after_step4 values) in P4, G4, C4, D4, A4.
  rewrite Hs3 in G4, C4, D4, A4. cbn in G4, C4, D4, A4.
  pose proof (analyze_step5_frame values (state_after_step4 values))
    as (_ & P5 & _ & _ & _ & D5 & A5).
  fold (state_after_step5 values) in P5, D5, A5.
  pose proof (analyze_step6_frame values (state_after_step5 values))
    as (_ & P6 & _ & _ & _ & G6 & C6).
  fold (state_after_step6 values) in P6, G6, C6.
  assert (L4 : step4_labels (primaryDisorder (state_after_step3 values))
                 (additionalDisorders (state_after_step4 values))).
  { apply evaluateCompensation_labels, state_after_step3_additional. }
  assert (Hlow : primaryDisorder (state_after_step3 values)
                 = Some "metabolic acidosis" -> (hco3 < 22)%Q).
  { unfold state_after_step3. rewrite Hp, Hh. cbn [ToNumber].
    apply metabolic_acidosis_low_hco3. }
  assert (O5 : step5_outcome values hco3 (state_after_step4 values)
                 (state_after_step5 values)).
  { apply analyze_step5_outcome; assumption. }
  assert (O6 : step6_outcome hco3 (state_after_step5 values)
                 (state_after_step6 values)).
  { apply analyze_step6_outcome; try assumption.
    - congruence.
    - congruence.
    - destruct O5 as [(Hg & Hc & _) | (na & cl & c & _ & _ & Hc & _)];
        [left; auto | right; eauto].
    - rewrite P5, P4. exact Hlow. }
  rewrite P6, P5, P4.
  repeat split; try assumption; congruence.
Qed.



(** X5.  After any call of [analyze], [additionalDisorders] holds at most
    two labels, and it holds ['high anion gap metabolic acidosis'] exactly
    when the primary disorder is not metabolic acidosis and the corrected
    gap is above 12. *)
Theorem X5_additional_disorders_bound values this :
  let st := final_state (fst (analyze values this)) in
  (length (additionalDisorders st) <= 2)%nat /\
  (("high anion gap metabolic acidosis" ∈ additionalDisorders st) <->
   primaryDisorder st <> Some "metabolic acidosis" /\
   exists c, correctedAnionGap st = Some (Fin c) /\ (c > 12)%Q).
Proof.
  cbv zeta.
  destruct (fst (validateInputs values (mkAnalyzer fresh_results fresh_state)))
    eqn:Hv.
  2: { rewrite (analyze_invalid _ _ Hv).
       destruct (validateInputs_false _ _ Hv) as [msg ->]. cbn.
       split; [lia|]. split.
       - intros H. apply elem_of_nil in H. contradiction.
       - intros (_ & c & [= ] & _). }
  destruct (validateInputs_true_inv _ _ Hv) as (ph & p & h & Hvalid).
  rewrite (analyze_valid _ _ _ _ _ Hvalid). cbn [fst final_state].
  destruct (analysis_outcome _ _ _ _ Hvalid)
    as (L4 & O5 & O6 & P4 & P5 & _ & C6 & _).
  rewrite C6.
  set (pd := primaryDisorder (state_after_step6 values)) in *.
  set (a4 := additionalDisorders (state_after_step4 values)) in *.
  set (a5 := additionalDisorders (state_after_step5 values)) in *.
  set (a6 := additionalDisorders (state_after_step6 values)) in *.
  assert (H4 : (length a4 <= 1)%nat /\
               ("high anion gap metabolic acidosis" ∉ a4)).
  { destruct L4 as [E | [(_ & [E | E]) | (_ & [E | E])]]; rewrite E; cbn;
      (split; [lia|]); intros H;
      first [ apply elem_of_nil in H; contradiction
            | apply list_elem_of_singleton in H; discriminate ]. }
  destruct H4 as (Len4 & Hn4).
  unfold step5_outcome, step6_outcome in O5, O6. cbv zeta in O5, O6.
  rewrite P4 in O5. rewrite P5 in O6. fold a4 a5 in O5. fold a5 a6 in O6.
  assert (H6 : a6 = a5 \/
               (pd = Some "metabolic acidosis" /\
                exists x, x <> "high anion gap metabolic acidosis" /\ a6 = a5 ++ [x])).
  { destruct O6 as [(_ & _ & -> & _) | (c & Hpd & _ & _ & _ & Hcls)]; [auto|].
    destruct Hcls as [(_ & _ & Hpush) | [(_ & _ & Hpush) | (_ & _ & ->)]];
      [| |auto];
      (destruct Hpush as [(_ & ->) | (_ & ->)]; [right | auto]);
      (split; [exact Hpd|]); eexists; (split; [|reflexivity]); discriminate. }
  destruct O5 as [(_ & Hc5 & E5 & _) | (na & cl & c & _ & _ & Hc5 & _ & Hpush)].
  - rewrite Hc5, E5 in *.
    destruct H6 as [-> | (Hpd & x & Hx & ->)].
    + split; [lia|]. split; [intros H; contradiction | intros (_ & c & [= ] & _)].
    + split; [rewrite length_app; cbn; lia|]. split.
      * intros H. apply elem_of_app in H as [H|H]; [contradiction|].
        apply list_elem_of_singleton in H. congruence.
      * intros (_ & c & [= ] & _).
  - rewrite Hc5.
    destruct Hpush as [(Hgt & Hnot & _ & E5) | (Hcond & E5)]; rewrite E5 in *.
    + destruct H6 as [-> | (Hpd & _)]; [|contradiction].
      split; [rewrite length_app; cbn; lia|]. split.
      * intros _. split; [exact Hnot|]. exists c. split; [reflexivity | exact Hgt].
      * intros _. apply elem_of_app. right. apply list_elem_of_singleton. reflexivity.
    + assert (Hno : "high anion gap metabolic acidosis" ∈ a6 -> False).
      { destruct H6 as [-> | (_ & x & Hx & ->)]; [exact Hn4|].
        intros H. apply elem_of_app in H as [H|H]; [contradiction|].
        apply list_elem_of_singleton in H. congruence. }
      split.
      { destruct H6 as [-> | (_ & x & _ & ->)];
          [lia | rewrite length_app; cbn; lia]. }
      split; [intros H; destruct (Hno H)|].
      intros (Hnot & c' & [= <-] & Hgt).
      destruct Hcond as [Hle | [Hpd | Hin]];
        [lra | contradiction | contradiction].
Qed.


(** X7.  In a valid analysis a stored delta ratio below 1 goes with the
    assessment ['concurrent NAGMA'] and the label
    ['normal anion gap metabolic acidosis'] in the list; a ratio above 2
    with ['concurrent met alk'] and the label ['metabolic alkalosis']; a
    ratio from 1 to 2 with ['pure HAGMA'] and neither label. *)
Theorem X7_delta_ratio_classes values this ph paco2 hco3 r :
  valid_inputs values ph paco2 hco3 ->
  let st := final_state (fst (analyze values this)) in
  deltaRatio st = Some (Fin r) ->
  ((r < 1)%Q ->
     deltaRatioAssessment st = Some "concurrent NAGMA" /\
     "normal anion gap metabolic acidosis" ∈ additionalDisorders st) /\
  ((r > 2)%Q ->
     deltaRatioAssessment st = Some "concurrent met alk" /\
     "metabolic alkalosis" ∈ additionalDisorders st) /\
  ((1 <= r <= 2)%Q ->
     deltaRatioAssessment st = Some "pure HAGMA" /\
     ("normal anion gap metabolic acidosis" ∉ additionalDisorders st) /\
     ("metabolic alkalosis" ∉ additionalDisorders st)).
Proof.
  intros Hv. rewrite (analyze_valid _ _ _ _ _ Hv). cbn [fst final_state].
  destruct (analysis_outcome _ _ _ _ Hv) as (L4 & O5 & O6 & P4 & P5 & _ & _ & _).
  unfold step5_outcome, step6_outcome in O5, O6. cbv zeta in O5, O6.
  rewrite P4 in O5. rewrite P5 in O6.
  intros Hr.
  destruct O6 as [(Hnone & _) | (c & Hpd & Hc & Hgt & Hsome & Hcls)];
    [congruence|].
  rewrite Hr in Hsome. injection Hsome as Hsome.
  set (r' := ((c - 12) / (24 - hco3))%Q) in *. clearbody r'. subst r'.
  assert (Hin : forall x l l', pushed_once x l l' -> x ∈ l').
  { intros x l l' [(_ & ->) | (H & ->)]; [|exact H].
    apply elem_of_app. right. apply list_elem_of_singleton. reflexivity. }
  assert (H5 : additionalDisorders (state_after_step5 values)
               = additionalDisorders (state_after_step4 values)).
  { destruct O5 as [(_ & _ & E & _) | (na & cl & c' & _ & _ & _ & _ & Hpush)];
      [exact E|].
    destruct Hpush as [(_ & Hnot & _) | (_ & E)]; [contradiction | exact E]. }
  assert (H4 : ("normal anion gap metabolic acidosis"
                  ∉ additionalDisorders (state_after_step4 values)) /\
               ("metabolic alkalosis"
                  ∉ additionalDisorders (state_after_step4 values))).
  { rewrite Hpd in L4.
    destruct L4 as [E | [(_ & [E | E]) | ([[= ] | [= ]] & _)]]; rewrite E;
      split; intros H;
      first [ apply elem_of_nil in H; contradiction
            | apply list_elem_of_singleton in H; discriminate ]. }
  destruct Hcls as [(Hlt & Ha & Hpush) | [(Hlt & Ha & Hpush) | (Hb & Ha & E)]].
  - split; [intros _; split; [exact Ha | exact (Hin _ _ _ Hpush)]|].
    split; intros; exfalso; lra.
  - split; [intros; exfalso; lra|].
    split; [intros _; split; [exact Ha | exact (Hin _ _ _ Hpush)]|].
    intros; exfalso; lra.
  - split; [intros; exfalso; lra|]. split; [intros; exfalso; lra|].
    intros _. rewrite E, H5. split; [exact Ha | exact H4].
Qed.

(** X8.  [evaluateDeltaRatio] never divides by zero: on an HCO3 of 24 or
    more it stores no ratio and appends nothing, and records that a
    concurrent metabolic alkalosis is likely, with one text for
    HCO3 = 24 and another for HCO3 > 24. *)
Theorem X8_delta_ratio_guards ag hco3 albumin s :
  (24 <= hco3)%Q ->
  let s' := post (evaluateDeltaRatio (Fin ag) (Fin hco3) albumin) s in
  deltaRatio s' = deltaRatio s /\
  additionalDisorders s' = additionalDisorders s /\
  ((hco3 == 24)%Q ->
     deltaRatioAssessment s'
     = Some "concurrent met alk likely (delta HCO3 is zero)") /\
  ((24 < hco3)%Q ->
     deltaRatioAssessment s'
     = Some "concurrent met alk likely (delta HCO3 negative)").
Proof.
  intros Hh. destruct s as [abs pd ct ecv ca ad ag0 cag dr dra].
  unfold post, exec, evaluateDeltaRatio.
  run_method.
  destruct (Qeq_bool (24 - hco3) 0) eqn:E0; run_method; q_reflect.
  - repeat split; try reflexivity. intros; exfalso; lra.
  - destruct (Num.Qlt_bool (24 - hco3) 0) eqn:E1; run_method; q_reflect.
    + repeat split; try reflexivity. intros; exfalso; lra.
    + exfalso. apply E0. lra.
Qed.

End Invariants.



(** X7 on Na 140, Cl 100, HCO3 15 without albumin: gap 25, ratio 13/9,
    pure HAGMA. *)
Lemma X7_delta_ratio_classes_witness :
  let values :=
    Sample.measurements [("ph", 7.25%Q); ("paco2", 30%Q); ("hco3", 15%Q);
                         ("na", 140%Q); ("cl", 100%Q)] in
  let st := final_state (fst (analyze (rt:=Sample.runtime) values Sample.new_analyzer)) in
  let r := ((140 - (100 + 15) - 12) / (24 - 15))%Q in
  valid_inputs values 7.25 30 15 /\
  deltaRatio st = Some (Fin r) /\
  (1 <= r <= 2)%Q /\
  deltaRatioAssessment st = Some "pure HAGMA".
Proof.
  intros values st r.
  assert (Hv : valid_inputs values 7.25 30 15).
  { repeat split; try (vm_compute; reflexivity); vm_compute; discriminate. }
  assert (Hr : deltaRatio st = Some (Fin r)) by (vm_compute; reflexivity).
  assert (Hb : (1 <= r <= 2)%Q) by (split; vm_compute; discriminate).
  split; [exact Hv|]. split; [exact Hr|]. split; [exact Hb|].
  exact (proj1 (proj2 (proj2 (X7_delta_ratio_classes (rt:=Sample.runtime) values
                                Sample.new_analyzer 7.25 30 15 r Hv Hr)) Hb)).
Defined.

(** X8 on an HCO3 of exactly 24. *)
Lemma X8_delta_ratio_guards_witness :
  let s' := post (evaluateDeltaRatio (rt:=Sample.runtime) (Fin 20) (Fin 24)
                    JUndefined) fresh_state in
  (24 <= 24)%Q /\
  deltaRatio s' = None /\
  deltaRatioAssessment s' = Some "concurrent met alk likely (delta HCO3 is zero)".
Proof.
  intros s'.
  assert (H : (24 <= 24)%Q) by (vm_compute; discriminate).
  split; [exact H|].
  destruct (X8_delta_ratio_guards (rt:=Sample.runtime) 20 24 JUndefined
              fresh_state H) as (Hd & _ & Hz & _).
  split; [exact Hd | apply Hz; reflexivity].
Defined.

(* ------------------------------------------------------------------ *)
(** ** Strings and lists of the final interpretation *)

Lemma unique_acc_spec (l seen : list string) :
  NoDup (unique_acc seen l) /\
  (forall x, x ∈ unique_acc seen l <-> x ∈ l /\ x ∉ seen).
Proof.
  revert seen. induction l as [|y l IH]; intros seen; cbn [unique_acc].
  - split; [constructor|]. intros x. split.
    + intros H. apply elem_of_nil in H. contradiction.
    + intros [H _]. exact H.
  - destruct (includes seen y) eqn:E.
    + apply includes_true in E. destruct (IH seen) as [N M]. split; [exact N|].
      intros x. rewrite M, elem_of_cons. split; [tauto|].
      intros [[-> | H] Hx]; [contradiction | tauto].
    + apply includes_false in E. destruct (IH (seen ++ [y])) as [N M]. split.
      * constructor; [|exact N]. rewrite M. intros [_ H]. apply H.
        apply elem_of_app. right. apply list_elem_of_singleton. reflexivity.
      * intros x. rewrite !elem_of_cons, M, elem_of_app, list_elem_of_singleton.
        split.
        -- intros [-> | [H1 H2]]; [tauto|]. split; [tauto|]. tauto.
        -- intros [[-> | H1] H2]; [tauto|].
           destruct (decide (x = y)) as [-> | Hne]; [tauto|]. right. tauto.
Qed.

Lemma unique_acc_NoDup_id (l seen : list string) :
  NoDup l -> (forall x, x ∈ l -> x ∉ seen) -> unique_acc seen l = l.
Proof.
  revert seen. induction l as [|y l IH]; intros seen Hl Hs; [reflexivity|].
  cbn [unique_acc]. apply NoDup_cons in Hl as [Hy Hl].
  assert (E : includes seen y = false).
  { destruct (includes seen y) eqn:E; [|reflexivity].
    apply includes_true in E. exfalso. apply (Hs y); [left | exact E]. }
  rewrite E. f_equal. apply IH; [exact Hl|].
  intros x Hx Hin. apply elem_of_app in Hin as [Hin | Hin].
  - apply (Hs x); [right; exact Hx | exact Hin].
  - apply list_elem_of_singleton in Hin. subst x. contradiction.
Qed.

Section FinalInterpretation.
Context {rt : JSRuntime}.

Lemma final_additional_NoDup values this :
  NoDup (additionalDisorders (final_state (fst (analyze values this)))).
Proof.
  destruct (analyze_final_state values this) as [-> | ->]; [constructor|].
  unfold state_after_step6, state_after_step5.
  apply (appends_new_NoDup _ _ (analyze_step6_additional values _)).
  apply (appends_new_NoDup _ _ (analyze_step5_additional values _)).
  pose proof (evaluateCompensation_additional (ToNumber (prop values "paco2"))
                (ToNumber (prop values "hco3")) (state_after_step3 values)) as H.
  fold (state_after_step4 values) in H.
  rewrite state_after_step3_additional in H.
  inversion H as [E | x E]; [constructor | apply NoDup_singleton].
Qed.

(** X9.  The de-duplication of the final interpretation
    ([[...new Set(additionalDisorders)]]) returns a list without
    duplicates that has exactly the members of its argument, and returns
    its argument unchanged when that has no duplicates; on the list of any
    analysis it changes nothing. *)
Theorem X9_unique_is_deduplication (l : list string) values this :
  NoDup (unique l) /\
  (forall x, x ∈ unique l <-> x ∈ l) /\
  (NoDup l -> unique l = l) /\
  unique (additionalDisorders (final_state (fst (analyze values this))))
  = additionalDisorders (final_state (fst (analyze values this))).
Proof.
  assert (Hid : forall k : list string, NoDup k -> unique k = k).
  { intros k Hk. apply unique_acc_NoDup_id; [exact Hk|].
    intros x _ H. apply elem_of_nil in H. exact H. }
  unfold unique at 1 2. destruct (unique_acc_spec l []) as [N M].
  split; [exact N|]. split.
  - intros x. rewrite M. split; [tauto|]. intros H. split; [exact H|].
    intros H'. apply elem_of_nil in H'. exact H'.
  - split; [apply Hid|]. apply Hid, final_additional_NoDup.
Qed.

Lemma trim_end_app (a b : string) :
  clean b -> Str.trim_end (a +:+ b) = a +:+ b.
Proof.
  intros [Hne Hb]. induction a as [|c a IH]; [exact Hb|].
  change (Str.trim_end (String c (a +:+ b)) = String c (a +:+ b)).
  cbn [Str.trim_end]. rewrite IH.
  destruct (a +:+ b) eqn:E; [|reflexivity].
  exfalso. destruct a; [cbn in E; contradiction | discriminate].
Qed.

Lemma clean_app (a b : string) : clean b -> clean (a +:+ b).
Proof.
  intros Hb. split; [|apply trim_end_app; exact Hb].
  destruct Hb as [Hne _]. destruct a; [exact Hne | discriminate].
Qed.

Lemma clean_join (sep : string) (l : list string) :
  l <> [] -> Forall clean l -> clean (Str.join sep l).
Proof.
  induction l as [|x l IH]; [congruence|]. intros _ Hl.
  apply Forall_cons in Hl as [Hx Hl]. destruct l as [|y l]; [exact Hx|].
  change (clean (x +:+ sep +:+ Str.join sep (y :: l))).
  apply clean_app, clean_app, IH; [discriminate | exact Hl].
Qed.

(** A text that starts with the letter P and ends clean is left alone by
    [trim]. *)
Lemma trim_primary (rest : string) :
  clean ("Primary " +:+ rest) -> Str.trim ("Primary " +:+ rest) = "Primary " +:+ rest.
Proof. intros [_ H]. unfold Str.trim. exact H. Qed.

Lemma known_label_clean x :
  x ∈ known_labels -> clean x /\ Str.replace_underscores x = x.
Proof.
  unfold known_labels. intros H.
  repeat (apply elem_of_cons in H as [-> | H];
          [split; [split; [discriminate | reflexivity] | reflexivity]|]).
  apply elem_of_nil in H. contradiction.
Qed.

Lemma map_replace_underscores_id (l : list string) :
  Forall (fun x => x ∈ known_labels) l -> map Str.replace_underscores l = l.
Proof.
  induction 1 as [|x l Hx _ IH]; [reflexivity|]. cbn [map].
  rewrite IH. f_equal. apply known_label_clean, Hx.
Qed.

Lemma final_additional_known values ph paco2 hco3 :
  valid_inputs values ph paco2 hco3 ->
  Forall (fun x => x ∈ known_labels)
    (additionalDisorders (state_after_step6 values)).
Proof.
  intros Hv.
  destruct (analysis_outcome _ _ _ _ Hv) as (L4 & O5 & O6 & _).
  unfold step5_outcome, step6_outcome, pushed_once in O5, O6.
  cbv zeta in O5, O6.
  assert (H4 : Forall (fun x => x ∈ known_labels)
                 (additionalDisorders (state_after_step4 values))).
  { destruct L4 as [E | [(_ & [E | E]) | (_ & [E | E])]]; rewrite E;
      unfold known_labels; repeat constructor. }
  assert (H5 : Forall (fun x => x ∈ known_labels)
                 (additionalDisorders (state_after_step5 values))).
  { destruct O5 as [(_ & _ & E & _) | (na & cl & c & _ & _ & _ & _ & Hpush)].
    - rewrite E. exact H4.
    - destruct Hpush as [(_ & _ & _ & E) | (_ & E)]; rewrite E; [|exact H4].
      apply Forall_app. split; [exact H4|].
      unfold known_labels; repeat constructor. }
  destruct O6 as [(_ & _ & E & _) | (c & _ & _ & _ & _ & Hcls)];
    [rewrite E; exact H5|].
  destruct Hcls as [(_ & _ & [(_ & E) | (_ & E)])
                   | [(_ & _ & [(_ & E) | (_ & E)]) | (_ & _ & E)]];
    rewrite E; try exact H5;
    (apply Forall_app; split; [exact H5|]);
    unfold known_labels; repeat constructor.
Qed.

(** The synthesizer on a state whose category is not ['normal'] and whose
    list holds known labels without repetition. *)
Lemma generateFinalInterpretation_rendered R s p :
  error R = None ->
  primaryDisorder s = Some p ->
  p ∈ primary_categories -> p <> "normal" ->
  NoDup (additionalDisorders s) ->
  Forall (fun x => x ∈ known_labels) (additionalDisorders s) ->
  fst (generateFinalInterpretation (mkAnalyzer R s)) = rendered s.
Proof.
  intros HR Hp Hcat Hnn Hnd Hknown.
  assert (Hname : Str.trim (Str.replace_first (Str.replace_underscores p)
                              "compensated" "") = display_name p /\
                  falsy (Some p) = false /\
                  is_str (Some p) "Undetermined" = false /\
                  is_str (Some p) "normal" = false /\
                  (p = "compensated" \/ clean (display_name p))).
  { unfold primary_categories in Hcat.
    repeat (apply elem_of_cons in Hcat as [-> | Hcat];
            [first [ congruence
                   | repeat split; try (vm_compute; reflexivity);
                     first [ left; reflexivity
                           | right; split; [discriminate | vm_compute; reflexivity] ] ]|]).
    apply elem_of_nil in Hcat. contradiction. }
  destruct Hname as (Hname & Hf & Hu & Hn & Hclean).
  assert (Hu' : unique (additionalDisorders s) = additionalDisorders s).
  { apply unique_acc_NoDup_id; [exact Hnd|].
    intros x _ H. apply elem_of_nil in H. exact H. }
  unfold generateFinalInterpretation, rendered, listed_disorders,
    compensation_phrase, superimposed_phrase.
  cbv [bind ret get_state get_results]. cbn [state results fst].
  rewrite HR, Hp. change (negb (falsy None)) with false.
  rewrite Hf, Hu, Hn. cbn [orb default from_option id fst]. rewrite Hname, Hu'.
  set (l := filter (fun d => keep_additional s d = true) (additionalDisorders s)).
  assert (Hl : Forall (fun x => x ∈ known_labels) l).
  { apply Forall_forall. intros x Hx. apply list_elem_of_filter in Hx as [_ Hx].
    revert x Hx. apply Forall_forall. exact Hknown. }
  rewrite (map_replace_underscores_id _ Hl).
  assert (Hjoin : l <> [] -> clean (Str.join " and " l)).
  { intros Hne. apply clean_join; [exact Hne|].
    apply Forall_forall. intros x Hx. apply known_label_clean.
    revert x Hx. apply Forall_forall. exact Hl. }
  assert (C1 : clean " with complete compensation")
    by (split; [discriminate | reflexivity]).
  assert (C2 : clean " with expected compensation")
    by (split; [discriminate | reflexivity]).
  destruct l as [|x l'] eqn:El.
  - cbn [length Nat.ltb Nat.leb].
    destruct (is_str (Some p) "compensated"
              || is_str (acidBaseStatus s) "normal") eqn:E1;
      [|destruct (is_str (compensationAssessment s) "appropriate") eqn:E2].
    + rewrite append_assoc, trim_primary; [rewrite ?append_assoc; reflexivity|].
      apply clean_app, clean_app, C1.
    + rewrite append_assoc, trim_primary; [rewrite ?append_assoc; reflexivity|].
      apply clean_app, clean_app, C2.
    + destruct Hclean as [-> | Hclean]; [cbn in E1; discriminate|].
      rewrite trim_primary; [rewrite ?append_assoc; reflexivity|].
      apply clean_app, Hclean.
  - assert (Hsup : clean (" and superimposed " +:+ Str.join " and " (x :: l')))
      by (apply clean_app, Hjoin; discriminate).
    cbn [length Nat.ltb Nat.leb].
    destruct (is_str (Some p) "compensated"
              || is_str (acidBaseStatus s) "normal") eqn:E1;
      [|destruct (is_str (compensationAssessment s) "appropriate") eqn:E2].
    + rewrite !append_assoc, trim_primary; [rewrite ?append_assoc; reflexivity|].
      apply clean_app, clean_app, clean_app, Hsup.
    + rewrite !append_assoc, trim_primary; [rewrite ?append_assoc; reflexivity|].
      apply clean_app, clean_app, clean_app, Hsup.
    + rewrite !append_assoc, trim_primary; [rewrite ?append_assoc; reflexivity|].
      apply clean_app, clean_app, Hsup.
Qed.

(** X10.  In a valid analysis whose category is not ['normal'] the final
    interpretation is the sentence "Primary <name><compensation><others>."
    where <name> is the category without the word 'compensated',
    <compensation> is " with complete compensation" when the pH status is
    normal or the category is ['compensated'], " with expected
    compensation" when the assessment is ['appropriate'], and empty
    otherwise, and <others> is " and superimposed " followed by the listed
    additional disorders joined by " and ".  The category ['compensated']
    thus reads "Primary  with complete compensation". *)
Theorem X10_final_interpretation_rendered values this ph paco2 hco3 :
  valid_inputs values ph paco2 hco3 ->
  let r := fst (analyze values this) in
  primaryDisorder (final_state r) <> Some "normal" ->
  finalInterpretation (texts r) = rendered (final_state r).
Proof.
  intros Hv. rewrite (analyze_valid _ _ _ _ _ Hv). cbn [fst final_state texts].
  intros Hnn.
  unfold final_results, final_text.
  cbn [finalInterpretation with_finalInterpretation].
  pose proof (final_primaryDisorder values) as Hpd.
  destruct (identifyPrimaryDisorder_category (ToNumber (prop values "ph"))
              (ToNumber (prop values "paco2")) (ToNumber (prop values "hco3"))
              (state_after_step2 values)) as (p & Hp & Hcat).
  fold (state_after_step3 values) in Hp. rewrite <- Hpd in Hp.
  apply (generateFinalInterpretation_rendered _ _ p); try assumption.
  - reflexivity.
  - intros ->. apply Hnn. exact Hp.
  - pose proof (final_additional_NoDup values this) as H.
    rewrite (analyze_valid _ _ _ _ _ Hv) in H. exact H.
  - exact (final_additional_known _ _ _ _ Hv).
Qed.

(** Where each member of the final list comes from. *)
Lemma final_additional_members values ph paco2 hco3 x :
  valid_inputs values ph paco2 hco3 ->
  let st := state_after_step6 values in
  x ∈ additionalDisorders st ->
  ((x = "respiratory alkalosis" \/ x = "respiratory acidosis") /\
   (primaryDisorder st = Some "metabolic acidosis" \/
    primaryDisorder st = Some "metabolic alkalosis")) \/
  ((x = "metabolic acidosis" \/ x = "metabolic alkalosis") /\
   (primaryDisorder st = Some "respiratory acidosis" \/
    primaryDisorder st = Some "respiratory alkalosis")) \/
  (x = "high anion gap metabolic acidosis" /\
   primaryDisorder st <> Some "metabolic acidosis") \/
  ((x = "normal anion gap metabolic acidosis" \/ x = "metabolic alkalosis") /\
   primaryDisorder st = Some "metabolic acidosis").
Proof.
  intros Hv. cbv zeta.
  destruct (analysis_outcome _ _ _ _ Hv) as (L4 & O5 & O6 & P4 & P5 & _).
  unfold step5_outcome, step6_outcome, pushed_once in O5, O6.
  cbv zeta in O5, O6. rewrite P4 in O5. rewrite P5 in O6.
  set (pd := primaryDisorder (state_after_step6 values)) in *.
  assert (H4 : x ∈ additionalDisorders (state_after_step4 values) ->
    ((x = "respiratory alkalosis" \/ x = "respiratory acidosis") /\
     (pd = Some "metabolic acidosis" \/ pd = Some "metabolic alkalosis")) \/
    ((x = "metabolic acidosis" \/ x = "metabolic alkalosis") /\
     (pd = Some "respiratory acidosis" \/ pd = Some "respiratory alkalosis"))).
  { destruct L4 as [E | [(Hp & [E | E]) | (Hp & [E | E])]]; rewrite E; intros H;
      first [ apply elem_of_nil in H; contradiction
            | apply list_elem_of_singleton in H; subst x; auto ]. }
  assert (H5 : x ∈ additionalDisorders (state_after_step5 values) ->
    x ∈ additionalDisorders (state_after_step4 values) \/
    (x = "high anion gap metabolic acidosis" /\ pd <> Some "metabolic acidosis")).
  { destruct O5 as [(_ & _ & E & _) | (na & cl & c & _ & _ & _ & _ & Hpush)].
    - rewrite E. auto.
    - destruct Hpush as [(_ & Hnot & _ & E) | (_ & E)]; rewrite E; [|auto].
      intros H. apply elem_of_app in H as [H | H]; [auto|].
      apply list_elem_of_singleton in H. auto. }
  assert (H6 : x ∈ additionalDisorders (state_after_step6 values) ->
    x ∈ additionalDisorders (state_after_step5 values) \/
    ((x = "normal anion gap metabolic acidosis" \/ x = "metabolic alkalosis") /\
     pd = Some "metabolic acidosis")).
  { destruct O6 as [(_ & _ & E & _) | (c & Hpd & _ & _ & _ & Hcls)];
      [rewrite E; auto|].
    destruct Hcls as [(_ & _ & [(_ & E) | (_ & E)])
                     | [(_ & _ & [(_ & E) | (_ & E)]) | (_ & _ & E)]];
      rewrite E; auto;
      intros H; (apply elem_of_app in H as [H | H]; [auto|]);
      apply list_elem_of_singleton in H; auto. }
  intros H. destruct (H6 H) as [H' | H']; [|auto 6].
  destruct (H5 H') as [H'' | H'']; [|auto 6].
  destruct (H4 H'') as [? | ?]; auto.
Qed.

(** The NAGMA label is in the list only after step 6 has run, hence with
    a gap stored and a corrected gap above 12. *)
Lemma nagma_needs_gap values ph paco2 hco3 :
  valid_inputs values ph paco2 hco3 ->
  let st := state_after_step6 values in
  "normal anion gap metabolic acidosis" ∈ additionalDisorders st ->
  (exists g, anionGap st = Some (Fin g)) /\
  (exists c, correctedAnionGap st = Some (Fin c) /\ (c > 12)%Q).
Proof.
  intros Hv. cbv zeta. intros Hin.
  destruct (analysis_outcome _ _ _ _ Hv) as (L4 & O5 & O6 & P4 & P5 & G6 & C6 & _).
  unfold step5_outcome, step6_outcome, pushed_once in O5, O6.
  cbv zeta in O5, O6. rewrite G6, C6.
  assert (H5 : "normal anion gap metabolic acidosis"
                 ∉ additionalDisorders (state_after_step5 values)).
  { assert (H4 : "normal anion gap metabolic acidosis"
                   ∉ additionalDisorders (state_after_step4 values)).
    { destruct L4 as [E | [(_ & [E | E]) | (_ & [E | E])]]; rewrite E; intros H;
        first [ apply elem_of_nil in H; contradiction
              | apply list_elem_of_singleton in H; discriminate ]. }
    destruct O5 as [(_ & _ & E & _) | (na & cl & c & _ & _ & _ & _ & Hpush)];
      [rewrite E; exact H4|].
    destruct Hpush as [(_ & _ & _ & E) | (_ & E)]; rewrite E; [|exact H4].
    intros H. apply elem_of_app in H as [H | H]; [contradiction|].
    apply list_elem_of_singleton in H. discriminate. }
  destruct O6 as [(_ & _ & E & _) | (c & _ & Hc & Hgt & _)].
  - rewrite E in Hin. contradiction.
  - split; [|exists c; auto].
    destruct O5 as [(_ & Hc5 & _) | (na & cl & c' & _ & Hg & _)];
      [congruence | eauto].
Qed.

(** X11.  Of the five rules that keep a label out of the final
    interpretation only one can apply in an analysis: with a primary
    metabolic acidosis and a raw anion gap of 12 or less (the corrected gap
    being above 12) the label ['normal anion gap metabolic acidosis'] stays
    in the state but is not listed.  In every other valid analysis all the
    additional disorders are listed. *)
Theorem X11_listed_disorders values this ph paco2 hco3 :
  valid_inputs values ph paco2 hco3 ->
  let st := final_state (fst (analyze values this)) in
  let dropped d :=
    d = "normal anion gap metabolic acidosis" /\
    exists g, anionGap st = Some (Fin g) /\ (g <= 12)%Q in
  (forall d, d ∈ listed_disorders st <->
             d ∈ additionalDisorders st /\ ~ dropped d) /\
  (forall d, dropped d -> d ∈ additionalDisorders st ->
     primaryDisorder st = Some "metabolic acidosis" /\
     exists c, correctedAnionGap st = Some (Fin c) /\ (c > 12)%Q).
Proof.
  intros Hv. rewrite (analyze_valid _ _ _ _ _ Hv). cbn [fst final_state].
  cbv zeta.
  set (st := state_after_step6 values).
  split.
  - intros d. unfold listed_disorders. rewrite list_elem_of_filter.
    split.
    + intros [Hkeep Hin]. split; [exact Hin|].
      intros (-> & g & Hg & Hle).
      destruct (final_additional_members _ _ _ _ _ Hv Hin)
        as [([[= ] | [= ]] & _) | [([[= ] | [= ]] & _) | [([= ] & _) | (_ & Hpd)]]].
      unfold keep_additional in Hkeep. fold st in Hpd. rewrite Hpd, Hg in Hkeep.
      cbn -[Qle_bool] in Hkeep.
      apply Qle_bool_iff in Hle. rewrite Hle in Hkeep. discriminate.
    + intros [Hin Hnd]. split; [|exact Hin].
      pose proof (final_additional_members _ _ _ _ _ Hv Hin) as Hm.
      fold st in Hm. unfold keep_additional.
      destruct Hm as [([-> | ->] & [Hpd | Hpd])
                     | [([-> | ->] & [Hpd | Hpd])
                       | [(-> & Hpd) | ([-> | ->] & Hpd)]]];
        try (rewrite Hpd; reflexivity).
      * apply is_str_false in Hpd. rewrite Hpd. cbn.
        rewrite !andb_false_r. reflexivity.
      * destruct (nagma_needs_gap _ _ _ _ Hv Hin) as [[g Hg] _].
        fold st in Hg. rewrite Hpd, Hg. cbn -[Qle_bool].
        destruct (Qle_bool g 12) eqn:E; [|reflexivity].
        exfalso. apply Hnd. split; [reflexivity|].
        exists g. split; [exact Hg | apply Qle_bool_iff; exact E].
  - intros d (-> & _) Hin.
    destruct (final_additional_members _ _ _ _ _ Hv Hin)
      as [([[= ] | [= ]] & _) | [([[= ] | [= ]] & _) | [([= ] & _) | (_ & Hpd)]]].
    fold st in Hpd. split; [exact Hpd|].
    exact (proj2 (nagma_needs_gap _ _ _ _ Hv Hin)).
Qed.

End FinalInterpretation.

(** X10 on a normal pH with a raised PaCO2: the sentence has an empty
    name. *)
Lemma X10_final_interpretation_rendered_witness :
  let values :=
    Sample.measurements [("ph", 7.40%Q); ("paco2", 50%Q); ("hco3", 24%Q)] in
  let r := fst (analyze (rt:=Sample.runtime) values Sample.new_analyzer) in
  valid_inputs values 7.40 50 24 /\
  primaryDisorder (final_state r) <> Some "normal" /\
  finalInterpretation (texts r) = rendered (final_state r) /\
  rendered (final_state r) = "Primary  with complete compensation.".
Proof.
  intros values r.
  assert (Hv : valid_inputs values 7.40 50 24).
  { repeat split; try (vm_compute; reflexivity); vm_compute; discriminate. }
  assert (Hn : primaryDisorder (final_state r) <> Some "normal")
    by (vm_compute; discriminate).
  split; [exact Hv|]. split; [exact Hn|].
  split; [|vm_compute; reflexivity].
  exact (X10_final_interpretation_rendered (rt:=Sample.runtime) values
           Sample.new_analyzer 7.40 50 24 Hv Hn).
Defined.

(** X11 on a raw gap of 12 that albumin 2.0 corrects to 17: the ratio
    5/11 stores the NAGMA label, and the label is not listed. *)
Lemma X11_listed_disorders_witness :
  let values :=
    Sample.measurements [("ph", 7.25%Q); ("paco2", 30%Q); ("hco3", 13%Q);
                         ("na", 125%Q); ("cl", 100%Q); ("albumin", 2.0%Q)] in
  let st := final_state (fst (analyze (rt:=Sample.runtime) values
                                Sample.new_analyzer)) in
  valid_inputs values 7.25 30 13 /\
  "normal anion gap metabolic acidosis" ∈ additionalDisorders st /\
  ("normal anion gap metabolic acidosis" ∉ listed_disorders st) /\
  primaryDisorder st = Some "metabolic acidosis".
Proof.
  intros values st.
  assert (Hv : valid_inputs values 7.25 30 13).
  { repeat split; try (vm_compute; reflexivity); vm_compute; discriminate. }
  assert (Hin : "normal anion gap metabolic acidosis" ∈ additionalDisorders st).
  { assert (E : additionalDisorders st
                = ["respiratory acidosis";
                   "normal anion gap metabolic acidosis"])
      by (vm_compute; reflexivity).
    rewrite E. repeat constructor. }
  assert (Hg : anionGap st = Some (Fin 12)) by (vm_compute; reflexivity).
  destruct (X11_listed_disorders (rt:=Sample.runtime) values
              Sample.new_analyzer 7.25 30 13 Hv) as [Hl Hd].
  assert (Hdrop : "normal anion gap metabolic acidosis"
                  = "normal anion gap metabolic acidosis" /\
                  exists g, anionGap st = Some (Fin g) /\ (g <= 12)%Q).
  { split; [reflexivity|]. exists 12%Q. split; [exact Hg|].
    vm_compute. discriminate. }
  split; [exact Hv|]. split; [exact Hin|]. split.
  - intros H. apply Hl in H as [_ Hnd]. exact (Hnd Hdrop).
  - exact (proj1 (Hd _ Hdrop Hin)).
Defined.

(* ------------------------------------------------------------------ *)
(** ** The fallback texts *)

(** [t] is not the literal [lit]: a prefix [p] of [lit] is no prefix of [t]. *)
Ltac differs p :=
  let H := fresh in
  intros H; apply (f_equal (String.prefix p)) in H; vm_compute in H; discriminate.

Section Fallbacks.
Context {rt : JSRuntime}.

(** Step 3 on numbers: the last branch, which the source marks as one that
    should not happen, is not taken. *)
Lemma identifyPrimaryDisorder_no_fallback ph paco2 hco3 s :
  text (identifyPrimaryDisorder (Fin ph) (Fin paco2) (Fin hco3)) s
  <> "Normal acid-base status.".
Proof.
  destruct s as [abs pd ct ecv ca ad ag cag dr dra].
  unfold text, exec, identifyPrimaryDisorder.
  run_stage; try (differs "Normal acid-base status.").
  exfalso. q_reflect; lra.
Qed.

(** Step 4 on a state whose category is one of the ten. *)
Lemma evaluateCompensation_no_fallback paco2 hco3 s :
  (exists p, primaryDisorder s = Some p /\ p ∈ primary_categories) ->
  text (evaluateCompensation paco2 hco3) s
  <> "Error: Unknown primary disorder for compensation check.".
Proof.
  destruct s as [abs pd ct ecv ca ad ag cag dr dra].
  cbn [primaryDisorder]. intros (p & -> & Hp).
  unfold primary_categories in Hp.
  repeat (apply elem_of_cons in Hp as [-> | Hp];
          [unfold text, exec, evaluateCompensation, assess, choose_acute_chronic;
           run_stage; differs "Er"|]).
  apply elem_of_nil in Hp. contradiction.
Qed.

(** X17.  In a valid analysis three fallback texts are never produced: the
    last branch of step 3 ("Normal acid-base status.", marked in the source
    as one that should not happen), the default case of the [switch] in
    step 4, and the "Unable to determine" text of the final interpretation;
    nor does the final interpretation report an error. *)
Theorem X17_fallback_texts_unreachable values this ph paco2 hco3 :
  valid_inputs values ph paco2 hco3 ->
  let t := texts (fst (analyze values this)) in
  step3 t <> "Normal acid-base status." /\
  step4 t <> "Error: Unknown primary disorder for compensation check." /\
  finalInterpretation t <> "Unable to determine final interpretation." /\
  String.prefix "Analysis Error: " (finalInterpretation t) = false.
Proof.
  intros Hv. rewrite (analyze_valid _ _ _ _ _ Hv).
  cbn [fst texts]. unfold final_results, results_after_step6.
  cbn [step3 step4 finalInterpretation with_step1 with_step2 with_step3
       with_step4 with_step5 with_step6 with_finalInterpretation].
  pose proof Hv as (Hph & Hp & Hh & _).
  split; [|split].
  - rewrite Hph, Hp, Hh. cbn [ToNumber].
    apply identifyPrimaryDisorder_no_fallback.
  - apply evaluateCompensation_no_fallback.
    apply identifyPrimaryDisorder_category.
  - pose proof (final_primaryDisorder values) as Hpd.
    destruct (identifyPrimaryDisorder_category (ToNumber (prop values "ph"))
                (ToNumber (prop values "paco2")) (ToNumber (prop values "hco3"))
                (state_after_step2 values)) as (p & Hp3 & Hcat).
    fold (state_after_step3 values) in Hp3. rewrite <- Hpd in Hp3.
    destruct (String.eqb p "normal") eqn:En.
    + apply String.eqb_eq in En. subst p.
      unfold final_text, generateFinalInterpretation.
      run_method. rewrite Hp3. js_eval.
      split; [differs "U" | reflexivity].
    + apply String.eqb_neq in En.
      unfold final_text.
      rewrite (generateFinalInterpretation_rendered _ _ p); try assumption.
      * unfold rendered. split; [differs "U" | vm_compute; reflexivity].
      * reflexivity.
      * pose proof (final_additional_NoDup values this) as H.
        rewrite (analyze_valid _ _ _ _ _ Hv) in H. exact H.
      * exact (final_additional_known _ _ _ _ Hv).
Qed.

(** X18.  The text of step 6 in a valid analysis follows the final state:
    without a primary metabolic acidosis it says so; with one, it reads
    "Skipped" when no gap was computed, "Anion gap is not elevated" when
    the corrected gap is 12 or less, and reports the delta ratio when the
    corrected gap is above 12.  The text for an invalid gap or HCO3 and the
    two texts for a zero or negative 24 - HCO3 do not occur. *)
Theorem X18_step6_text values this ph paco2 hco3 :
  valid_inputs values ph paco2 hco3 ->
  let r := fst (analyze values this) in
  let st := final_state r in
  let t := step6 (texts r) in
  (primaryDisorder st <> Some "metabolic acidosis" ->
     t = "Not Applicable: Primary disorder is not metabolic acidosis.") /\
  (primaryDisorder st = Some "metabolic acidosis" ->
     (correctedAnionGap st = None ->
        t = "Skipped: Anion gap calculation was skipped or failed.") /\
     (forall c, correctedAnionGap st = Some (Fin c) ->
        ((c <= 12)%Q -> t = "Not Applicable: Anion gap is not elevated.") /\
        ((c > 12)%Q -> String.prefix "Delta Ratio (ΔAG/ΔHCO₃⁻) =" t = true))).
Proof.
  intros Hv. rewrite (analyze_valid _ _ _ _ _ Hv).
  cbn [fst texts final_state]. unfold final_results, results_after_step6.
  cbn [step6 with_step6 with_finalInterpretation].
  destruct (analysis_outcome _ _ _ _ Hv) as (_ & O5 & _ & _ & P5 & _ & C6 & Hlow).
  pose proof Hv as (_ & _ & Hh & _).
  rewrite <- P5, C6. rewrite <- P5 in Hlow.
  assert (Hgap : (anionGap (state_after_step5 values) = None /\
                  correctedAnionGap (state_after_step5 values) = None) \/
                 exists c, correctedAnionGap (state_after_step5 values)
                           = Some (Fin c)).
  { destruct O5 as [(Hg & Hc & _) | (na & cl & c & _ & _ & Hc & _)]; eauto. }
  clear O5 P5 C6.
  unfold step6_text, analyze_step6, evaluateDeltaRatio, albumin_usable.
  rewrite Hh. cbn [ToNumber].
  destruct (state_after_step5 values) as [abs pd ct ecv ca ad ag cag dr dra].
  cbn [primaryDisorder correctedAnionGap anionGap] in *.
  split.
  - intros Hpd. apply is_str_false in Hpd.
    destruct Hgap as [[-> ->] | [c ->]]; run_method; rewrite Hpd;
      rewrite ?andb_false_r; reflexivity.
  - intros ->. specialize (Hlow eq_refl). split.
    + intros ->. destruct Hgap as [[-> _] | [c [=]]]. reflexivity.
    + intros c ->. clear Hgap. run_method. rewrite !andb_true_r.
      destruct (Num.Qlt_bool 12 c) eqn:E; q_reflect.
      * split; [intros H; exfalso; lra|]. intros _.
        run_stage; q_reflect; try (exfalso; lra); vm_compute; reflexivity.
      * split; [|intros H; exfalso; lra]. intros _.
        assert (E' : Qle_bool c 12 = true) by (apply Qle_bool_iff; exact E).
        rewrite E'. reflexivity.
Qed.

End Fallbacks.

(* ------------------------------------------------------------------ *)
(** ** The runtime services only shape the texts *)

Section RuntimeIndependence.
Variables rt1 rt2 : JSRuntime.

Lemma determineAcidemiaAlkalemia_runtime ph s :
  post (determineAcidemiaAlkalemia (rt:=rt1) ph) s
  = post (determineAcidemiaAlkalemia (rt:=rt2) ph) s.
Proof.
  destruct s as [abs pd ct ecv ca ad ag cag dr dra].
  unfold post, exec, determineAcidemiaAlkalemia. run_stage; reflexivity.
Qed.

Lemma identifyPrimaryDisorder_runtime ph paco2 hco3 s :
  post (identifyPrimaryDisorder (rt:=rt1) ph paco2 hco3) s
  = post (identifyPrimaryDisorder (rt:=rt2) ph paco2 hco3) s.
Proof.
  destruct s as [abs pd ct ecv ca ad ag cag dr dra].
  unfold post, exec, identifyPrimaryDisorder. run_stage; reflexivity.
Qed.

Lemma evaluateCompensation_runtime paco2 hco3 s :
  post (evaluateCompensation (rt:=rt1) paco2 hco3) s
  = post (evaluateCompensation (rt:=rt2) paco2 hco3) s.
Proof.
  destruct s as [abs pd ct ecv ca ad ag cag dr dra].
  unfold post, exec, evaluateCompensation, assess, choose_acute_chronic.
  run_stage; reflexivity.
Qed.

Lemma analyze_step5_runtime values s :
  post (analyze_step5 (rt:=rt1) values) s
  = post (analyze_step5 (rt:=rt2) values) s.
Proof.
  destruct s as [abs pd ct ecv ca ad ag cag dr dra].
  unfold post, exec, analyze_step5, calculateAnionGap.
  run_stage; reflexivity.
Qed.

Lemma analyze_step6_runtime values s :
  post (analyze_step6 (rt:=rt1) values) s
  = post (analyze_step6 (rt:=rt2) values) s.
Proof.
  destruct s as [abs pd ct ecv ca ad ag cag dr dra].
  unfold post, exec, analyze_step6, evaluateDeltaRatio.
  run_method. destruct (nullish cag ag) as [x|]; run_stage; reflexivity.
Qed.

Lemma state_after_step6_runtime values :
  state_after_step6 (rt:=rt1) values = state_after_step6 (rt:=rt2) values.
Proof.
  unfold state_after_step6, state_after_step5, state_after_step4,
    state_after_step3, state_after_step2.
  rewrite determineAcidemiaAlkalemia_runtime, identifyPrimaryDisorder_runtime,
    evaluateCompensation_runtime, analyze_step5_runtime, analyze_step6_runtime.
  reflexivity.
Qed.

(** X19.  The state that [analyze] returns does not depend on [Math.pow],
    [toFixed] or the formatting of numbers in template literals: these
    services shape the texts only, and no classification is made from a
    rounded or formatted value.  Nor does it depend on the analyzer object
    the call starts from. *)
Theorem X19_state_independent_of_runtime values this1 this2 :
  final_state (fst (analyze (rt:=rt1) values this1))
  = final_state (fst (analyze (rt:=rt2) values this2)) /\
  (error (texts (fst (analyze (rt:=rt1) values this1))) = None <->
   error (texts (fst (analyze (rt:=rt2) values this2))) = None).
Proof.
  destruct (fst (validateInputs (rt:=rt1) values
                   (mkAnalyzer fresh_results fresh_state))) eqn:E1.
  - destruct (validateInputs_true_inv _ _ E1) as (ph & paco2 & hco3 & Hv).
    rewrite (analyze_valid (rt:=rt1) _ _ _ _ _ Hv),
            (analyze_valid (rt:=rt2) _ _ _ _ _ Hv).
    cbn [fst final_state texts]. split; [apply state_after_step6_runtime|].
    split; reflexivity.
  - assert (E2 : fst (validateInputs (rt:=rt2) values
                        (mkAnalyzer fresh_results fresh_state)) = false).
    { destruct (fst (validateInputs (rt:=rt2) values
                       (mkAnalyzer fresh_results fresh_state))) eqn:E2;
        [|reflexivity].
      destruct (validateInputs_true_inv _ _ E2) as (ph & paco2 & hco3 & Hv).
      rewrite (validateInputs_valid (rt:=rt1) _ _ _ _ _ Hv) in E1.
      discriminate. }
    rewrite (analyze_invalid (rt:=rt1) _ _ E1),
            (analyze_invalid (rt:=rt2) _ _ E2).
    destruct (validateInputs_false _ _ E1) as [m1 ->].
    destruct (validateInputs_false _ _ E2) as [m2 ->].
    cbn. split; [reflexivity|]. split; discriminate.
Qed.

End RuntimeIndependence.

(* ------------------------------------------------------------------ *)
(** ** The application component *)

Section Application.
Context {rt : JSRuntime}.

(** A failed validation stores a text that is not empty. *)
Lemma validateInputs_error_truthy values this :
  fst (validateInputs values this) = false ->
  exists msg,
    Str.truthy msg = true /\
    snd (validateInputs values this)
    = mkAnalyzer (with_error (Some msg) (results this)) (state this).
Proof.
  unfold validateInputs. destruct this as [R s].
  destruct (first_invalid values ["ph"; "paco2"; "hco3"]) as [key|].
  - intros _. eexists. split; [|reflexivity]. vm_compute. reflexivity.
  - cbv zeta. repeat case_if; cbn -[String.append]; intros; try discriminate;
      (eexists; split; [|reflexivity]); vm_compute; reflexivity.
Qed.

Lemma truthy_nonempty msg : Str.truthy msg = true -> msg <> "".
Proof. intros H ->. discriminate. Qed.

(** [handleAnalysis] on values that pass validation. *)
Lemma handleAnalysis_valid inputValues (a : App.State) abgAnalyzer ph paco2 hco3 :
  valid_inputs inputValues ph paco2 hco3 ->
  fst (App.handleAnalysis inputValues a abgAnalyzer)
  = App.mkApp (App.activeTab a)
      (Some (fst (analyze inputValues abgAnalyzer), inputValues))
      false None (App.isResetting a).
Proof.
  intros Hv. unfold App.handleAnalysis.
  rewrite (analyze_valid _ _ _ _ _ Hv). reflexivity.
Qed.

(** [handleAnalysis] on values that do not. *)
Lemma handleAnalysis_invalid inputValues (a : App.State) abgAnalyzer :
  ~ (exists ph paco2 hco3, valid_inputs inputValues ph paco2 hco3) ->
  exists msg,
    Str.truthy msg = true /\
    error (texts (fst (analyze inputValues abgAnalyzer))) = Some msg /\
    fst (App.handleAnalysis inputValues a abgAnalyzer)
    = App.mkApp (App.activeTab a) None false (Some msg) (App.isResetting a).
Proof.
  intros Hn. unfold App.handleAnalysis.
  destruct (fst (validateInputs inputValues
                   (mkAnalyzer fresh_results fresh_state))) eqn:E.
  - exfalso. apply Hn. exact (validateInputs_true_inv _ _ E).
  - rewrite (analyze_invalid _ _ E).
    destruct (validateInputs_error_truthy _ _ E) as (msg & Ht & ->).
    exists msg. split; [exact Ht|]. split; [reflexivity|].
    cbv zeta. cbn [results state].
    unfold analysis_error. cbn [texts error with_error falsy].
    rewrite Ht. reflexivity.
Qed.

(** The column drawn from a state that holds an error and nothing else. *)
Lemma results_column_error tab msg resetting :
  Str.truthy msg = true ->
  App.results_column (App.mkApp tab None false (Some msg) resetting)
  = [App.ErrorMessage msg].
Proof.
  intros Ht. unfold App.results_column.
  cbn [App.isLoading App.error App.results falsy negb andb]. rewrite Ht.
  reflexivity.
Qed.

(** X20.  [handleAnalysis] always ends with [isLoading] false and leaves
    the tab as it was.  On valid required values it stores the result of
    the engine together with the input values, clears the error, and the
    results column draws the result display alone; otherwise it stores the
    engine's error text, which is never empty, keeps no results, and the
    column draws that error message alone.  Neither the loading message nor
    the placeholder is drawn after an analysis. *)
Theorem X20_handleAnalysis_outcome inputValues (a : App.State) abgAnalyzer :
  let analysisResult := fst (analyze inputValues abgAnalyzer) in
  let a' := fst (App.handleAnalysis inputValues a abgAnalyzer) in
  App.isLoading a' = false /\ App.activeTab a' = App.activeTab a /\
  ((exists ph paco2 hco3, valid_inputs inputValues ph paco2 hco3) ->
     App.results a' = Some (analysisResult, inputValues) /\
     App.error a' = None /\
     App.results_column a' = [App.ResultsDisplay (analysisResult, inputValues)]) /\
  (~ (exists ph paco2 hco3, valid_inputs inputValues ph paco2 hco3) ->
     exists msg,
       error (texts analysisResult) = Some msg /\ msg <> "" /\
       App.results a' = None /\ App.error a' = Some msg /\
       App.results_column a' = [App.ErrorMessage msg]).
Proof.
  cbv zeta.
  destruct (fst (validateInputs inputValues
                   (mkAnalyzer fresh_results fresh_state))) eqn:E.
  - destruct (validateInputs_true_inv _ _ E) as (ph & paco2 & hco3 & Hv).
    rewrite (handleAnalysis_valid _ a abgAnalyzer _ _ _ Hv).
    repeat split; try reflexivity.
    intros Hn. exfalso. apply Hn. eauto.
  - assert (Hn : ~ (exists ph paco2 hco3, valid_inputs inputValues ph paco2 hco3)).
    { intros (ph & paco2 & hco3 & Hv).
      rewrite (validateInputs_valid _ _ _ _ _ Hv) in E. discriminate. }
    destruct (handleAnalysis_invalid inputValues a abgAnalyzer Hn)
      as (msg & Ht & He & ->).
    split; [reflexivity|]. split; [reflexivity|]. split; [intros H; contradiction|].
    intros _. exists msg. split; [exact He|].
    split; [exact (truthy_nonempty _ Ht)|].
    split; [reflexivity|]. split; [reflexivity|].
    apply results_column_error, Ht.
Qed.

End Application.

(* ------------------------------------------------------------------ *)
(** ** The manual input form *)

Section ManualForm.
Context {rt : JSRuntime} {parser : StringParser}.
Import ManualInputForm.

(** The loop of [handleSubmit] over any list of keys, from any start. *)
Lemma check_fields_fold formValues l p :
  let p' := fold_left (check_field formValues) l p in
  formIsValid p' = formIsValid p && forallb (fun key => negb (faulty formValues key)) l /\
  (forall key,
     valuesToAnalyze p' !! key
     = if bool_decide (key ∈ l) && collects formValues key
       then Some (JNum (parse (formValues !! key)))
       else valuesToAnalyze p !! key) /\
  (forall key,
     currentErrors p' !! key
     = if bool_decide (key ∈ l) && faulty formValues key
       then Some (validateInput key (formValues !! key))
       else currentErrors p !! key).
Proof.
  revert p. induction l as [|k l IH]; intros p; cbn [fold_left forallb].
  - rewrite andb_true_r. repeat split; intros key; reflexivity.
  - destruct (IH (check_field formValues p k)) as (IH1 & IH2 & IH3).
    cbv zeta in *. rewrite IH1. clear IH1.
    assert (Hv : formIsValid (check_field formValues p k)
                 = formIsValid p && negb (faulty formValues k)).
    { unfold check_field, faulty.
      destruct (Str.truthy (validateInput k (formValues !! k)));
        cbn [negb]; rewrite ?andb_false_r, ?andb_true_r;
        try match goal with
            | |- formIsValid (if ?b then _ else _) = _ => destruct b
            end; reflexivity. }
    assert (Ha : forall key,
              valuesToAnalyze (check_field formValues p k) !! key
              = if bool_decide (key = k) && collects formValues k
                then Some (JNum (parse (formValues !! k)))
                else valuesToAnalyze p !! key).
    { intros key. unfold check_field, collects.
      destruct (Str.truthy (validateInput k (formValues !! k)));
        cbn [negb]; rewrite ?andb_false_r, ?andb_true_r; [reflexivity|].
      match goal with
      | |- valuesToAnalyze (if ?b then _ else _) !! _ = _ => destruct b
      end; [|rewrite andb_false_r; reflexivity].
      rewrite andb_true_r. cbn [valuesToAnalyze].
      case_bool_decide as Hk.
      - subst key. apply lookup_insert_eq.
      - apply lookup_insert_ne. congruence. }
    assert (He : forall key,
              currentErrors (check_field formValues p k) !! key
              = if bool_decide (key = k) && faulty formValues k
                then Some (validateInput k (formValues !! k))
                else currentErrors p !! key).
    { intros key. unfold check_field, faulty.
      destruct (Str.truthy (validateInput k (formValues !! k)));
        cbn [negb]; rewrite ?andb_false_r, ?andb_true_r;
        [|match goal with
          | |- currentErrors (if ?b then _ else _) !! _ = _ => destruct b
          end; reflexivity].
      cbn [currentErrors].
      case_bool_decide as Hk.
      - subst key. apply lookup_insert_eq.
      - apply lookup_insert_ne. congruence. }
    split; [rewrite Hv, andb_assoc; reflexivity|]. split.
    + intros key. rewrite IH2, Ha.
      destruct (bool_decide (key ∈ l)) eqn:El.
      * apply bool_decide_eq_true in El.
        rewrite (bool_decide_eq_true_2 (key ∈ k :: l)) by (right; exact El).
        cbn [andb]. destruct (collects formValues key) eqn:Ec; [reflexivity|].
        case_bool_decide as Hk; [|reflexivity].
        subst k. rewrite Ec. reflexivity.
      * apply bool_decide_eq_false in El. cbn [andb].
        case_bool_decide as Hk.
        -- subst key.
           rewrite (bool_decide_eq_true_2 (k ∈ k :: l)) by left. reflexivity.
        -- rewrite (bool_decide_eq_false_2 (key ∈ k :: l)); [reflexivity|].
           intros H. apply elem_of_cons in H as [H | H]; contradiction.
    + intros key. rewrite IH3, He.
      destruct (bool_decide (key ∈ l)) eqn:El.
      * apply bool_decide_eq_true in El.
        rewrite (bool_decide_eq_true_2 (key ∈ k :: l)) by (right; exact El).
        cbn [andb]. destruct (faulty formValues key) eqn:Ef; [reflexivity|].
        case_bool_decide as Hk; [|reflexivity].
        subst k. rewrite Ef. reflexivity.
      * apply bool_decide_eq_false in El. cbn [andb].
        case_bool_decide as Hk.
        -- subst key.
           rewrite (bool_decide_eq_true_2 (k ∈ k :: l)) by left. reflexivity.
        -- rewrite (bool_decide_eq_false_2 (key ∈ k :: l)); [reflexivity|].
           intros H. apply elem_of_cons in H as [H | H]; contradiction.
Qed.

(** The loop of [handleSubmit] as it is run. *)
Lemma check_fields_spec formValues :
  let p := check_fields formValues in
  formIsValid p = forallb (fun key => negb (faulty formValues key)) field_names /\
  (forall key,
     valuesToAnalyze p !! key
     = if bool_decide (key ∈ field_names) && collects formValues key
       then Some (JNum (parse (formValues !! key)))
       else None) /\
  (forall key,
     currentErrors p !! key
     = if bool_decide (key ∈ field_names) && faulty formValues key
       then Some (validateInput key (formValues !! key))
       else None).
Proof.
  unfold check_fields.
  destruct (check_fields_fold formValues field_names (mkPass true ∅ ∅))
    as (H1 & H2 & H3).
  cbv zeta in *.
  remember (fold_left (check_field formValues) field_names (mkPass true ∅ ∅))
    as p eqn:Hp.
  clear Hp. cbn [formIsValid valuesToAnalyze currentErrors andb] in H1, H2, H3.
  split; [exact H1|]. split; intros key.
  - rewrite H2, lookup_empty. reflexivity.
  - rewrite H3, lookup_empty. reflexivity.
Qed.

(** Every field name has a range, and only field names have one. *)
Lemma range_of_field key :
  key ∈ field_names <-> exists r, range_of physiologicalRanges key = Some r.
Proof.
  split.
  - unfold field_names. cbn [map fst physiologicalRanges]. intros H.
    repeat (apply elem_of_cons in H as [-> | H]; [eexists; reflexivity|]).
    apply elem_of_nil in H. contradiction.
  - intros [r H]. unfold field_names. cbn [map fst physiologicalRanges].
    cbn [range_of physiologicalRanges] in H.
    repeat match type of H with
    | (if String.eqb ?k key then _ else _) = _ =>
        destruct (String.eqb_spec k key) as [<- | _];
        [repeat first [apply list_elem_of_here | apply list_elem_of_further]|]
    end.
    discriminate.
Qed.

(** [validateInput] on a text that is not empty. *)
Lemma faulty_filled formValues key s :
  formValues !! key = Some s -> s <> "" ->
  faulty formValues key = false <->
  exists q, accepted_field formValues key q \/
            (String_parseFloat s = Fin q /\ key ∉ field_names).
Proof.
  intros Hs Hne. unfold faulty, validateInput. rewrite Hs.
  unfold accepted_field. cbn [is_blank parse].
  apply String.eqb_neq in Hne. rewrite Hne.
  destruct (String_parseFloat s) as [|q] eqn:Hq; cbn [Num.is_nan].
  - split; [discriminate|]. intros (q & [(s' & r & H & _ & H' & _) | [H _]]);
      [|discriminate].
    rewrite Hs in H. injection H as <-. congruence.
  - destruct (range_of physiologicalRanges key) as [r|] eqn:Hr.
    + cbn [Num.lt Num.gt lit].
      destruct (Num.Qlt_bool q (min r) || Num.Qlt_bool (max r) q) eqn:E; q_reflect.
      * split; [discriminate|].
        intros (q' & [(s' & r' & Hx & _ & Hx' & Hr' & Hb) | [_ Hn]]).
        -- rewrite Hs in Hx. injection Hx as <-. rewrite Hq in Hx'.
           injection Hx' as <-. injection Hr' as <-. exfalso. lra.
        -- exfalso. apply Hn, range_of_field. eauto.
      * split; [discriminate|].
        intros (q' & [(s' & r' & Hx & _ & Hx' & Hr' & Hb) | [_ Hn]]).
        -- rewrite Hs in Hx. injection Hx as <-. rewrite Hq in Hx'.
           injection Hx' as <-. injection Hr' as <-. exfalso. lra.
        -- exfalso. apply Hn, range_of_field. eauto.
      * split; [|reflexivity]. intros _. exists q. left.
        exists s, r. apply String.eqb_neq in Hne.
        repeat split; try assumption; lra.
    + split; [|reflexivity]. intros _. exists q. right.
      split; [reflexivity|]. intros H. apply range_of_field in H as [r H].
      congruence.
Qed.

(** A field is copied exactly when it is accepted. *)
Lemma collects_accepted formValues key :
  key ∈ field_names ->
  collects formValues key = true <->
  exists q, accepted_field formValues key q /\
            parse (formValues !! key) = Fin q.
Proof.
  intros Hk. unfold collects. cbv zeta.
  destruct (formValues !! key) as [s|] eqn:Hs.
  - destruct (String.eqb_spec s "") as [-> | Hne]; cbn [negb andb].
    + split; [discriminate|].
      intros (q & (s' & r & H & Hne & _) & _). rewrite Hs in H.
      injection H as <-. congruence.
    + pose proof (faulty_filled formValues key s Hs Hne) as Hf.
      unfold faulty in Hf. rewrite Hs in Hf. cbn [parse].
      destruct (String_parseFloat s) as [|q] eqn:Hq; cbn [Num.is_nan negb andb].
      * split; [discriminate|]. intros (q & _ & [=]).
      * rewrite negb_true_iff, Hf. split.
        -- intros (q' & [Ha | [_ Hn]]); [|contradiction].
           exists q. split; [|reflexivity].
           destruct Ha as (s' & r & H & H1 & H2 & H3 & H4).
           rewrite Hs in H. injection H as <-. rewrite Hq in H2.
           injection H2 as <-. exists s, r. auto.
        -- intros (q' & Ha & _). exists q'. left. exact Ha.
  - cbn. split; [discriminate|].
    intros (q & (s' & r & H & _) & _). rewrite Hs in H. discriminate.
Qed.

(** No required key is reported missing. *)
Lemma missingRequired_nil values key :
  missingRequired values = [] ->
  key ∈ ["ph"; "paco2"; "hco3"] ->
  exists v, values !! key = Some v.
Proof.
  intros Hm Hk. destruct (values !! key) as [v|] eqn:Hv; [eauto|].
  exfalso. assert (H : key ∈ missingRequired values).
  { unfold missingRequired. apply list_elem_of_filter. split; [|exact Hk].
    unfold prop. rewrite Hv. reflexivity. }
  rewrite Hm in H. apply elem_of_nil in H. exact H.
Qed.

(** What a call of [onAnalyze] says about the run of the loop. *)
Lemma handleSubmit_onAnalyze formValues errors values :
  handleSubmit formValues = (errors, onAnalyze values) ->
  errors = currentErrors (check_fields formValues) /\
  values = valuesToAnalyze (check_fields formValues) /\
  formIsValid (check_fields formValues) = true /\
  missingRequired values = [].
Proof.
  unfold handleSubmit. cbv zeta.
  destruct (formIsValid (check_fields formValues)); cbn [negb];
    [|intros [=]].
  destruct (missingRequired (valuesToAnalyze (check_fields formValues))) eqn:Hm;
    cbn [length Nat.ltb Nat.leb]; [|intros [=]].
  intros [= <- <-]. auto.
Qed.

(** The object passed to [onAnalyze] holds the accepted fields. *)
Lemma handleSubmit_lookup formValues errors values :
  handleSubmit formValues = (errors, onAnalyze values) ->
  forall key v, values !! key = Some v <->
                exists q, v = JNum (Fin q) /\ accepted_field formValues key q.
Proof.
  intros H. apply handleSubmit_onAnalyze in H as (_ & Hval & _ & _).
  destruct (check_fields_spec formValues) as (_ & H2 & _). cbv zeta in H2.
  intros key v. rewrite Hval, H2.
  destruct (bool_decide (key ∈ field_names)) eqn:Ek; cbn [andb].
  - apply bool_decide_eq_true in Ek.
    pose proof (collects_accepted formValues key Ek) as Hc.
    destruct (collects formValues key).
    + destruct (proj1 Hc eq_refl) as (q & Ha & Hq). rewrite Hq. split.
      * intros [= <-]. eauto.
      * intros (q' & -> & (s & r & Hs & _ & Hp & _)).
        rewrite Hs in Hq. cbn [parse] in Hq. congruence.
    + split; [discriminate|]. intros (q & -> & Ha).
      assert (false = true); [|discriminate].
      apply Hc. exists q. split; [exact Ha|].
      destruct Ha as (s & r & Hs & _ & Hp & _). rewrite Hs. exact Hp.
  - apply bool_decide_eq_false in Ek. split; [discriminate|].
    intros (q & _ & (s & r & _ & _ & _ & Hr & _)).
    exfalso. apply Ek, range_of_field. eauto.
Qed.

(** It holds the three required values, each within the range of its
    field. *)
Lemma handleSubmit_required formValues errors values :
  handleSubmit formValues = (errors, onAnalyze values) ->
  exists ph paco2 hco3,
    prop values "ph" = JNum (Fin ph) /\
    prop values "paco2" = JNum (Fin paco2) /\
    prop values "hco3" = JNum (Fin hco3) /\
    (6.0 <= ph <= 8.0)%Q /\ (10 <= paco2 <= 200)%Q /\ (2 <= hco3 <= 60)%Q.
Proof.
  intros H. pose proof (handleSubmit_lookup _ _ _ H) as Hlook.
  apply handleSubmit_onAnalyze in H as (_ & _ & _ & Hm).
  assert (Hreq : forall key r, key ∈ ["ph"; "paco2"; "hco3"] ->
            range_of physiologicalRanges key = Some r ->
            exists q, prop values key = JNum (Fin q) /\
                      (min r <= q <= max r)%Q).
  { intros key r Hk Hr.
    destruct (missingRequired_nil values key Hm Hk) as [v Hv].
    destruct (proj1 (Hlook key v) Hv) as (q & -> & (s & r' & _ & _ & _ & Hr' & Hb)).
    exists q. unfold prop. rewrite Hv. split; [reflexivity|]. congruence. }
  destruct (Hreq "ph" (mkRange 6.0 8.0)) as (ph & Hph & Bph);
    [repeat constructor | reflexivity |].
  destruct (Hreq "paco2" (mkRange 10 200)) as (paco2 & Hp & Bp);
    [repeat constructor | reflexivity |].
  destruct (Hreq "hco3" (mkRange 2 60)) as (hco3 & Hh & Bh);
    [repeat constructor | reflexivity |].
  exists ph, paco2, hco3. cbn [min max] in Bph, Bp, Bh.
  repeat split; first [assumption | apply Bph | apply Bp | apply Bh].
Qed.

(** X21.  When [handleSubmit] calls [onAnalyze], no field error is stored
    and the object it passes holds exactly the accepted fields: a property
    for each field whose text is not empty, parses to a number and lies
    within the range of the field, with that number as its value, and
    nothing else.  No filled field is dropped, and pH, PaCO2 and HCO3 are
    present, within 6.0-8.0, 10-200 and 2-60. *)
Theorem X21_handleSubmit_passes_accepted_fields formValues errors values :
  handleSubmit formValues = (errors, onAnalyze values) ->
  errors = ∅ /\
  (forall key v, values !! key = Some v <->
                 exists q, v = JNum (Fin q) /\ accepted_field formValues key q) /\
  (forall key s, key ∈ field_names -> formValues !! key = Some s -> s <> "" ->
                 exists q, accepted_field formValues key q) /\
  (exists ph paco2 hco3,
     prop values "ph" = JNum (Fin ph) /\
     prop values "paco2" = JNum (Fin paco2) /\
     prop values "hco3" = JNum (Fin hco3) /\
     (6.0 <= ph <= 8.0)%Q /\ (10 <= paco2 <= 200)%Q /\ (2 <= hco3 <= 60)%Q).
Proof.
  intros H.
  pose proof (handleSubmit_lookup _ _ _ H) as Hlook.
  pose proof (handleSubmit_required _ _ _ H) as Hreq.
  apply handleSubmit_onAnalyze in H as (-> & Hval & Hvalid & Hm).
  destruct (check_fields_spec formValues) as (H1 & _ & H3).
  cbv zeta in H1, H3.
  rewrite Hvalid in H1. symmetry in H1. rewrite forallb_forall in H1.
  assert (Hok : forall key, key ∈ field_names -> faulty formValues key = false).
  { intros key Hk. apply negb_true_iff, H1, list_elem_of_In, Hk. }
  split; [|split; [exact Hlook|split; [|exact Hreq]]].
  - apply map_eq. intros key. rewrite H3, lookup_empty.
    destruct (bool_decide (key ∈ field_names)) eqn:Ek; [|reflexivity].
    apply bool_decide_eq_true in Ek. rewrite (Hok key Ek). reflexivity.
  - intros key s Hk Hs Hne.
    destruct (proj1 (faulty_filled formValues key s Hs Hne) (Hok key Hk))
      as (q & [Ha | [_ Hn]]); [eauto | contradiction].
Qed.

Lemma forallb_false {A} (f : A -> bool) (l : list A) :
  forallb f l = false -> exists x, x ∈ l /\ f x = false.
Proof.
  induction l as [|a l IH]; cbn [forallb]; [discriminate|].
  destruct (f a) eqn:E; cbn [andb].
  - intros H. destruct (IH H) as (x & Hx & Hf). exists x.
    split; [right; exact Hx | exact Hf].
  - intros _. exists a. split; [left | exact E].
Qed.

(** A field flagged by [validateInput] is filled. *)
Lemma faulty_is_filled formValues key :
  faulty formValues key = true ->
  exists s, formValues !! key = Some s /\ s <> "".
Proof.
  unfold faulty, validateInput.
  destruct (formValues !! key) as [s|]; cbn [is_blank]; [|discriminate].
  destruct (String.eqb_spec s "") as [-> | Hne]; [discriminate|]. eauto.
Qed.

(** X22.  The three ways out of [handleSubmit].  It asks to correct the
    input exactly when some field is filled with a text that is not
    accepted (not a number, or a number outside the range of the field),
    whether the engine reads that field or not.  Otherwise it reports
    missing values exactly when one of pH, PaCO2 and HCO3 is left empty.
    Otherwise it calls [onAnalyze]. *)
Theorem X22_handleSubmit_outcome formValues :
  let filled key := exists s, formValues !! key = Some s /\ s <> "" in
  let accepted key := exists q, accepted_field formValues key q in
  let all_accepted := forall key, key ∈ field_names -> filled key -> accepted key in
  match snd (handleSubmit formValues) with
  | onError errorMessage =>
      (errorMessage = "Please correct the highlighted invalid input values." /\
       exists key, key ∈ field_names /\ filled key /\ ~ accepted key) \/
      (String.prefix "Analysis requires at least" errorMessage = true /\
       all_accepted /\
       exists key, key ∈ ["ph"; "paco2"; "hco3"] /\ ~ filled key)
  | onAnalyze values =>
      all_accepted /\
      forall key, key ∈ ["ph"; "paco2"; "hco3"] -> filled key
  end.
Proof.
  cbv zeta. unfold handleSubmit.
  generalize (check_fields_spec formValues).
  generalize (check_fields formValues). intros p (H1 & H2 & _).
  cbv zeta. cbn [snd].
  destruct (formIsValid p); cbn [negb]; symmetry in H1.
  - assert (Hok : forall key, key ∈ field_names -> faulty formValues key = false).
    { rewrite forallb_forall in H1. intros key Hk.
      apply negb_true_iff, H1, list_elem_of_In, Hk. }
    assert (Hall : forall key, key ∈ field_names ->
              (exists s, formValues !! key = Some s /\ s <> "") ->
              exists q, accepted_field formValues key q).
    { intros key Hk (s & Hs & Hne).
      destruct (proj1 (faulty_filled formValues key s Hs Hne) (Hok key Hk))
        as (q & [Ha | [_ Hn]]); [eauto | contradiction]. }
    destruct (missingRequired (valuesToAnalyze p))
      as [|k rest] eqn:Hm; cbn [length Nat.ltb Nat.leb].
    + split; [exact Hall|]. intros key Hk.
      destruct (missingRequired_nil _ key Hm Hk) as [v Hv].
      rewrite H2 in Hv.
      destruct (bool_decide (key ∈ field_names)) eqn:Ek; [|discriminate].
      apply bool_decide_eq_true in Ek. cbn [andb] in Hv.
      destruct (collects formValues key) eqn:Ec; [|discriminate].
      destruct (proj1 (collects_accepted formValues key Ek) Ec)
        as (q & (s & r & Hs & Hne & _) & _).
      eauto.
    + right. split; [vm_compute; reflexivity|]. split; [exact Hall|].
      assert (Hin : k ∈ missingRequired (valuesToAnalyze p))
        by (rewrite Hm; left).
      unfold missingRequired in Hin. apply list_elem_of_filter in Hin as [Hu Hk].
      exists k. split; [exact Hk|]. intros Hf.
      assert (Hn : k ∈ field_names).
      { unfold field_names. cbn [map fst physiologicalRanges].
        repeat (apply elem_of_cons in Hk as [-> | Hk];
                [repeat first [apply list_elem_of_here | apply list_elem_of_further]|]).
        apply elem_of_nil in Hk. contradiction. }
      destruct (Hall k Hn Hf) as [q Ha].
      assert (Hc : collects formValues k = true).
      { apply (collects_accepted formValues k Hn). exists q. split; [exact Ha|].
        destruct Ha as (s & r & Hs & _ & Hp & _). rewrite Hs. exact Hp. }
      unfold prop in Hu. rewrite H2, Hc in Hu.
      rewrite (bool_decide_eq_true_2 _ Hn) in Hu. discriminate.
  - left. split; [reflexivity|].
    destruct (forallb_false _ _ H1) as (key & Hk & Hf).
    apply negb_false_iff in Hf. exists key. split; [exact Hk|].
    destruct (faulty_is_filled _ _ Hf) as (s & Hs & Hne).
    split; [eauto|]. intros [q Ha].
    assert (faulty formValues key = false); [|congruence].
    apply (faulty_filled formValues key s Hs Hne). eauto.
Qed.

(** The engine's verdict on values that the form lets through: only the
    upper bound of PaCO2 is left to decide. *)
Lemma form_values_error values this ph paco2 hco3 :
  prop values "ph" = JNum (Fin ph) ->
  prop values "paco2" = JNum (Fin paco2) ->
  prop values "hco3" = JNum (Fin hco3) ->
  (6.0 <= ph <= 8.0)%Q -> (10 <= paco2)%Q -> (2 <= hco3 <= 60)%Q ->
  error (texts (fst (analyze values this)))
  = if Num.Qlt_bool 150 paco2 then Some (paco2_message paco2) else None.
Proof.
  intros Hph Hp Hh Bph Bp Bh.
  destruct (Num.Qlt_bool 150 paco2) eqn:E.
  - unfold analyze. rewrite bind_run.
    cbn [resetStateAndResults fst snd]. rewrite bind_run.
    rewrite (validateInputs_numbers _ _ _ _ _ Hph Hp Hh). cbv zeta.
    assert (E1 : Num.Qlt_bool ph 6.0 = false) by (apply Qlt_bool_false; lra).
    assert (E2 : Num.Qlt_bool 8.0 ph = false) by (apply Qlt_bool_false; lra).
    assert (E3 : Num.Qlt_bool paco2 10 = false) by (apply Qlt_bool_false; lra).
    rewrite E1, E2, E3, E. reflexivity.
  - q_reflect. apply analyze_error_None. exists ph, paco2, hco3.
    repeat split; first [assumption | lra].
Qed.

(** X23.  The form and the engine disagree on PaCO2 alone.  The values
    that [handleSubmit] passes on are analysed without error when PaCO2 is
    at most 150; a PaCO2 above 150 and up to 200, which the form accepts,
    is rejected by the engine with its PaCO2 range text.  No other engine
    error can follow a submission of the form. *)
Theorem X23_form_and_engine_ranges formValues errors values this :
  handleSubmit formValues = (errors, onAnalyze values) ->
  let err := error (texts (fst (analyze values this))) in
  exists paco2,
    prop values "paco2" = JNum (Fin paco2) /\ (10 <= paco2 <= 200)%Q /\
    ((paco2 <= 150)%Q -> err = None) /\
    ((150 < paco2)%Q -> err = Some (paco2_message paco2)).
Proof.
  intros H.
  destruct (handleSubmit_required _ _ _ H)
    as (ph & paco2 & hco3 & Hph & Hp & Hh & Bph & Bp & Bh).
  cbv zeta. exists paco2. split; [exact Hp|]. split; [exact Bp|].
  rewrite (form_values_error values this ph paco2 hco3) by (assumption || lra).
  destruct (Num.Qlt_bool 150 paco2) eqn:E; q_reflect;
    split; intros; first [reflexivity | exfalso; lra].
Qed.

(** X24.  From a submission of the manual form to the results column.
    Whatever the fields hold, the column ends up drawing exactly one child:
    the result display, for values that the form passed on and the engine
    analysed without error, or one error message, which is the form's
    request to correct the input, the form's list of missing values, or
    the engine's PaCO2 range text for a PaCO2 above 150 and up to 200. *)
Theorem X24_manual_submission_drawn formValues (a : App.State) abgAnalyzer :
  let call := snd (handleSubmit formValues) in
  let a' := fst (App.dispatch call a abgAnalyzer) in
  (exists values,
     call = onAnalyze values /\
     error (texts (fst (analyze values abgAnalyzer))) = None /\
     App.results_column a'
     = [App.ResultsDisplay (fst (analyze values abgAnalyzer), values)]) \/
  (exists msg,
     App.results_column a' = [App.ErrorMessage msg] /\
     (msg = "Please correct the highlighted invalid input values." \/
      String.prefix "Analysis requires at least" msg = true \/
      exists paco2, (150 < paco2 <= 200)%Q /\ msg = paco2_message paco2)).
Proof.
  cbv zeta.
  destruct (handleSubmit formValues) as [errors call] eqn:Hs. cbn [snd].
  destruct call as [msg | values]; cbn [App.dispatch].
  - right. exists msg.
    assert (Hmsg : msg = "Please correct the highlighted invalid input values." \/
                   String.prefix "Analysis requires at least" msg = true).
    { revert Hs. unfold handleSubmit.
      generalize (check_fields formValues). intros p. cbv zeta.
      destruct (formIsValid p); cbn [negb]; [|intros [= _ <-]; left; reflexivity].
      destruct (missingRequired (valuesToAnalyze p)) as [|k rest];
        cbn [length Nat.ltb Nat.leb]; [intros [=]|].
      intros [= _ <-]. right. vm_compute. reflexivity. }
    split; [|tauto].
    cbn [fst]. unfold App.handleError, App.setResults, App.setIsLoading, App.setError.
    cbn [App.activeTab App.results App.isLoading App.error App.isResetting].
    apply results_column_error.
    destruct Hmsg as [-> | Hp]; [reflexivity|].
    destruct msg; [discriminate | reflexivity].
  - destruct (handleSubmit_required _ _ _ Hs)
      as (ph & paco2 & hco3 & Hph & Hp & Hh & Bph & Bp & Bh).
    pose proof (form_values_error values abgAnalyzer ph paco2 hco3 Hph Hp Hh
                  Bph (proj1 Bp) Bh) as He.
    destruct (Num.Qlt_bool 150 paco2) eqn:E; q_reflect.
    + right.
      assert (Hn : ~ (exists ph paco2 hco3, valid_inputs values ph paco2 hco3)).
      { intros Hv. apply (analyze_error_None values abgAnalyzer) in Hv.
        congruence. }
      destruct (handleAnalysis_invalid values a abgAnalyzer Hn)
        as (msg & Ht & He' & ->).
      exists msg. split; [apply results_column_error, Ht|].
      right. right. exists paco2. split; [lra|]. congruence.
    + left. exists values. split; [reflexivity|]. split; [exact He|].
      assert (Hv : valid_inputs values ph paco2 hco3)
        by (repeat split; first [assumption | lra]).
      rewrite (handleAnalysis_valid _ a abgAnalyzer _ _ _ Hv). reflexivity.
Qed.

End ManualForm.

(* ------------------------------------------------------------------ *)
(** ** The OCR table of the upload component *)

Section OcrTable.
Context {rt : JSRuntime} {parser : StringParser}.
Import FileUpload.

Lemma kept_Some value v :
  kept value = Some v <-> exists q, value = Numeric (Fin q) /\ v = JNum (Fin q).
Proof.
  destruct value as [|[|q]]; cbn; split.
  - discriminate.
  - intros (q & [=] & _).
  - discriminate.
  - intros (q & [=] & _).
  - intros [= <-]. eauto.
  - intros (q' & [= <-] & ->). reflexivity.
Qed.

Lemma ocr_missingRequired_nil values key :
  missingRequired values = [] ->
  key ∈ ["ph"; "paco2"; "hco3"] ->
  exists v, values !! key = Some v.
Proof.
  intros Hm Hk. destruct (values !! key) as [v|] eqn:Hv; [eauto|].
  exfalso. assert (H : key ∈ missingRequired values).
  { unfold missingRequired. apply list_elem_of_filter. split; [|exact Hk].
    unfold prop. rewrite Hv. reflexivity. }
  rewrite Hm in H. apply elem_of_nil in H. exact H.
Qed.

(** What a call of [onAnalyze] says about the table. *)
Lemma handleProcessOcr_onAnalyze ocrResults values :
  handleProcessOcr ocrResults = onAnalyze values ->
  exists o, ocrResults = Some o /\ values = omap kept o /\
            missingRequired values = [].
Proof.
  unfold handleProcessOcr. destruct ocrResults as [o|]; [|discriminate].
  cbv zeta.
  destruct (missingRequired (omap kept o)) eqn:Hm;
    cbn [length Nat.ltb Nat.leb]; [|discriminate].
  intros [= <-]. eauto.
Qed.

(** X25.  When [handleProcessOcr] calls [onAnalyze], the object it passes
    holds exactly the cells of the table that are numbers, as they are;
    empty cells and NaN are left out, so that no property is [null] or NaN.
    pH, PaCO2 and HCO3 are present, and therefore the presence test of the
    engine cannot fail: an error of the analysis is never the "Missing or
    invalid required value" text. *)
Theorem X25_handleProcessOcr_passes_numbers ocrResults values :
  handleProcessOcr ocrResults = onAnalyze values ->
  exists o,
    ocrResults = Some o /\
    (forall key v, values !! key = Some v <->
                   exists q, o !! key = Some (Numeric (Fin q)) /\ v = JNum (Fin q)) /\
    (exists ph paco2 hco3,
       prop values "ph" = JNum (Fin ph) /\
       prop values "paco2" = JNum (Fin paco2) /\
       prop values "hco3" = JNum (Fin hco3)) /\
    (forall this msg,
       error (texts (fst (analyze values this))) = Some msg ->
       String.prefix "Missing or invalid" msg = false).
Proof.
  intros H. apply handleProcessOcr_onAnalyze in H as (o & -> & Hval & Hm).
  exists o. split; [reflexivity|].
  assert (Hlook : forall key v,
            values !! key = Some v <->
            exists q, o !! key = Some (Numeric (Fin q)) /\ v = JNum (Fin q)).
  { intros key v. rewrite Hval, lookup_omap.
    destruct (o !! key) as [c|]; cbn.
    - rewrite kept_Some. split.
      + intros (q & -> & ->). eauto.
      + intros (q & [= ->] & ->). eauto.
    - split; [discriminate|]. intros (q & [=] & _). }
  assert (Hreq : forall key, key ∈ ["ph"; "paco2"; "hco3"] ->
            exists q, prop values key = JNum (Fin q)).
  { intros key Hk. destruct (ocr_missingRequired_nil values key Hm Hk) as [v Hv].
    destruct (proj1 (Hlook key v) Hv) as (q & _ & ->).
    exists q. unfold prop. rewrite Hv. reflexivity. }
  destruct (Hreq "ph") as [ph Hph]; [repeat constructor|].
  destruct (Hreq "paco2") as [paco2 Hp]; [repeat constructor|].
  destruct (Hreq "hco3") as [hco3 Hh]; [repeat constructor|].
  split; [exact Hlook|]. split; [exists ph, paco2, hco3; auto|].
  intros this msg Herr.
  destruct (fst (validateInputs values (mkAnalyzer fresh_results fresh_state)))
    eqn:E.
  - assert (Hnone : error (texts (fst (analyze values this))) = None).
    { apply analyze_error_None. exact (validateInputs_true_inv _ _ E). }
    congruence.
  - rewrite (analyze_invalid _ _ E) in Herr. cbv zeta in Herr. revert E Herr.
    rewrite (validateInputs_numbers _ _ _ _ _ Hph Hp Hh). cbv zeta.
    repeat case_if; cbn [fst snd results texts error with_error];
      intros E; try discriminate E; intros [= <-]; vm_compute; reflexivity.
Qed.

(** X26.  An edit of a cell never stores NaN: [handleOcrValueChange]
    stores the empty string for an empty text and for a text that does not
    parse, and the parsed number otherwise, and leaves the other cells as
    they are.  Emptied or unparsable, a required cell makes the next
    [handleProcessOcr] report missing values instead of analysing; a
    numeral is passed to the analysis as the number it parses to. *)
Theorem X26_ocr_edit_then_process key value ocrResults :
  let edited := handleOcrValueChange key value ocrResults in
  (exists o', edited = Some o' /\
     o' !! key <> Some (Numeric NaN) /\
     forall k, k <> key -> o' !! k = default ∅ ocrResults !! k) /\
  (key ∈ ["ph"; "paco2"; "hco3"] ->
   value = "" \/ String_parseFloat value = NaN ->
   exists msg, handleProcessOcr edited = onError msg /\
               String.prefix "Analysis requires at least" msg = true) /\
  (forall q values,
     value <> "" -> String_parseFloat value = Fin q ->
     handleProcessOcr edited = onAnalyze values ->
     values !! key = Some (JNum (Fin q))).
Proof.
  cbv zeta. unfold handleOcrValueChange.
  set (cell := if cell_isNaN (if String.eqb value "" then Blank
                              else Numeric (String_parseFloat value))
               then Blank
               else if String.eqb value "" then Blank
                    else Numeric (String_parseFloat value)).
  assert (Hcell : (value = "" \/ String_parseFloat value = NaN -> cell = Blank) /\
                  (forall q, value <> "" -> String_parseFloat value = Fin q ->
                             cell = Numeric (Fin q))).
  { unfold cell. destruct (String.eqb_spec value "") as [-> | Hne].
    - split; [reflexivity|]. intros q Hq. contradiction.
    - destruct (String_parseFloat value) as [|q]; cbn.
      + split; [reflexivity|]. intros q _ [=].
      + split; [intros [H | [=]]; contradiction|]. intros q' _ [= ->]. reflexivity. }
  destruct Hcell as [Hblank Hnum].
  split; [|split].
  - eexists. split; [reflexivity|]. rewrite lookup_insert_eq. split.
    + unfold cell. destruct (String.eqb value ""); [discriminate|].
      destruct (String_parseFloat value); discriminate.
    + intros k Hk. apply lookup_insert_ne. congruence.
  - intros Hk Hv. rewrite (Hblank Hv). unfold handleProcessOcr. cbv zeta.
    set (values := omap kept (<[key := Blank]> (default ∅ ocrResults))).
    assert (Hin : key ∈ missingRequired values).
    { unfold missingRequired. apply list_elem_of_filter. split; [|exact Hk].
      unfold prop, values. rewrite lookup_omap, lookup_insert_eq. reflexivity. }
    destruct (missingRequired values) as [|k rest];
      [apply elem_of_nil in Hin; contradiction|].
    cbn [length Nat.ltb Nat.leb]. eexists. split; [reflexivity|].
    vm_compute. reflexivity.
  - intros q values Hne Hq. rewrite (Hnum q Hne Hq). intros H.
    apply handleProcessOcr_onAnalyze in H as (o & [= <-] & -> & _).
    rewrite lookup_omap, lookup_insert_eq. reflexivity.
Qed.

End OcrTable.

(* ------------------------------------------------------------------ *)
(** ** The later theorems on sample inputs *)

(** X17 on normal values: step 3 answers with the text of its third
    branch. *)
Lemma X17_fallback_texts_unreachable_witness :
  let values :=
    Sample.measurements [("ph", 7.40%Q); ("paco2", 40%Q); ("hco3", 24%Q)] in
  valid_inputs values 7.40 40 24 /\
  step3 (texts (fst (analyze (rt:=Sample.runtime) values Sample.new_analyzer)))
  <> "Normal acid-base status.".
Proof.
  intros values.
  assert (Hv : valid_inputs values 7.40 40 24).
  { repeat split; try (vm_compute; reflexivity); vm_compute; discriminate. }
  split; [exact Hv|].
  exact (proj1 (X17_fallback_texts_unreachable (rt:=Sample.runtime) values
                  Sample.new_analyzer 7.40 40 24 Hv)).
Defined.

(** X18 on a metabolic acidosis without electrolytes: step 6 is skipped. *)
Lemma X18_step6_text_witness :
  let values :=
    Sample.measurements [("ph", 7.25%Q); ("paco2", 30%Q); ("hco3", 13%Q)] in
  let r := fst (analyze (rt:=Sample.runtime) values Sample.new_analyzer) in
  valid_inputs values 7.25 30 13 /\
  step6 (texts r) = "Skipped: Anion gap calculation was skipped or failed.".
Proof.
  intros values r.
  assert (Hv : valid_inputs values 7.25 30 13).
  { repeat split; try (vm_compute; reflexivity); vm_compute; discriminate. }
  assert (Hpd : primaryDisorder (final_state r) = Some "metabolic acidosis")
    by (vm_compute; reflexivity).
  assert (Hc : correctedAnionGap (final_state r) = None)
    by (vm_compute; reflexivity).
  split; [exact Hv|].
  exact (proj1 (proj2 (X18_step6_text (rt:=Sample.runtime) values
                         Sample.new_analyzer 7.25 30 13 Hv) Hpd) Hc).
Defined.

(** X21 on a form with pH 7.32, PaCO2 180, HCO3 24.5 and K 4.1, the other
    fields empty or absent. *)
Lemma X21_handleSubmit_passes_accepted_fields_witness :
  let formValues :=
    SampleParser.form [("ph", "7.32"); ("paco2", "180"); ("hco3", "24.5");
                       ("na", ""); ("k", "4.1")] in
  let values :=
    Sample.measurements [("ph", (183 # 25)%Q); ("paco2", 180%Q);
                         ("hco3", (49 # 2)%Q); ("k", 4.1%Q)] in
  ManualInputForm.handleSubmit (rt:=Sample.runtime) (parser:=SampleParser.parser)
    formValues = (∅, onAnalyze values) /\
  exists ph paco2 hco3,
    prop values "ph" = JNum (Fin ph) /\
    prop values "paco2" = JNum (Fin paco2) /\
    prop values "hco3" = JNum (Fin hco3) /\
    (6.0 <= ph <= 8.0)%Q /\ (10 <= paco2 <= 200)%Q /\ (2 <= hco3 <= 60)%Q.
Proof.
  intros formValues values.
  assert (H : ManualInputForm.handleSubmit (rt:=Sample.runtime)
                (parser:=SampleParser.parser) formValues
              = (∅, onAnalyze values)) by (vm_compute; reflexivity).
  split; [exact H|].
  exact (proj2 (proj2 (proj2 (X21_handleSubmit_passes_accepted_fields
                                (rt:=Sample.runtime) (parser:=SampleParser.parser)
                                formValues ∅ values H)))).
Defined.

(** X23 on the same form: the PaCO2 of 180 passes the form and is rejected
    by the engine. *)
Lemma X23_form_and_engine_ranges_witness :
  let formValues :=
    SampleParser.form [("ph", "7.32"); ("paco2", "180"); ("hco3", "24.5");
                       ("na", ""); ("k", "4.1")] in
  let values :=
    Sample.measurements [("ph", (183 # 25)%Q); ("paco2", 180%Q);
                         ("hco3", (49 # 2)%Q); ("k", 4.1%Q)] in
  ManualInputForm.handleSubmit (rt:=Sample.runtime) (parser:=SampleParser.parser)
    formValues = (∅, onAnalyze values) /\
  exists paco2,
    prop values "paco2" = JNum (Fin paco2) /\ (10 <= paco2 <= 200)%Q /\
    ((paco2 <= 150)%Q ->
       error (texts (fst (analyze (rt:=Sample.runtime) values
                            Sample.new_analyzer))) = None) /\
    ((150 < paco2)%Q ->
       error (texts (fst (analyze (rt:=Sample.runtime) values
                            Sample.new_analyzer)))
       = Some (paco2_message (rt:=Sample.runtime) paco2)).
Proof.
  intros formValues values.
  assert (H : ManualInputForm.handleSubmit (rt:=Sample.runtime)
                (parser:=SampleParser.parser) formValues
              = (∅, onAnalyze values)) by (vm_compute; reflexivity).
  split; [exact H|].
  exact (X23_form_and_engine_ranges (rt:=Sample.runtime)
           (parser:=SampleParser.parser) formValues ∅ values
           Sample.new_analyzer H).
Defined.

(** X25 on a table with the three required numbers and an empty Na. *)
Lemma X25_handleProcessOcr_passes_numbers_witness :
  let table : gmap string FileUpload.Cell :=
    list_to_map [("ph", FileUpload.Numeric (Fin 7.32));
                 ("paco2", FileUpload.Numeric (Fin 40));
                 ("hco3", FileUpload.Numeric (Fin 24));
                 ("na", FileUpload.Blank)] in
  let values :=
    Sample.measurements [("ph", 7.32%Q); ("paco2", 40%Q); ("hco3", 24%Q)] in
  FileUpload.handleProcessOcr (Some table) = onAnalyze values /\
  exists ph paco2 hco3,
    prop values "ph" = JNum (Fin ph) /\
    prop values "paco2" = JNum (Fin paco2) /\
    prop values "hco3" = JNum (Fin hco3).
Proof.
  intros table values.
  assert (H : FileUpload.handleProcessOcr (Some table) = onAnalyze values)
    by (vm_compute; reflexivity).
  split; [exact H|].
  destruct (X25_handleProcessOcr_passes_numbers (rt:=Sample.runtime)
              (Some table) values H) as (o & _ & _ & Hreq & _).
  exact Hreq.
Defined.

(** X13 on pH 7.40, PaCO2 160, HCO3 24: the PaCO2 check stops the
    analysis. *)
Lemma validation_range_messages_witness :
  let values :=
    Sample.measurements [("ph", 7.40%Q); ("paco2", 160%Q); ("hco3", 24%Q)] in
  prop values "ph" = JNum (Fin 7.40) /\
  prop values "paco2" = JNum (Fin 160) /\
  prop values "hco3" = JNum (Fin 24) /\
  error (texts (fst (analyze (rt:=Sample.runtime) values Sample.new_analyzer)))
  = Some "PaCO₂ value (160) is outside typical physiological range (10-150 mmHg).".
Proof.
  intros values.
  assert (Hph : prop values "ph" = JNum (Fin 7.40)) by (vm_compute; reflexivity).
  assert (Hp : prop values "paco2" = JNum (Fin 160)) by (vm_compute; reflexivity).
  assert (Hh : prop values "hco3" = JNum (Fin 24)) by (vm_compute; reflexivity).
  split; [exact Hph|]. split; [exact Hp|]. split; [exact Hh|].
  assert (B1 : (6.0 <= 7.40 <= 8.0)%Q) by (split; vm_compute; discriminate).
  assert (B2 : ~ (10 <= 160 <= 150)%Q).
  { intros [_ H]. vm_compute in H. apply H. reflexivity. }
  exact (proj1 (proj2 (validation_range_messages (rt:=Sample.runtime) values
                         Sample.new_analyzer 7.40 160 24 Hph Hp Hh)) B1 B2).
Defined.

(** X14 on the empty measurement object. *)
Lemma analyze_invalid_result_witness :
  (~ exists ph paco2 hco3, valid_inputs ∅ ph paco2 hco3) /\
  final_state (fst (analyze (rt:=Sample.runtime) ∅ Sample.new_analyzer))
  = fresh_state.
Proof.
  assert (Hn : ~ exists ph paco2 hco3, valid_inputs ∅ ph paco2 hco3).
  { intros (ph & paco2 & hco3 & H & _). vm_compute in H. discriminate. }
  split; [exact Hn|].
  destruct (analyze_invalid_result (rt:=Sample.runtime) ∅ Sample.new_analyzer Hn)
    as (msg & _ & Hs).
  exact Hs.
Defined.

(* ------------------------------------------------------------------ *)
(** ** The category ['normal'] *)

Section NormalCategory.
Context {rt : JSRuntime}.

(** X27.  In a valid analysis filed under ['normal'] the final
    interpretation is "Normal acid-base status." whatever step 5 found: no
    compensation is assessed, no delta ratio is stored, and the list of
    additional disorders is empty or holds
    ['high anion gap metabolic acidosis'] alone, which it does exactly when
    the corrected gap is above 12.  A raised anion gap with normal pH,
    PaCO2 and HCO3 is thus kept in the state and in the text of step 5 but
    is not mentioned in the final interpretation. *)
Theorem X27_normal_category_interpretation values this ph paco2 hco3 :
  valid_inputs values ph paco2 hco3 ->
  let r := fst (analyze values this) in
  let st := final_state r in
  primaryDisorder st = Some "normal" ->
  finalInterpretation (texts r) = "Normal acid-base status." /\
  compensationAssessment st = None /\ deltaRatio st = None /\
  (additionalDisorders st = [] \/
   additionalDisorders st = ["high anion gap metabolic acidosis"]) /\
  (additionalDisorders st = ["high anion gap metabolic acidosis"] <->
   exists c, correctedAnionGap st = Some (Fin c) /\ (c > 12)%Q).
Proof.
  intros Hv. rewrite (analyze_valid _ _ _ _ _ Hv).
  cbn [fst texts final_state]. intros Hpd.
  split.
  { unfold final_results, final_text.
    cbn [finalInterpretation with_finalInterpretation].
    unfold generateFinalInterpretation. run_method. rewrite Hpd.
    reflexivity. }
  destruct (analysis_outcome _ _ _ _ Hv)
    as (L4 & O5 & O6 & P4 & P5 & _ & C6 & _).
  pose proof (final_compensation values) as Hc.
  rewrite Hpd in L4, P4, P5.
  assert (A4 : additionalDisorders (state_after_step4 values) = []).
  { destruct L4 as [E | [([[=] | [=]] & _) | ([[=] | [=]] & _)]]. exact E. }
  unfold step5_outcome, step6_outcome in O5, O6. cbv zeta in O5, O6.
  rewrite P4, A4 in O5. rewrite P5 in O6.
  destruct O6 as [(Hd & _ & A6 & _) | (c & [=] & _)].
  rewrite C6, A6.
  assert (Hca : compensationAssessment (state_after_step6 values) = None).
  { destruct (final_compensation values) as (_ & _ & ->).
    destruct (state_after_step3_shape values) as (status & pd & Hs3).
    pose proof (evaluateCompensation_fields (ToNumber (prop values "paco2"))
                  (ToNumber (prop values "hco3")) (state_after_step3 values))
      as H.
    rewrite Hs3 in H at 1 2 3. specialize (H eq_refl eq_refl eq_refl).
    cbv zeta in H. fold (state_after_step4 values) in H.
    destruct H as (_ & H2 & _).
    apply H2. rewrite <- (final_primaryDisorder values), Hpd.
    intros (p & [= <-] & Hpure). unfold pure_disorder in Hpure.
    repeat (destruct Hpure as [Hpure | Hpure]; [discriminate|]).
    discriminate. }
  split; [exact Hca|]. split; [exact Hd|].
  destruct O5 as [(_ & Hc5 & -> & _) | (na & cl & c & _ & _ & Hc5 & _ & Hpush)];
    rewrite Hc5.
  - split; [left; reflexivity|].
    split; [discriminate | intros (c & [=] & _)].
  - destruct Hpush as [(Hgt & _ & _ & ->) | (Hcond & ->)]; cbn [app].
    + split; [right; reflexivity|]. split; [|reflexivity].
      intros _. exists c. split; [reflexivity | exact Hgt].
    + split; [left; reflexivity|]. split; [discriminate|].
      intros (c' & [= <-] & Hgt).
      destruct Hcond as [Hle | [[=] | Hin]]; [lra|].
      apply elem_of_nil in Hin. contradiction.
Qed.

End NormalCategory.

(** X27 on normal pH, PaCO2 and HCO3 with Na 145 and Cl 100: the gap of 21
    is recorded and the final interpretation is silent about it. *)
Lemma X27_normal_category_interpretation_witness :
  let values :=
    Sample.measurements [("ph", 7.40%Q); ("paco2", 40%Q); ("hco3", 24%Q);
                         ("na", 145%Q); ("cl", 100%Q)] in
  let r := fst (analyze (rt:=Sample.runtime) values Sample.new_analyzer) in
  valid_inputs values 7.40 40 24 /\
  primaryDisorder (final_state r) = Some "normal" /\
  additionalDisorders (final_state r) = ["high anion gap metabolic acidosis"] /\
  finalInterpretation (texts r) = "Normal acid-base status.".
Proof.
  intros values r.
  assert (Hv : valid_inputs values 7.40 40 24).
  { repeat split; try (vm_compute; reflexivity); vm_compute; discriminate. }
  assert (Hpd : primaryDisorder (final_state r) = Some "normal")
    by (vm_compute; reflexivity).
  split; [exact Hv|]. split; [exact Hpd|].
  split; [vm_compute; reflexivity|].
  exact (proj1 (X27_normal_category_interpretation (rt:=Sample.runtime) values
                  Sample.new_analyzer 7.40 40 24 Hv Hpd)).
Defined.

(* ------------------------------------------------------------------ *)
(** ** Validation while typing and validation on submit *)

Section LiveValidation.
Context {rt : JSRuntime} {parser : StringParser}.
Import ManualInputForm.

Lemma initialFormState_lookup key :
  key ∈ field_names -> initialFormState !! key = Some "".
Proof.
  unfold field_names. cbn [map fst physiologicalRanges]. intros H.
  repeat (apply elem_of_cons in H as [-> | H]; [vm_compute; reflexivity|]).
  apply elem_of_nil in H. contradiction.
Qed.

(** What the two pieces of state hold for a field after any typing. *)
Lemma typed_invariant events key :
  key ∈ field_names ->
  exists s,
    fst (typed events) !! key = Some s /\
    ((snd (typed events) !! key = None /\ s = "") \/
     snd (typed events) !! key = Some (validateInput key (Some s))).
Proof.
  intros Hk. unfold typed.
  assert (H0 : exists s,
            fst (initialFormState, (∅ : gmap string string)) !! key = Some s /\
            ((snd (initialFormState, (∅ : gmap string string)) !! key = None
              /\ s = "") \/
             snd (initialFormState, (∅ : gmap string string)) !! key
             = Some (validateInput key (Some s)))).
  { exists "". cbn [fst snd]. split; [apply initialFormState_lookup, Hk|].
    left. split; [apply lookup_empty | reflexivity]. }
  revert H0. generalize (initialFormState, (∅ : gmap string string)).
  induction events as [|[name value] events IH]; intros form H0; cbn [fold_left].
  - exact H0.
  - apply IH. destruct form as [formValues errors]. cbn [fst snd handleChange] in *.
    destruct (String.eqb_spec name key) as [-> | Hne].
    + exists value. rewrite !lookup_insert_eq. split; [reflexivity|]. right.
      reflexivity.
    + rewrite !lookup_insert_ne by exact Hne. exact H0.
Qed.

(** X28.  After any sequence of change events from the first render (or
    from a cleared form), every field holds a string, never [undefined],
    and the error shown under a field is the error that a submission
    would record for it: [handleSubmit] stores an error for a field
    exactly when the field shows one, with the same text. *)
Theorem X28_live_errors_agree_with_submit (events : list (string * string)) key :
  let formValues := fst (typed events) in
  let errors := snd (typed events) in
  handleClearForm = typed [] /\
  (key ∈ field_names ->
   (exists s, formValues !! key = Some s) /\
   forall e, (errors !! key = Some e /\ e <> "") <->
             fst (handleSubmit formValues) !! key = Some e).
Proof.
  cbv zeta. split; [reflexivity|]. intros Hk.
  destruct (typed_invariant events key Hk) as (s & Hs & He).
  split; [eauto|]. intros e.
  unfold handleSubmit.
  generalize (check_fields_spec (fst (typed events))).
  generalize (check_fields (fst (typed events))). intros p (_ & _ & H3).
  cbv zeta. cbn [fst]. rewrite H3.
  rewrite (bool_decide_eq_true_2 _ Hk). cbn [andb].
  unfold faulty. rewrite Hs.
  destruct He as [[He ->] | He]; rewrite He.
  - cbn. split; [intros [[=] _] | discriminate].
  - destruct (validateInput key (Some s)) as [|c t] eqn:Ev; cbn.
    + split; [intros [[= <-] Hne]; contradiction | discriminate].
    + split; [intros [[= <-] _]; reflexivity | intros [= <-]].
      split; [reflexivity | discriminate].
Qed.

End LiveValidation.

(* ------------------------------------------------------------------ *)
(** ** Comparisons on binary64 numbers *)

Lemma SFcompare_antisym (a b : Binary64.number) :
  SpecFloat.SFcompare b a = option_map CompOpp (SpecFloat.SFcompare a b).
Proof.
  destruct a as [sa|sa| |sa ma ea], b as [sb|sb| |sb mb eb];
    try reflexivity;
    try (destruct sa; reflexivity); try (destruct sb; reflexivity);
    try (destruct sa, sb; reflexivity).
  cbn [SpecFloat.SFcompare option_map].
  destruct sa, sb; try reflexivity;
    rewrite (Z.compare_antisym ea eb);
    destruct (ea ?= eb)%Z; cbn [CompOpp]; try reflexivity;
    pose proof (Pos.compare_antisym ma mb) as H; unfold Pos.compare in H;
    rewrite H; destruct (Pos.compare_cont Eq ma mb); reflexivity.
Qed.

(** [a <= b] excludes [b < a]. *)
Lemma b64_le_not_gt (a b : Binary64.number) :
  (a <=? b)%ieee = true -> (b <? a)%ieee = false.
Proof.
  unfold Binary64.le, Binary64.lt, SpecFloat.SFleb, SpecFloat.SFltb.
  rewrite (SFcompare_antisym a b).
  destruct (SpecFloat.SFcompare a b) as [[| |]|]; cbn; congruence.
Qed.

(** [a < b] excludes [b <= a]. *)
Lemma b64_lt_not_ge (a b : Binary64.number) :
  (a <? b)%ieee = true -> (b <=? a)%ieee = false.
Proof.
  unfold Binary64.le, Binary64.lt, SpecFloat.SFleb, SpecFloat.SFltb.
  rewrite (SFcompare_antisym a b).
  destruct (SpecFloat.SFcompare a b) as [[| |]|]; cbn; congruence.
Qed.

(** A comparison that holds has numbers on both sides. *)
Lemma b64_le_numbers (a b : Binary64.number) :
  (a <=? b)%ieee = true -> Binary64.is_nan a = false /\ Binary64.is_nan b = false.
Proof.
  destruct a, b; cbn; try discriminate; intros _; split; reflexivity.
Qed.

(** Between numbers, [a <= b] fails exactly when [b < a]. *)
Lemma b64_not_le_gt (a b : Binary64.number) :
  Binary64.is_nan a = false -> Binary64.is_nan b = false ->
  (a <=? b)%ieee = false -> (b <? a)%ieee = true.
Proof.
  unfold Binary64.le, Binary64.lt, SpecFloat.SFleb, SpecFloat.SFltb.
  rewrite (SFcompare_antisym a b).
  destruct a, b; cbn; try discriminate; intros _ _;
  match goal with
  | |- context [match ?c with _ => _ end] => destruct c
  end; cbn; congruence.
Qed.

(** A number of 2 or more is not zero. *)
Lemma b64_two_not_zero (x : Binary64.number) :
  (IEEE.lit 2 <=? x)%ieee = true -> (x === IEEE.lit 0)%ieee = false.
Proof.
  assert (H0 : IEEE.lit 0 = SpecFloat.S754_zero false) by (vm_compute; reflexivity).
  assert (H2 : IEEE.lit 2 = SpecFloat.S754_finite false 4503599627370496 (-51))
    by (vm_compute; reflexivity).
  rewrite H0, H2.
  destruct x as [s|s| |s m e]; try (destruct s); cbn; try discriminate; reflexivity.
Qed.

(* ------------------------------------------------------------------ *)
(** ** The binary64 engine, stage by stage

    The lemmas on the course of an analysis, for the engine of
    [Module IEEE]. *)

Lemma bind_run64 {A B} (m : IEEE.Method A) (k : A -> IEEE.Method B) this :
  IEEE.bind m k this = k (fst (m this)) (snd (m this)).
Proof. unfold IEEE.bind. destruct (m this). reflexivity. Qed.

#[export] Instance StateOnly64_ret {A} (a : A) : IEEE.StateOnly (IEEE.ret a).
Proof. intros [R s]. reflexivity. Qed.

#[export] Instance StateOnly64_get_state : IEEE.StateOnly IEEE.get_state.
Proof. intros [R s]. reflexivity. Qed.

#[export] Instance StateOnly64_set_state f : IEEE.StateOnly (IEEE.set_state f).
Proof. intros [R s]. reflexivity. Qed.

#[export] Instance StateOnly64_push x : IEEE.StateOnly (IEEE.push_additional x).
Proof. intros [R s]. reflexivity. Qed.

#[export] Instance StateOnly64_bind {A B} (m : IEEE.Method A)
    (k : A -> IEEE.Method B) :
  IEEE.StateOnly m -> (forall a, IEEE.StateOnly (k a)) ->
  IEEE.StateOnly (IEEE.bind m k).
Proof.
  intros Hm Hk [R s]. cbn [IEEE.state IEEE.results].
  assert (Hexec : IEEE.exec (IEEE.bind m k) s
                  = IEEE.exec (k (fst (IEEE.exec m s))) (snd (IEEE.exec m s))).
  { unfold IEEE.exec at 1.
    rewrite bind_run64, (Hm (IEEE.mkAnalyzer fresh_results s)).
    reflexivity. }
  rewrite Hexec, bind_run64, (Hm (IEEE.mkAnalyzer R s)).
  cbn [fst snd IEEE.state IEEE.results].
  apply (Hk _ (IEEE.mkAnalyzer R _)).
Qed.

#[export] Instance StateOnly64_if {A} (b : bool) (m1 m2 : IEEE.Method A) :
  IEEE.StateOnly m1 -> IEEE.StateOnly m2 ->
  IEEE.StateOnly (if b then m1 else m2).
Proof. destruct b; auto. Qed.

(** Runs the monadic plumbing of a method, then splits on its tests; the
    arithmetic stays folded. *)
Ltac run_method64 :=
  cbv [IEEE.bind IEEE.ret IEEE.get_state IEEE.get_results IEEE.set_state
       IEEE.set_results IEEE.push_additional];
  cbn -[String.append includes].
Ltac run_stage64 := repeat (run_method64; try case_if).

Section Stages64.
Import IEEE.
Context {rt : JSRuntime}.

#[export] Instance StateOnly64_checkInternalConsistency ph paco2 hco3 :
  StateOnly (checkInternalConsistency ph paco2 hco3).
Proof. unfold checkInternalConsistency. cbv zeta. apply _. Qed.

#[export] Instance StateOnly64_determineAcidemiaAlkalemia ph :
  StateOnly (determineAcidemiaAlkalemia ph).
Proof. unfold determineAcidemiaAlkalemia. apply _. Qed.

#[export] Instance StateOnly64_identifyPrimaryDisorder ph paco2 hco3 :
  StateOnly (identifyPrimaryDisorder ph paco2 hco3).
Proof. unfold identifyPrimaryDisorder. cbv zeta. apply _. Qed.

#[export] Instance StateOnly64_assess m r below above :
  StateOnly (assess m r below above).
Proof. unfold assess. cbv zeta. apply _. Qed.

#[export] Instance StateOnly64_choose m a c r :
  StateOnly (choose_acute_chronic m a c r).
Proof. unfold choose_acute_chronic. apply _. Qed.

#[export] Instance StateOnly64_evaluateCompensation paco2 hco3 :
  StateOnly (evaluateCompensation paco2 hco3).
Proof. unfold evaluateCompensation. cbv zeta. apply _. Qed.

#[export] Instance StateOnly64_calculateAnionGap na cl hco3 albumin :
  StateOnly (calculateAnionGap na cl hco3 albumin).
Proof. unfold calculateAnionGap. cbv zeta. apply _. Qed.

#[export] Instance StateOnly64_evaluateDeltaRatio ag hco3 albumin :
  StateOnly (evaluateDeltaRatio ag hco3 albumin).
Proof. unfold evaluateDeltaRatio. cbv zeta. apply _. Qed.

End Stages64.

Section Trace64.
Import IEEE.
Context {rt : JSRuntime}.
Variable values : gmap string jsval.

Let ph := ToNumber (prop values "ph").
Let paco2 := ToNumber (prop values "paco2").
Let hco3 := ToNumber (prop values "hco3").

Lemma stage_run64 {A B} (m : Method A) `{!StateOnly m}
    (f : A -> Results -> Results) (k : Method B) R s :
  bind m (fun t => bind (set_results (f t)) (fun _ => k)) (mkAnalyzer R s)
  = k (mkAnalyzer (f (text m s) R) (post m s)).
Proof.
  rewrite bind_run64, (state_only (mkAnalyzer R s)). cbn [fst snd state results].
  rewrite bind_run64. reflexivity.
Qed.

Lemma analyze_step5_run64 R s :
  analyze_step5 values (mkAnalyzer R s)
  = (tt, mkAnalyzer (with_step5 (step5_text values s) R)
                    (post (analyze_step5 values) s)).
Proof.
  unfold step5_text, post, exec, analyze_step5.
  destruct (negb (is_undefined (prop values "na")) &&
            negb (is_undefined (prop values "cl")) &&
            negb (is_undefined (prop values "hco3"))).
  - rewrite !bind_run64, (state_only (mkAnalyzer R s)),
      (state_only (mkAnalyzer fresh_results s)). reflexivity.
  - reflexivity.
Qed.

Lemma analyze_step6_run64 R s :
  analyze_step6 values (mkAnalyzer R s)
  = (tt, mkAnalyzer (with_step6 (step6_text values s) R)
                    (post (analyze_step6 values) s)).
Proof.
  unfold step6_text, post, exec, analyze_step6.
  rewrite !bind_run64. cbn [get_state fst snd state results].
  destruct (nullish (correctedAnionGap s) (anionGap s)) as [ag|].
  - destruct ((ag >? lit 12)%ieee && is_str (primaryDisorder s) "metabolic acidosis").
    + rewrite !bind_run64, (state_only (mkAnalyzer R s)),
        (state_only (mkAnalyzer fresh_results s)). reflexivity.
    + destruct ((ag <=? lit 12)%ieee && is_str (primaryDisorder s) "metabolic acidosis");
        [reflexivity|].
      destruct (negb (is_str (primaryDisorder s) "metabolic acidosis")); reflexivity.
  - destruct (negb (is_str (primaryDisorder s) "metabolic acidosis")); reflexivity.
Qed.

Lemma generateFinalInterpretation_run64 this :
  snd (generateFinalInterpretation this) = this.
Proof.
  unfold generateFinalInterpretation. rewrite !bind_run64.
  cbn [get_state get_results fst snd]. cbv zeta.
  repeat match goal with
  | |- context [if ?c then _ else _] => destruct c
  end; reflexivity.
Qed.

Lemma checkInternalConsistency_post64 a b c s :
  post (checkInternalConsistency a b c) s = s.
Proof.
  unfold post, exec, checkInternalConsistency. cbv zeta.
  repeat match goal with
  | |- context [if ?c then _ else _] => destruct c
  end; reflexivity.
Qed.

(** The six steps, run on a fresh analyzer. *)
Lemma six_step_analysis_run64 :
  six_step_analysis values (mkAnalyzer fresh_results fresh_state)
  = (tt, mkAnalyzer (final_results values) (state_after_step6 values)).
Proof.
  unfold six_step_analysis. cbv zeta. fold ph paco2 hco3.
  rewrite !stage_run64 by apply _. rewrite checkInternalConsistency_post64.
  rewrite bind_run64, analyze_step5_run64. cbn [fst snd].
  rewrite bind_run64, analyze_step6_run64. cbn [fst snd].
  rewrite bind_run64.
  pose proof (generateFinalInterpretation_run64
                (mkAnalyzer (results_after_step6 values)
                            (state_after_step6 values))) as Hfin.
  unfold final_results, final_text.
  change (post (determineAcidemiaAlkalemia ph) fresh_state)
    with (state_after_step2 values).
  change (post (identifyPrimaryDisorder ph paco2 hco3) (state_after_step2 values))
    with (state_after_step3 values).
  change (post (evaluateCompensation paco2 hco3) (state_after_step3 values))
    with (state_after_step4 values).
  change (post (analyze_step5 values) (state_after_step4 values))
    with (state_after_step5 values).
  change (post (analyze_step6 values) (state_after_step5 values))
    with (state_after_step6 values).
  change (with_step6 (step6_text values (state_after_step5 values)) _)
    with (results_after_step6 values).
  destruct (generateFinalInterpretation
              (mkAnalyzer (results_after_step6 values)
                          (state_after_step6 values))) as [tf this'].
  cbn [fst snd] in *. subst this'. reflexivity.
Qed.

End Trace64.

Section Analyze64.
Import IEEE.
Context {rt : JSRuntime}.

(** Required values within the bounds pass validation. *)
Lemma validateInputs_valid64 values ph paco2 hco3 this :
  valid_inputs values ph paco2 hco3 ->
  validateInputs values this = (true, this).
Proof.
  intros (Hph & Hp & Hh & [R1 R2] & [R3 R4] & [R5 R6]).
  pose proof (b64_le_numbers _ _ R1) as [_ N1].
  pose proof (b64_le_numbers _ _ R3) as [_ N2].
  pose proof (b64_le_numbers _ _ R5) as [_ N3].
  unfold validateInputs, first_invalid, isNaN. rewrite Hph, Hp, Hh.
  cbn [is_undefined is_null ToNumber orb]. rewrite N1, N2, N3.
  unfold Binary64.gt.
  rewrite (b64_le_not_gt _ _ R1), (b64_le_not_gt _ _ R2),
    (b64_le_not_gt _ _ R3), (b64_le_not_gt _ _ R4),
    (b64_le_not_gt _ _ R5), (b64_le_not_gt _ _ R6).
  reflexivity.
Qed.

(** With valid required values, [analyze] is the six steps on a fresh object. *)
Lemma analyze_valid64 values this ph paco2 hco3 :
  valid_inputs values ph paco2 hco3 ->
  analyze values this
  = (mkAnalysisResult (final_results values) (state_after_step6 values),
     mkAnalyzer (final_results values) (state_after_step6 values)).
Proof.
  intros Hv. unfold analyze. rewrite bind_run64. cbn [resetStateAndResults fst snd].
  rewrite bind_run64, (validateInputs_valid64 _ _ _ _ _ Hv). cbn [fst snd negb].
  rewrite bind_run64, six_step_analysis_run64. reflexivity.
Qed.

End Analyze64.

Section Frames64.
Import IEEE.
Context {rt : JSRuntime}.

Lemma identifyPrimaryDisorder_frame64 ph paco2 hco3 s :
  exists pd, post (identifyPrimaryDisorder ph paco2 hco3) s
             = with_primaryDisorder (Some pd) s.
Proof.
  unfold post, exec, identifyPrimaryDisorder. rewrite bind_run64.
  cbn [get_state fst snd state]. cbv zeta.
  repeat case_if; eexists; reflexivity.
Qed.

Lemma determineAcidemiaAlkalemia_frame64 ph s :
  exists status, post (determineAcidemiaAlkalemia ph) s
                 = with_acidBaseStatus (Some status) s.
Proof.
  unfold post, exec, determineAcidemiaAlkalemia.
  repeat case_if; eexists; reflexivity.
Qed.

Lemma evaluateCompensation_frame64 paco2 hco3 s :
  primaryDisorder (post (evaluateCompensation paco2 hco3) s) = primaryDisorder s.
Proof.
  destruct s as [abs pd ct ecv ca ad ag cag dr dra].
  unfold post, exec, evaluateCompensation, assess, choose_acute_chronic.
  run_stage64; reflexivity.
Qed.

(** Steps 5 and 6 keep what steps 3 and 4 stored and only extend the list
    of additional disorders. *)
Lemma analyze_step5_frame64 values s :
  let s' := post (analyze_step5 values) s in
  primaryDisorder s' = primaryDisorder s /\
  compensationType s' = compensationType s /\
  expectedCompensationValue s' = expectedCompensationValue s /\
  compensationAssessment s' = compensationAssessment s /\
  exists more, additionalDisorders s' = additionalDisorders s ++ more.
Proof.
  destruct s as [abs pd ct ecv ca ad ag cag dr dra].
  unfold post, exec, analyze_step5, calculateAnionGap.
  run_stage64; repeat split; try reflexivity;
    first [exists []; cbn [additionalDisorders]; rewrite app_nil_r; reflexivity
          | eexists; reflexivity].
Qed.

Lemma analyze_step6_frame64 values s :
  let s' := post (analyze_step6 values) s in
  primaryDisorder s' = primaryDisorder s /\
  compensationType s' = compensationType s /\
  expectedCompensationValue s' = expectedCompensationValue s /\
  compensationAssessment s' = compensationAssessment s /\
  exists more, additionalDisorders s' = additionalDisorders s ++ more.
Proof.
  destruct s as [abs pd ct ecv ca ad ag cag dr dra].
  unfold post, exec, analyze_step6, evaluateDeltaRatio.
  run_method64.
  destruct (nullish cag ag) as [x|];
  run_stage64; repeat split; try reflexivity;
    first [exists []; cbn [additionalDisorders]; rewrite app_nil_r; reflexivity
          | eexists; reflexivity].
Qed.

(** What the returned state holds of steps 3 and 4. *)
Lemma final_state64 values :
  primaryDisorder (state_after_step6 values)
  = primaryDisorder (state_after_step3 values) /\
  compensationType (state_after_step6 values)
  = compensationType (state_after_step4 values) /\
  expectedCompensationValue (state_after_step6 values)
  = expectedCompensationValue (state_after_step4 values) /\
  compensationAssessment (state_after_step6 values)
  = compensationAssessment (state_after_step4 values) /\
  exists more,
    additionalDisorders (state_after_step6 values)
    = additionalDisorders (state_after_step4 values) ++ more.
Proof.
  unfold state_after_step6, state_after_step5.
  pose proof (analyze_step6_frame64 values
                (post (analyze_step5 values) (state_after_step4 values)))
    as (P6 & T6 & E6 & A6 & m6 & L6).
  pose proof (analyze_step5_frame64 values (state_after_step4 values))
    as (P5 & T5 & E5 & A5 & m5 & L5).
  split.
  { rewrite P6, P5. unfold state_after_step4.
    apply evaluateCompensation_frame64. }
  split; [congruence|]. split; [congruence|]. split; [congruence|].
  exists (m5 ++ m6). rewrite L6, L5, app_assoc. reflexivity.
Qed.

(** Steps 2 and 3 leave the list of additional disorders empty. *)
Lemma state_after_step3_additional64 values :
  additionalDisorders (state_after_step3 values) = [].
Proof.
  unfold state_after_step3, state_after_step2.
  destruct (identifyPrimaryDisorder_frame64
              (ToNumber (prop values "ph")) (ToNumber (prop values "paco2"))
              (ToNumber (prop values "hco3"))
              (post (determineAcidemiaAlkalemia (ToNumber (prop values "ph")))
                    fresh_state)) as [pd ->].
  destruct (determineAcidemiaAlkalemia_frame64
              (ToNumber (prop values "ph")) fresh_state) as [st ->].
  reflexivity.
Qed.

End Frames64.

(* ------------------------------------------------------------------ *)
(** ** Step 4 on binary64 numbers *)

Section Compensation64.
Import IEEE.
Context {rt : JSRuntime}.

Ltac finish_assess64 :=
  unfold assessed;
  cbn [measured tolerance label_below label_above is_metabolic
       String.eqb Ascii.eqb Bool.eqb orb
       compensationAssessment additionalDisorders];
  repeat split; intros; try reflexivity; congruence.

(** Metabolic acidosis: Winter's formula, tolerance 2. *)
Lemma evaluateCompensation_metabolic_acidosis64 paco2 hco3 s :
  primaryDisorder s = Some "metabolic acidosis" ->
  let e := (lit 1.5 * hco3 + lit 8)%ieee in
  let s' := post (evaluateCompensation paco2 hco3) s in
  expectedCompensationValue s' = Some e /\
  compensationType s' = compensationType s /\
  assessed "metabolic acidosis" paco2 hco3 e s s'.
Proof.
  destruct s as [abs pd ct ecv ca ad ag cag dr dra]. cbn [primaryDisorder].
  intros ->. unfold post, exec, evaluateCompensation, assess.
  run_stage64; (split; [reflexivity|]); (split; [reflexivity|]); finish_assess64.
Qed.

(** Metabolic alkalosis: 40 + 0.6 (HCO3 - 24), tolerance 5. *)
Lemma evaluateCompensation_metabolic_alkalosis64 paco2 hco3 s :
  primaryDisorder s = Some "metabolic alkalosis" ->
  let e := (lit 40 + lit 0.6 * (hco3 - lit 24))%ieee in
  let s' := post (evaluateCompensation paco2 hco3) s in
  expectedCompensationValue s' = Some e /\
  compensationType s' = compensationType s /\
  assessed "metabolic alkalosis" paco2 hco3 e s s'.
Proof.
  destruct s as [abs pd ct ecv ca ad ag cag dr dra]. cbn [primaryDisorder].
  intros ->. unfold post, exec, evaluateCompensation, assess.
  run_stage64; (split; [reflexivity|]); (split; [reflexivity|]); finish_assess64.
Qed.

(** The respiratory disorders: the acute expectation when the measured HCO3
    is found strictly nearer to it than to the chronic one, the chronic
    expectation in every other case; tolerance 3. *)
Lemma evaluateCompensation_respiratory64 primary paco2 hco3 s :
  primary = "respiratory acidosis" \/ primary = "respiratory alkalosis" ->
  primaryDisorder s = Some primary ->
  let acute := (lit 24 + (paco2 - lit 40) * slope_acute primary)%ieee in
  let chronic := (lit 24 + (paco2 - lit 40) * slope_chronic primary)%ieee in
  let nearer_acute :=
    (Binary64.abs (hco3 - acute) <? Binary64.abs (hco3 - chronic))%ieee in
  let s' := post (evaluateCompensation paco2 hco3) s in
  exists e,
    expectedCompensationValue s' = Some e /\
    (nearer_acute = true -> e = acute /\ compensationType s' = Some "acute") /\
    (nearer_acute = false -> e = chronic /\ compensationType s' = Some "chronic") /\
    assessed primary paco2 hco3 e s s'.
Proof.
  destruct s as [abs pd ct ecv ca ad ag cag dr dra]. cbn [primaryDisorder].
  intros [-> | ->] ->;
    unfold post, exec, evaluateCompensation, assess, choose_acute_chronic,
      slope_acute, slope_chronic;
    run_stage64; eexists; (split; [reflexivity|]);
    (split; [intros; try (split; reflexivity); congruence|]);
    (split; [intros; try (split; reflexivity); congruence|]);
    finish_assess64.
Qed.

End Compensation64.

Section CompensationClaims64.
Import IEEE.
Context {rt : JSRuntime}.

Lemma assessed_appropriate64 primary paco2 hco3 e s s' :
  assessed primary paco2 hco3 e s s' ->
  (compensationAssessment s' = Some "appropriate" <->
   (Binary64.abs (measured primary paco2 hco3 - e) <=? tolerance primary)%ieee
   = true) /\
  (compensationAssessment s' = Some "mixed" <->
   (Binary64.abs (measured primary paco2 hco3 - e) <=? tolerance primary)%ieee
   = false).
Proof.
  intros (Hin & Hlow & Hhigh). cbv zeta in *.
  destruct (Binary64.abs (measured primary paco2 hco3 - e) <=? tolerance primary)%ieee.
  - destruct (Hin eq_refl) as [-> _]. split; split; congruence.
  - destruct (measured primary paco2 hco3 <? e - tolerance primary)%ieee.
    + destruct (Hlow eq_refl eq_refl) as [-> _]. split; split; congruence.
    + destruct (Hhigh eq_refl eq_refl) as [-> _]. split; split; congruence.
Qed.

(** C2, as the code has it, in the arithmetic of the code.  For each of
    the four pure primary disorders, step 4 stores an expected value [e] and
    tests the band first: when the distance |measured - e|, as computed,
    is at most the tolerance, the assessment is ['appropriate'] and nothing
    is appended; otherwise the assessment is ['mixed'] and one label is
    appended, the lower one when the measured value is below the computed
    bound e - tolerance and the upper one in every other case.  For the two
    metabolic disorders the measured value is PaCO2 and the labels are
    respiratory alkalosis (lower) and respiratory acidosis (upper); for the
    two respiratory disorders the measured value is HCO3 and the labels are
    metabolic acidosis (lower) and metabolic alkalosis (upper). *)
Theorem C2_compensation_assessment primary paco2 hco3 s :
  pure_disorder primary ->
  primaryDisorder s = Some primary ->
  let s' := post (evaluateCompensation paco2 hco3) s in
  exists e,
    expectedCompensationValue s' = Some e /\
    assessed primary paco2 hco3 e s s' /\
    (label_below primary, label_above primary)
    = (if is_metabolic primary
       then ("respiratory alkalosis", "respiratory acidosis")
       else ("metabolic acidosis", "metabolic alkalosis")).
Proof.
  intros [-> | [-> | [-> | ->]]] Hs s'.
  - destruct (evaluateCompensation_metabolic_acidosis64 paco2 hco3 s Hs)
      as (He & _ & Ha).
    eexists. split; [exact He|]. split; [exact Ha | reflexivity].
  - destruct (evaluateCompensation_metabolic_alkalosis64 paco2 hco3 s Hs)
      as (He & _ & Ha).
    eexists. split; [exact He|]. split; [exact Ha | reflexivity].
  - destruct (evaluateCompensation_respiratory64 "respiratory acidosis"
                paco2 hco3 s) as (e & He & _ & _ & Ha);
      [left; reflexivity | exact Hs |].
    exists e. split; [exact He|]. split; [exact Ha | reflexivity].
  - destruct (evaluateCompensation_respiratory64 "respiratory alkalosis"
                paco2 hco3 s) as (e & He & _ & _ & Ha);
      [right; reflexivity | exact Hs |].
    exists e. split; [exact He|]. split; [exact Ha | reflexivity].
Qed.

(** C5, in the arithmetic of the code.  When the primary disorder is
    respiratory acidosis (respiratory alkalosis), with the acute expectation
    24 + (PaCO2 - 40) 0.1 (24 + (PaCO2 - 40) 0.2) and the chronic one
    24 + (PaCO2 - 40) 0.35 (24 + (PaCO2 - 40) 0.5), the acute one is stored
    as [expectedCompensationValue], with [compensationType] ['acute'], when
    the measured HCO3 is found strictly nearer to it, and the chronic one,
    with ['chronic'], otherwise; the assessment is ['appropriate'] exactly
    when the distance of the measured HCO3 to the stored value, as
    computed, is at most 3, and ['mixed'] exactly when it is not. *)
Theorem C5_respiratory_compensation primary paco2 hco3 s :
  primary = "respiratory acidosis" \/ primary = "respiratory alkalosis" ->
  primaryDisorder s = Some primary ->
  let acute := (lit 24 + (paco2 - lit 40) * slope_acute primary)%ieee in
  let chronic := (lit 24 + (paco2 - lit 40) * slope_chronic primary)%ieee in
  let nearer_acute :=
    (Binary64.abs (hco3 - acute) <? Binary64.abs (hco3 - chronic))%ieee in
  let s' := post (evaluateCompensation paco2 hco3) s in
  (slope_acute "respiratory acidosis" = lit 0.1 /\
   slope_chronic "respiratory acidosis" = lit 0.35 /\
   slope_acute "respiratory alkalosis" = lit 0.2 /\
   slope_chronic "respiratory alkalosis" = lit 0.5) /\
  exists e,
    expectedCompensationValue s' = Some e /\
    (nearer_acute = true -> e = acute /\ compensationType s' = Some "acute") /\
    (nearer_acute = false -> e = chronic /\ compensationType s' = Some "chronic") /\
    (compensationAssessment s' = Some "appropriate" <->
       (Binary64.abs (hco3 - e) <=? lit 3)%ieee = true) /\
    (compensationAssessment s' = Some "mixed" <->
       (Binary64.abs (hco3 - e) <=? lit 3)%ieee = false).
Proof.
  intros Hp Hs acute chronic nearer_acute s'.
  split; [repeat split; reflexivity|].
  destruct (evaluateCompensation_respiratory64 primary paco2 hco3 s Hp Hs)
    as (e & He & Hac & Hch & Ha).
  fold acute chronic nearer_acute s' in He, Hac, Hch, Ha.
  pose proof (assessed_appropriate64 _ _ _ _ _ _ Ha) as [Happ Hmix].
  assert (Hm : measured primary paco2 hco3 = hco3 /\ tolerance primary = lit 3)
    by (destruct Hp as [-> | ->]; split; reflexivity).
  destruct Hm as [Hm Ht]. rewrite Hm, Ht in Happ, Hmix.
  exists e. repeat split; try apply Hac; try apply Hch; try apply Happ;
    try apply Hmix; assumption.
Qed.

End CompensationClaims64.

(* ------------------------------------------------------------------ *)
(** ** Winter's formula in a whole analysis, on binary64 numbers *)

Section Winters64.
Import IEEE.
Context {rt : JSRuntime}.

(** What an analysis that finds a metabolic acidosis returns of step 4. *)
Lemma winters_in_analysis64 values this ph paco2 hco3 :
  valid_inputs values ph paco2 hco3 ->
  let st := final_state (fst (analyze values this)) in
  primaryDisorder st = Some "metabolic acidosis" ->
  let e := (lit 1.5 * hco3 + lit 8)%ieee in
  let within := (Binary64.abs (paco2 - e) <=? lit 2)%ieee in
  let below := (paco2 <? e - lit 2)%ieee in
  expectedCompensationValue st = Some e /\
  (compensationAssessment st = Some "appropriate" <-> within = true) /\
  (within = false -> below = true ->
     compensationAssessment st = Some "mixed" /\
     "respiratory alkalosis" ∈ additionalDisorders st) /\
  (within = false -> below = false ->
     compensationAssessment st = Some "mixed" /\
     "respiratory acidosis" ∈ additionalDisorders st).
Proof.
  intros Hv st. subst st. rewrite (analyze_valid64 _ _ _ _ _ Hv).
  cbn [fst final_state]. intros Hpd. cbv zeta.
  destruct Hv as (Hph & Hp & Hh & _).
  pose proof (final_state64 values) as (P6 & _ & E6 & A6 & more & L6).
  rewrite P6 in Hpd.
  pose proof (evaluateCompensation_metabolic_acidosis64 paco2 hco3 _ Hpd)
    as (He & _ & Ha).
  pose proof (assessed_appropriate64 _ _ _ _ _ _ Ha) as [Happ _].
  destruct Ha as (_ & Hlow & Hhigh).
  cbn [measured tolerance is_metabolic label_below label_above
       String.eqb Ascii.eqb Bool.eqb orb] in Hlow, Hhigh, Happ.
  assert (Hs4 : state_after_step4 values
                = post (evaluateCompensation paco2 hco3) (state_after_step3 values)).
  { unfold state_after_step4. rewrite Hp, Hh. reflexivity. }
  rewrite <- Hs4 in He, Hlow, Hhigh, Happ.
  rewrite (state_after_step3_additional64 values) in Hlow, Hhigh.
  rewrite E6, A6, L6.
  split; [exact He|]. split; [exact Happ|]. split.
  - intros H1 H2. destruct (Hlow H1 H2) as [Hm Hl]. split; [exact Hm|].
    rewrite Hl. apply elem_of_app. left. apply list_elem_of_singleton. reflexivity.
  - intros H1 H2. destruct (Hhigh H1 H2) as [Hm Hl]. split; [exact Hm|].
    rewrite Hl. apply elem_of_app. left. apply list_elem_of_singleton. reflexivity.
Qed.

(** C6, in the arithmetic of the code.  For every input that passes
    validation and whose primary disorder is metabolic acidosis, the
    expected compensation value is 1.5 HCO3 + 8, the assessment is
    ['appropriate'] exactly when the distance of the measured PaCO2 to it,
    as computed, is at most 2, and outside that band the assessment is
    ['mixed'], with respiratory alkalosis among the additional disorders
    when PaCO2 is below the computed bound and respiratory acidosis when it
    is not.  In particular, with PaCO2 30 and HCO3 13 the expected value is
    27.5, the measured 30 is above 27.5 + 2, the assessment is ['mixed']
    and respiratory acidosis is listed. *)
Theorem C6_winters_formula values this ph paco2 hco3 :
  valid_inputs values ph paco2 hco3 ->
  let st := final_state (fst (analyze values this)) in
  primaryDisorder st = Some "metabolic acidosis" ->
  let e := (lit 1.5 * hco3 + lit 8)%ieee in
  let within := (Binary64.abs (paco2 - e) <=? lit 2)%ieee in
  let below := (paco2 <? e - lit 2)%ieee in
  expectedCompensationValue st = Some e /\
  (compensationAssessment st = Some "appropriate" <-> within = true) /\
  (within = false -> below = true ->
     compensationAssessment st = Some "mixed" /\
     "respiratory alkalosis" ∈ additionalDisorders st) /\
  (within = false -> below = false ->
     compensationAssessment st = Some "mixed" /\
     "respiratory acidosis" ∈ additionalDisorders st) /\
  (paco2 = lit 30 -> hco3 = lit 13 ->
     e = lit 27.5 /\ (paco2 >? e + lit 2)%ieee = true /\
     compensationAssessment st = Some "mixed" /\
     "respiratory acidosis" ∈ additionalDisorders st).
Proof.
  intros Hv st Hpd e within below.
  destruct (winters_in_analysis64 values this ph paco2 hco3 Hv Hpd)
    as (He & Happ & Hlow & Hhigh).
  fold st e within below in He, Happ, Hlow, Hhigh.
  split; [exact He|]. split; [exact Happ|].
  split; [exact Hlow|]. split; [exact Hhigh|].
  intros Ep Eh.
  assert (H27 : e = lit 27.5) by (unfold e; rewrite Eh; vm_compute; reflexivity).
  assert (Hgt : (paco2 >? e + lit 2)%ieee = true)
    by (rewrite H27, Ep; vm_compute; reflexivity).
  assert (Hw : within = false)
    by (unfold within; rewrite H27, Ep; vm_compute; reflexivity).
  assert (Hb : below = false)
    by (unfold below; rewrite H27, Ep; vm_compute; reflexivity).
  split; [exact H27|]. split; [exact Hgt|]. exact (Hhigh Hw Hb).
Qed.

(** At the edge of the band the rounding decides: with PaCO2 29.8 and
    HCO3 13.2 the expected value stored is the double below 27.8, the
    distance computed exceeds 2, and the analysis reports a mixed disorder
    with a respiratory acidosis. *)
Lemma winters_band_edge values this ph :
  valid_inputs values ph (lit 29.8) (lit 13.2) ->
  let st := final_state (fst (analyze values this)) in
  primaryDisorder st = Some "metabolic acidosis" ->
  (lit 1.5 * lit 13.2 + lit 8 <? lit 27.8)%ieee = true /\
  (Binary64.abs (lit 29.8 - (lit 1.5 * lit 13.2 + lit 8)) >? lit 2)%ieee = true /\
  compensationAssessment st = Some "mixed" /\
  "respiratory acidosis" ∈ additionalDisorders st.
Proof.
  intros Hv st Hpd.
  destruct (winters_in_analysis64 values this ph _ _ Hv Hpd)
    as (_ & _ & _ & Hhigh).
  split; [vm_compute; reflexivity|]. split; [vm_compute; reflexivity|].
  apply Hhigh; vm_compute; reflexivity.
Qed.

End Winters64.

(* ------------------------------------------------------------------ *)
(** ** Step 5 on binary64 numbers *)

Section AnionGap64.
Import IEEE.
Context {rt : JSRuntime}.

(** The number that [parseFloat] gives back stands for the same value. *)
Lemma parseFloat_number a :
  Binary64.is_nan (parseFloat (JNum a)) = Binary64.is_nan a /\
  (parseFloat (JNum a) <? lit 4.0)%ieee = (a <? lit 4.0)%ieee /\
  (parseFloat (JNum a) >=? lit 0)%ieee = (a >=? lit 0)%ieee /\
  (parseFloat (JNum a) <? lit 0)%ieee = (a <? lit 0)%ieee /\
  (lit 4.0 - parseFloat (JNum a))%ieee = (lit 4.0 - a)%ieee.
Proof.
  destruct a as [[|]| | |]; repeat split; vm_compute; reflexivity.
Qed.

(** C7, in the arithmetic of the code.  When Na, Cl and HCO3 are numbers,
    step 5 stores anionGap = Na - (Cl + HCO3); correctedAnionGap is
    anionGap + 2.5 (4.0 - albumin) when albumin is a number in [0, 4.0) and
    anionGap in every other case (albumin absent, null, NaN or out of that
    range).  When the stored correctedAnionGap is above 12 the text reports
    an elevated anion gap and, the primary disorder not being metabolic
    acidosis, the label ['high anion gap metabolic acidosis'] is appended
    unless the list holds it already; when it is not above 12, as for every
    value of 12 or less, the text reports a normal anion gap and the list
    is unchanged. *)
Theorem C7_anion_gap values na cl hco3 s :
  prop values "na" = JNum na ->
  prop values "cl" = JNum cl ->
  prop values "hco3" = JNum hco3 ->
  Binary64.is_nan na = false ->
  Binary64.is_nan cl = false ->
  Binary64.is_nan hco3 = false ->
  let albumin := prop values "albumin" in
  let s' := post (analyze_step5 values) s in
  let txt := step5_text values s in
  let ag := (na - (cl + hco3))%ieee in
  let label := "high anion gap metabolic acidosis" in
  anionGap s' = Some ag /\
  (forall a, albumin = JNum a ->
     (lit 0 <=? a)%ieee = true -> (a <? lit 4.0)%ieee = true ->
     correctedAnionGap s' = Some (ag + lit 2.5 * (lit 4.0 - a))%ieee) /\
  (~ (exists a, albumin = JNum a /\
                (lit 0 <=? a)%ieee = true /\ (a <? lit 4.0)%ieee = true) ->
     correctedAnionGap s' = Some ag) /\
  exists c,
    correctedAnionGap s' = Some c /\
    ((c >? lit 12)%ieee = true ->
       reports txt " Elevated Anion Gap." /\
       (primaryDisorder s <> Some "metabolic acidosis" -> label ∉ additionalDisorders s ->
          additionalDisorders s' = additionalDisorders s ++ [label]) /\
       (primaryDisorder s <> Some "metabolic acidosis" -> label ∈ additionalDisorders s ->
          additionalDisorders s' = additionalDisorders s) /\
       (primaryDisorder s = Some "metabolic acidosis" ->
          additionalDisorders s' = additionalDisorders s)) /\
    ((c >? lit 12)%ieee = false ->
       reports txt " Normal Anion Gap." /\
       additionalDisorders s' = additionalDisorders s) /\
    ((c <=? lit 12)%ieee = true -> (c >? lit 12)%ieee = false).
Proof.
  intros Hna Hcl Hh Nna Ncl Nh. cbv zeta.
  destruct s as [abs pd ct ecv ca ad ag0 cag dr dra].
  unfold step5_text, post, exec, analyze_step5, calculateAnionGap, albumin_usable.
  rewrite Hna, Hcl, Hh. cbn [ToNumber is_undefined negb andb].
  rewrite Nna, Ncl, Nh. cbn [orb].
  destruct (prop values "albumin") as [| |a] eqn:Halb.
  1,2: cbn [is_undefined negb andb parseFloat];
    change (Binary64.is_nan Binary64.nan) with true; cbn [negb andb orb];
    run_stage64;
    (split; [reflexivity|]);
    (split; [intros a' Ha'; discriminate|]);
    (split; [intros _; reflexivity|]);
    eexists; (split; [reflexivity|]);
    (split; [|split; [|intros Hle; apply b64_le_not_gt; exact Hle]]);
    intros Hc; try congruence;
    repeat match goal with
    | H : is_str _ _ = true |- _ => apply is_str_true in H
    | H : is_str _ _ = false |- _ => apply is_str_false in H
    | H : includes _ _ = true |- _ => apply includes_true in H
    | H : includes _ _ = false |- _ => apply includes_false in H
    | H : negb _ = true |- _ => apply negb_true_iff in H
    | H : negb _ = false |- _ => apply negb_false_iff in H
    | H : (_ && _) = true |- _ => apply andb_true_iff in H; destruct H
    | H : (_ && _) = false |- _ => apply andb_false_iff in H; destruct H
    end;
    cbn [primaryDisorder additionalDisorders] in *;
    repeat split; intros;
    try reflexivity; try contradiction; try congruence;
    auto using reports_end, reports_more.
  pose proof (parseFloat_number a) as E. revert E.
  generalize (parseFloat (JNum a)). intros albuminNum (E1 & E2 & E3 & E4 & E5).
  cbn [is_undefined negb andb]. rewrite E1, E2, E3, E4.
  assert (Hnan : Binary64.is_nan a = true ->
                 (a <? lit 4.0)%ieee = false /\ (a >=? lit 0)%ieee = false)
    by (destruct a; try discriminate; intros _; split; vm_compute; reflexivity).
  destruct (Binary64.is_nan a) eqn:Na;
    [destruct (Hnan eq_refl) as [L4 G0]; rewrite L4, G0
    |destruct (a <? lit 4.0)%ieee eqn:L4;
     destruct (a >=? lit 0)%ieee eqn:G0];
    clear Hnan;
    cbn [negb andb orb];
    run_stage64; rewrite ?E5;
    (split; [reflexivity|]);
    (split; [intros a' [= <-] Ha1 Ha2; unfold Binary64.ge in *;
             first [reflexivity | congruence]|]);
    (split; [intros Hn;
             first [reflexivity
                   | exfalso; apply Hn; exists a; unfold Binary64.ge in *;
                     split; [reflexivity | split; assumption]]|]);
    eexists; (split; [reflexivity|]);
    (split; [|split; [|intros Hle; apply b64_le_not_gt; exact Hle]]);
    intros Hc; try congruence;
    repeat match goal with
    | H : is_str _ _ = true |- _ => apply is_str_true in H
    | H : is_str _ _ = false |- _ => apply is_str_false in H
    | H : includes _ _ = true |- _ => apply includes_true in H
    | H : includes _ _ = false |- _ => apply includes_false in H
    | H : negb _ = true |- _ => apply negb_true_iff in H
    | H : negb _ = false |- _ => apply negb_false_iff in H
    | H : (_ && _) = true |- _ => apply andb_true_iff in H; destruct H
    | H : (_ && _) = false |- _ => apply andb_false_iff in H; destruct H
    end;
    cbn [primaryDisorder additionalDisorders] in *;
    repeat split; intros;
    try reflexivity; try contradiction; try congruence;
    auto using reports_end, reports_more.
Qed.

End AnionGap64.

(* ------------------------------------------------------------------ *)
(** ** Step 1 on binary64 numbers *)

Section Consistency64.
Import IEEE.
Context {rt : JSRuntime}.

(** A strict comparison that holds has a number on its left. *)
Lemma b64_gt_number (a b : Binary64.number) :
  (a >? b)%ieee = true -> Binary64.is_nan a = false.
Proof. destruct a, b; cbn; try discriminate; reflexivity. Qed.

(** The distance to NaN is NaN, which exceeds nothing. *)
Lemma b64_distance_nan (a b c : Binary64.number) :
  Binary64.is_nan b = true -> (Binary64.abs (a - b) >? c)%ieee = false.
Proof.
  destruct b; try discriminate. intros _.
  destruct a, c; reflexivity.
Qed.

(** X16, in the arithmetic of the code.  Step 1 of a valid analysis never
    takes its guard against a zero HCO3, since validation has put HCO3 at 2
    or more.  With calculatedH = 24 (PaCO2 / HCO3) and
    measuredH = Math.pow(10, -pH) 1e9, it reports a possible inconsistency
    exactly when the distance |calculatedH - measuredH|, as computed,
    exceeds measuredH 0.20, and consistency otherwise; a NaN from
    [Math.pow] is reported as consistent. *)
Theorem X16_step1_consistency values this ph paco2 hco3 :
  valid_inputs values ph paco2 hco3 ->
  let t := step1 (texts (fst (analyze values this))) in
  let calculatedH := (lit 24 * (paco2 / hco3))%ieee in
  let measuredH := (Math_pow (lit 10) (Binary64.neg ph) * lit 1e9)%ieee in
  let difference := Binary64.abs (calculatedH - measuredH) in
  t <> "Inconsistency: HCO₃⁻ cannot be zero." /\
  (String.prefix "Possible inconsistency detected." t = true <->
     (difference >? measuredH * lit 0.20)%ieee = true) /\
  (String.prefix "Values appear internally consistent." t = true <->
     (difference >? measuredH * lit 0.20)%ieee = false) /\
  (Binary64.is_nan (Math_pow (lit 10) (Binary64.neg ph)) = true ->
     String.prefix "Values appear internally consistent." t = true).
Proof.
  intros Hv. rewrite (analyze_valid64 _ _ _ _ _ Hv).
  destruct Hv as (Hph & Hp & Hh & _ & _ & [Rh _]).
  cbn [fst texts]. unfold final_results, results_after_step6.
  cbn [step1 with_step1 with_step2 with_step3 with_step4 with_step5 with_step6
       with_finalInterpretation].
  rewrite Hph, Hp, Hh. cbn [ToNumber].
  unfold text, exec, checkInternalConsistency.
  rewrite (b64_two_not_zero _ Rh). cbv zeta.
  set (calculatedH := (lit 24 * (paco2 / hco3))%ieee).
  set (measuredH := (Math_pow (lit 10) (Binary64.neg ph) * lit 1e9)%ieee).
  set (difference := Binary64.abs (calculatedH - measuredH)).
  assert (Hnan : Binary64.is_nan (Math_pow (lit 10) (Binary64.neg ph)) = true ->
                 (difference >? measuredH * lit 0.20)%ieee = false).
  { intros H. apply b64_distance_nan. unfold measuredH.
    destruct (Math_pow (lit 10) (Binary64.neg ph)); try discriminate.
    reflexivity. }
  destruct (difference >? measuredH * lit 0.20)%ieee eqn:E.
  - rewrite (b64_gt_number _ _ E). cbn [negb andb ret fst].
    split; [differs "I"|]. split; [split; [reflexivity | intros _; vm_compute; reflexivity]|].
    split; [split; [intros H; vm_compute in H; discriminate | discriminate]|].
    intros H. specialize (Hnan H). discriminate.
  - cbn [andb ret fst].
    split; [differs "I"|]. split; [split; [intros H; vm_compute in H; discriminate | discriminate]|].
    split; [split; [reflexivity | intros _; vm_compute; reflexivity]|].
    intros _. vm_compute. reflexivity.
Qed.

End Consistency64.

(* ------------------------------------------------------------------ *)
(** ** The statements on concrete measurements *)

(** C2 on a respiratory acidosis at the edge of its band: with PaCO2 62.0
    and HCO3 34.7 the chronic expectation is stored, the distance computed
    exceeds 3, and the label of the upper side is appended. *)
Lemma C2_compensation_assessment_witness :
  let primary := "respiratory acidosis" in
  let s := IEEE.found_primary primary in
  let paco2 := IEEE.lit 62.0 in
  let hco3 := IEEE.lit 34.7 in
  let s' := IEEE.post (IEEE.evaluateCompensation (rt:=IEEE.runtime) paco2 hco3) s in
  pure_disorder primary /\
  IEEE.primaryDisorder s = Some primary /\
  IEEE.compensationAssessment s' = Some "mixed" /\
  IEEE.additionalDisorders s' = ["metabolic alkalosis"].
Proof.
  intros primary s paco2 hco3 s'.
  assert (H1 : pure_disorder primary) by (right; right; left; reflexivity).
  assert (H2 : IEEE.primaryDisorder s = Some primary) by reflexivity.
  split; [exact H1|]. split; [exact H2|].
  destruct (C2_compensation_assessment (rt:=IEEE.runtime) primary paco2 hco3 s H1 H2)
    as (e & He & (_ & _ & Hhigh) & _).
  assert (E : e = (IEEE.lit 24 + (paco2 - IEEE.lit 40) * IEEE.lit 0.35)%ieee).
  { vm_compute in He. injection He as <-. vm_compute. reflexivity. }
  subst e. apply Hhigh; vm_compute; reflexivity.
Defined.

(** The claim C2 as worded fails on pH 7.20, PaCO2 60, HCO3 20: the primary
    disorder is respiratory acidosis, the expected value stored is 26, the
    measured HCO3 (20) is below the bound 26 - 3, and the label appended is
    metabolic acidosis, not a disorder in the direction of alkalosis. *)
Lemma C2_counterexample :
  let values := IEEE.measurements [("ph", 7.20%Q); ("paco2", 60%Q); ("hco3", 20%Q)] in
  let st := IEEE.final_state
              (fst (IEEE.analyze (rt:=IEEE.runtime) values IEEE.new_analyzer)) in
  IEEE.primaryDisorder st = Some "respiratory acidosis" /\
  IEEE.expectedCompensationValue st = Some (IEEE.lit 26) /\
  (IEEE.lit 20 <? IEEE.lit 26 - IEEE.lit 3)%ieee = true /\
  IEEE.compensationAssessment st = Some "mixed" /\
  IEEE.additionalDisorders st = ["metabolic acidosis"] /\
  "metabolic alkalosis" ∉ IEEE.additionalDisorders st.
Proof.
  intros values st.
  assert (Hst : st = IEEE.mkState (Some "acidemia") (Some "respiratory acidosis")
                       (Some "acute") (Some (IEEE.lit 26))
                       (Some "mixed") ["metabolic acidosis"]
                       None None None None)
    by (vm_compute; reflexivity).
  rewrite Hst. cbn [IEEE.primaryDisorder IEEE.expectedCompensationValue
                    IEEE.compensationAssessment IEEE.additionalDisorders].
  split; [reflexivity|]. split; [reflexivity|].
  split; [vm_compute; reflexivity|].
  split; [reflexivity|]. split; [reflexivity|].
  intros Hin. apply list_elem_of_singleton in Hin. discriminate.
Qed.

(** C5 where the exact distances tie: with PaCO2 72 and HCO3 31.2 the
    acute expectation 27.2 and the chronic one 35.2 are both 4 away, the
    distance to the acute one is computed one unit in the last place
    shorter, and the acute expectation is stored. *)
Lemma C5_respiratory_compensation_witness :
  let primary := "respiratory acidosis" in
  let s := IEEE.found_primary primary in
  let paco2 := IEEE.lit 72 in
  let hco3 := IEEE.lit 31.2 in
  let s' := IEEE.post (IEEE.evaluateCompensation (rt:=IEEE.runtime) paco2 hco3) s in
  (primary = "respiratory acidosis" \/ primary = "respiratory alkalosis") /\
  IEEE.primaryDisorder s = Some primary /\
  IEEE.compensationType s' = Some "acute" /\
  IEEE.compensationAssessment s' = Some "mixed".
Proof.
  intros primary s paco2 hco3 s'.
  assert (H1 : primary = "respiratory acidosis" \/ primary = "respiratory alkalosis")
    by (left; reflexivity).
  assert (H2 : IEEE.primaryDisorder s = Some primary) by reflexivity.
  split; [exact H1|]. split; [exact H2|].
  destruct (C5_respiratory_compensation (rt:=IEEE.runtime) primary paco2 hco3 s H1 H2)
    as (_ & e & He & Hac & _ & _ & Hmix).
  destruct Hac as [-> Hty]; [vm_compute; reflexivity|].
  split; [exact Hty|]. apply Hmix. vm_compute. reflexivity.
Defined.

(** C6 on the measurements pH 7.25, PaCO2 30, HCO3 13. *)
Lemma C6_winters_formula_witness :
  let values := IEEE.measurements [("ph", 7.25%Q); ("paco2", 30%Q); ("hco3", 13%Q)] in
  let st := IEEE.final_state
              (fst (IEEE.analyze (rt:=IEEE.runtime) values IEEE.new_analyzer)) in
  IEEE.valid_inputs values (IEEE.lit 7.25) (IEEE.lit 30) (IEEE.lit 13) /\
  IEEE.primaryDisorder st = Some "metabolic acidosis" /\
  IEEE.expectedCompensationValue st = Some (IEEE.lit 27.5) /\
  IEEE.compensationAssessment st = Some "mixed" /\
  "respiratory acidosis" ∈ IEEE.additionalDisorders st.
Proof.
  intros values st.
  assert (Hv : IEEE.valid_inputs values (IEEE.lit 7.25) (IEEE.lit 30) (IEEE.lit 13))
    by (repeat split; vm_compute; reflexivity).
  assert (Hpd : IEEE.primaryDisorder st = Some "metabolic acidosis")
    by (vm_compute; reflexivity).
  split; [exact Hv|]. split; [exact Hpd|].
  destruct (C6_winters_formula (rt:=IEEE.runtime) values IEEE.new_analyzer
              _ _ _ Hv Hpd) as (He & _ & _ & _ & Hscen).
  destruct Hscen as (H27 & _ & Hmix & Hin); [reflexivity | reflexivity |].
  split; [rewrite <- H27; exact He|]. split; [exact Hmix | exact Hin].
Defined.

(** C7 on Na 140, Cl 100, HCO3 15, albumin 2.0: the gap is 25, the
    corrected gap 30. *)
Lemma C7_anion_gap_witness :
  let values :=
    IEEE.measurements
      [("na", 140%Q); ("cl", 100%Q); ("hco3", 15%Q); ("albumin", 2.0%Q)] in
  let s' := IEEE.post (IEEE.analyze_step5 (rt:=IEEE.runtime) values) IEEE.fresh_state in
  IEEE.prop values "na" = IEEE.JNum (IEEE.lit 140) /\
  IEEE.prop values "cl" = IEEE.JNum (IEEE.lit 100) /\
  IEEE.prop values "hco3" = IEEE.JNum (IEEE.lit 15) /\
  IEEE.anionGap s' = Some (IEEE.lit 140 - (IEEE.lit 100 + IEEE.lit 15))%ieee /\
  (IEEE.lit 140 - (IEEE.lit 100 + IEEE.lit 15))%ieee = IEEE.lit 25 /\
  IEEE.correctedAnionGap s'
  = Some (IEEE.lit 140 - (IEEE.lit 100 + IEEE.lit 15)
          + IEEE.lit 2.5 * (IEEE.lit 4.0 - IEEE.lit 2.0))%ieee /\
  (IEEE.lit 140 - (IEEE.lit 100 + IEEE.lit 15)
   + IEEE.lit 2.5 * (IEEE.lit 4.0 - IEEE.lit 2.0))%ieee = IEEE.lit 30.
Proof.
  intros values s'.
  assert (H1 : IEEE.prop values "na" = IEEE.JNum (IEEE.lit 140))
    by (vm_compute; reflexivity).
  assert (H2 : IEEE.prop values "cl" = IEEE.JNum (IEEE.lit 100))
    by (vm_compute; reflexivity).
  assert (H3 : IEEE.prop values "hco3" = IEEE.JNum (IEEE.lit 15))
    by (vm_compute; reflexivity).
  assert (N1 : Binary64.is_nan (IEEE.lit 140) = false) by (vm_compute; reflexivity).
  assert (N2 : Binary64.is_nan (IEEE.lit 100) = false) by (vm_compute; reflexivity).
  assert (N3 : Binary64.is_nan (IEEE.lit 15) = false) by (vm_compute; reflexivity).
  destruct (C7_anion_gap (rt:=IEEE.runtime) values _ _ _ IEEE.fresh_state
              H1 H2 H3 N1 N2 N3) as (Hag & Hcorr & _).
  split; [exact H1|]. split; [exact H2|]. split; [exact H3|].
  split; [exact Hag|]. split; [vm_compute; reflexivity|].
  split; [|vm_compute; reflexivity].
  apply (Hcorr (IEEE.lit 2.0)); vm_compute; reflexivity.
Defined.

(** Step 5 at the edge: Na 136.3, Cl 100.3 and HCO3 24 give a gap computed
    as 12.000000000000014, which is above 12: the text reports an elevated
    anion gap and the label is appended. *)
Lemma anion_gap_edge :
  let values :=
    IEEE.measurements [("na", 136.3%Q); ("cl", 100.3%Q); ("hco3", 24%Q)] in
  let s' := IEEE.post (IEEE.analyze_step5 (rt:=IEEE.runtime) values) IEEE.fresh_state in
  let txt := IEEE.step5_text (rt:=IEEE.runtime) values IEEE.fresh_state in
  IEEE.anionGap s' = Some (IEEE.lit 136.3 - (IEEE.lit 100.3 + IEEE.lit 24))%ieee /\
  (IEEE.lit 136.3 - (IEEE.lit 100.3 + IEEE.lit 24) >? IEEE.lit 12)%ieee = true /\
  txt = "Anion Gap = 12.0 mmol/L (Normal ≈ 8-12). Elevated Anion Gap. Suggests additional High AG Metabolic Acidosis." /\
  IEEE.additionalDisorders s' = ["high anion gap metabolic acidosis"].
Proof. repeat split; vm_compute; reflexivity. Qed.

(** X16 at the edge: with pH 6, PaCO2 70 and HCO3 2.1 the quotient gives
    calculatedH 799.9999999999999 against measuredH 1000, a distance
    above 200, and the text reports a possible inconsistency. *)
Lemma X16_step1_consistency_witness :
  let values := IEEE.measurements [("ph", 6%Q); ("paco2", 70%Q); ("hco3", 2.1%Q)] in
  let t := step1 (IEEE.texts
             (fst (IEEE.analyze (rt:=IEEE.runtime) values IEEE.new_analyzer))) in
  IEEE.valid_inputs values (IEEE.lit 6) (IEEE.lit 70) (IEEE.lit 2.1) /\
  t <> "Inconsistency: HCO₃⁻ cannot be zero." /\
  String.prefix "Possible inconsistency detected." t = true.
Proof.
  intros values t.
  assert (Hv : IEEE.valid_inputs values (IEEE.lit 6) (IEEE.lit 70) (IEEE.lit 2.1))
    by (repeat split; vm_compute; reflexivity).
  split; [exact Hv|].
  destruct (X16_step1_consistency (rt:=IEEE.runtime) values IEEE.new_analyzer
              _ _ _ Hv) as (Hz & Hp & _).
  split; [exact Hz|]. apply Hp. vm_compute. reflexivity.
Defined.
